(** * Drawing-tool overlay of the volumetric viewer: embedding and properties

    The repository holds three revisions of the message/mouse handler
    ([src/custom/drawing_tool_handler.ts] and two further revisions of the same
    file, referred to below by the names [part_000] and [part_001]) together
    with the [DrawingTool] class.  Each revision is embedded in a module of its
    own ([Handler], [Part000], [Part001]); code that is textually shared by the
    revisions is embedded once.

    JavaScript numbers are IEEE-754 binary64 values and are modelled by Rocq's
    primitive floats, so [===], [<], [isFinite] and the arithmetic of
    [convertLength] are the ones the program runs.

    What the engine or the browser decides, and not the program, is a
    parameter of the embedding: the lower-casing of a string, the conversion
    of a number to a string, [encodeURIComponent], and whether a string
    parses as a CSS cursor.  The theorems hold for every choice of them. *)

From Stdlib Require Import ZArith Floats Lia Ascii String.
From stdpp Require Import base option list strings gmap.

Set Warnings "-inexact-float".

Local Open Scope string_scope.
Local Open Scope list_scope.
Local Open Scope stdpp_scope.

(** ** JavaScript values *)

(** A [number], or [undefined] where the program reads an array slot that
    does not exist. *)
Definition jsnum := option float.

(** The global [isFinite]: [undefined] coerces to NaN. *)
Definition isFinite (x : jsnum) : bool :=
  match x with
  | Some f => is_finite f
  | None => false
  end.

(** Truthiness of a number and of a string. *)
Definition truthy_number (x : float) : bool := negb (is_zero x || is_nan x).
Definition truthy_string (s : string) : bool := negb (String.eqb s "").

(** A nullable string-valued setting ([null]/[undefined] is [None]). *)
Definition truthy_opt (m : option string) : bool :=
  match m with
  | Some s => truthy_string s
  | None => false
  end.

Definition opt_is (m : option string) (lit : string) : bool :=
  match m with
  | Some s => String.eqb s lit
  | None => false
  end.

(** [a !== b], [a < b] and [a >= b] on numbers that may be [undefined]. *)
Definition strict_neq (a b : jsnum) : bool :=
  match a, b with
  | Some x, Some y => negb (x =? y)%float
  | None, None => false
  | _, _ => true
  end.

Definition js_lt (a b : jsnum) : bool :=
  match a, b with
  | Some x, Some y => (x <? y)%float
  | _, _ => false
  end.

Definition js_ge (a b : jsnum) : bool :=
  match a, b with
  | Some x, Some y => (y <=? x)%float
  | _, _ => false
  end.

(** [Math.max] of two numbers and [Math.min] of a spread array. *)
Definition Math_max (a b : float) : float :=
  if is_nan a || is_nan b then nan
  else if (a <? b)%float then b
  else if (b <? a)%float then a
  else if is_zero a then (a + b)%float
  else a.

Definition Math_min2 (a b : float) : float :=
  if is_nan a || is_nan b then nan
  else if (a <? b)%float then a
  else if (b <? a)%float then b
  else if is_zero a then (- ((- a) + (- b)))%float
  else a.

Definition Math_min (l : list float) : float := foldr Math_min2 infinity l.

(** [Math.floor], computed on the exact value [±m·2^e] of the float. *)
Definition Math_floor (x : float) : float :=
  match Prim2SF x with
  | S754_finite sgn m e =>
      if (0 <=? e)%Z then x
      else
        let num := if sgn then Z.neg m else Z.pos m in
        let q := (num / 2 ^ (- e))%Z in
        if (q =? 0)%Z then PrimFloat.zero
        else SF2Prim (binary_normalize prec emax q 0 false)
  | _ => x
  end.

(** [Math.ceil]: the negation of [Math.floor] at the negated number, signed
    zeros included. *)
Definition Math_ceil (x : float) : float := (- Math_floor (- x))%float.

(** The double-quote character of the template literals. *)
Definition dq : string := String (Ascii.ascii_of_nat 34) EmptyString.

(** On a string of ASCII characters, lower-casing lowers the letters A to Z
    and keeps every other character. *)
Fixpoint is_ascii (s : string) : bool :=
  match s with
  | EmptyString => true
  | String c s' => (Ascii.nat_of_ascii c <? 128)%nat && is_ascii s'
  end.

Definition lower_ascii (c : ascii) : ascii :=
  let n := Ascii.nat_of_ascii c in
  if (65 <=? n)%nat && (n <=? 90)%nat then Ascii.ascii_of_nat (n + 32) else c.

Fixpoint ascii_toLowerCase (s : string) : string :=
  match s with
  | EmptyString => EmptyString
  | String c s' => String (lower_ascii c) (ascii_toLowerCase s')
  end.

(** [String.prototype.toLowerCase] is a built-in of the language: it lowers
    every letter that has a lower-case form, by the Unicode tables of the
    engine that runs the code.  The handlers are embedded over it; what is
    known of it is its value on the strings of ASCII characters. *)
Class Builtins := {
  toLowerCase : string -> string;
  toLowerCase_ascii : forall s, is_ascii s = true -> toLowerCase s = ascii_toLowerCase s
}.

(** The built-in that keeps every character that is not ASCII.  The concrete
    runs at the end of the file are made with it, on strings of ASCII
    characters only. *)
Definition ascii_builtins : Builtins :=
  {| toLowerCase := ascii_toLowerCase; toLowerCase_ascii := fun s _ => eq_refl |}.

(** [Array.prototype.indexOf], with [None] for [-1]. *)
Fixpoint indexOf (l : list string) (x : string) : option nat :=
  match l with
  | [] => None
  | y :: l' => if String.eqb y x then Some 0%nat else S <$> indexOf l' x
  end.

Definition is_Some_b {A} (o : option A) : bool :=
  match o with
  | Some _ => true
  | None => false
  end.

(** The first element of a loop body that returns. *)
Fixpoint first_hit {A B : Type} (f : A -> option B) (l : list A) : option B :=
  match l with
  | [] => None
  | a :: l' =>
      match f a with
      | Some b => Some b
      | None => first_hit f l'
      end
  end.

(** ** Results of code that may throw *)

Inductive Outcome (A : Type) : Type :=
| Done (a : A)
| Throw (error : string).
Arguments Done {A} a.
Arguments Throw {A} error.

(** ** Length units ([ALLOWED_UNITS] of [#src/widget/scale_bar.js])

    The table itself is not part of the sources at hand; every function that
    reads it takes it as the parameter [ALLOWED_UNITS]. *)

Record LengthUnit := mkUnit { lu_unit : string; lengthInNanometers : float }.

(** The table as the upstream viewer declares it, used for concrete runs. *)
Definition upstream_units : list LengthUnit :=
  [ mkUnit "km" 1e12; mkUnit "m" 1e9; mkUnit "mm" 1e6;
    mkUnit "µm" 1e3; mkUnit "nm" 1; mkUnit "pm" 1e-3 ]%float.

Section Units.
Variable ALLOWED_UNITS : list LengthUnit.

(** [ALLOWED_UNITS.find(u => u.unit === name)] *)
Definition find_unit (name : string) : option LengthUnit :=
  List.find (fun u => String.eqb (lu_unit u) name) ALLOWED_UNITS.

Definition convertLength (value : float) (fromUnit toUnit : string) : Outcome float :=
  match find_unit fromUnit, find_unit toUnit with
  | Some from, Some to =>
      Done (value * (lengthInNanometers from / lengthInNanometers to))%float
  | _, _ =>
      Throw ("Unsupported unit conversion: " +:+ fromUnit +:+ " to " +:+ toUnit)
  end.
End Units.

(** ** The host viewer, as far as the handlers read it

    The viewer is an object of the host application.  Every property access
    the handlers guard with [?.], [??] or a truthiness test is an [option]
    here; the other accesses follow the declared TypeScript types. *)

Record ScaleBarDimensions := {
  physicalSizePerPixel : float;
  physicalLength : float;
  physicalUnit : option string;
  physicalBaseUnit : option string
}.

(** [scaleBar?.dimensions] *)
Record ScaleBar := { sb_dimensions : option ScaleBarDimensions }.

Record DisplayDimensionRenderInfo := {
  displayDimensionScales : option (list float);
  displayDimensionUnits : option (list string)
}.

(** A managed layer of a slice view: [managed?.userLayer?.type], and the
    entry [sv.visibleLayers.get(managed)] with its
    [displayDimensionRenderInfo]. *)
Record ManagedLayer := {
  userLayerType : option string;
  visibleLayerInfo : option (option DisplayDimensionRenderInfo)
}.

(** A slice view: [sv.visibleLayerList], and whether [sv.visibleLayers?.get]
    is there to be called. *)
Record SliceView := {
  visibleLayerList : option (list ManagedLayer);
  visibleLayers_get : bool
}.

(** A DOM element: an identity and its class names. *)
Record Element := { el_id : nat; el_classes : list string }.

Record Panel := {
  p_scaleBars : option (list ScaleBar);   (* panel?.scaleBars?.scaleBars *)
  p_sliceView : option SliceView;         (* panel?.sliceView *)
  p_element : option nat;                 (* panel.element *)
  p_offsetWidth : option float;           (* panel.element.offsetWidth, if not null *)
  p_offsetHeight : option float           (* panel.element.offsetHeight, if not null *)
}.

Record Bounds := { lowerBounds : list float; upperBounds : list float }.

Record CoordinateSpace := {
  cs_names : option (list string);
  cs_bounds : option Bounds;
  cs_scales : option (list float);
  cs_units : option (list string)
}.

Record Viewer := {
  mousePosition : option (list float);       (* viewer?.mouseState?.position *)
  coordinateSpace : option CoordinateSpace;  (* viewer?.coordinateSpace?.value *)
  panels : option (list Panel);              (* viewer?.display?.panels *)
  containerLeft : float;                     (* container.getBoundingClientRect() *)
  containerTop : float
}.

(** The navigation state of the viewer, which "reset_to_locked_view" writes:
    the [position] and [zoomFactor] objects, when present, and their values.
    The value of [position] is a [Float32Array]; [new Float32Array(value)]
    copies it element by element, so a copy is the same list. *)
Record NavigationState := {
  nav_position : option (option (list float));
  nav_zoomFactor : option (option float)
}.

(** A mouse event: the pressed button, the client coordinates and the target
    element followed by its ancestors. *)
Record MouseEvent := {
  button : Z;
  clientX : float;
  clientY : float;
  target : list Element
}.

Record KeyboardEvent := {
  key : string;
  ctrlKey : bool;
  metaKey : bool;
  altKey : bool;
  shiftKey : bool;
  key_target : list Element
}.

(** ** Strokes and prompts *)

Record StrokePoint := mkPoint { pt_x : jsnum; pt_y : jsnum; pt_z : jsnum }.

(** [BrushStroke]: the fields of [BaseStroke] and the points. *)
Record BrushStroke := mkStroke {
  st_mode : string;
  st_color : string;
  st_physicalSize : float;
  st_voxelSizes : option (list float);
  st_timestamp : string;
  st_points : list StrokePoint
}.

Inductive Prompt : Type :=
| PromptPoint (point : StrokePoint) (polarity : string)
| PromptBBox (startPoint endPoint : StrokePoint) (polarity : string)
| PromptScribble (points : list StrokePoint) (polarity : string)
| PromptLasso (points : list StrokePoint) (polarity : string).

Record LockedBBox := {
  x_start : float; x_end : float;
  y_start : float; y_end : float;
  z_start : float; z_end : float
}.

(** ** Messages *)

(** The [action] of a "portal_action" message: the name of a portal action,
    or the empty object that [postMessage] makes of [Object.prototype] (its
    structured clone has no own enumerable property). *)
Inductive PortalAction : Type :=
| action_name (name : string)
| action_empty_object.

(** Messages posted to the parent window. *)
Inductive ParentMessage : Type :=
| scale_bar_update (scaleBarLength : float)
| voxel_sizes_update (voxelSizes : list float)
| drawing_stroke_complete (stroke : option (BrushStroke * bool))
| annotation_state_update (strokeCount : nat) (canUndo canRedo : bool)
| prompt_complete (prompts : list Prompt)
| drawing_snapshot_created (strokes : list BrushStroke)
| viewer_state
| view_state (position : option (list jsnum)) (bbox : option LockedBBox)
    (voxelSizes : option (list float)) (scaleFactors : list float) (error : option string)
| portal_action (action : PortalAction)
| plugin_shortcut (shortcut : string) (pluginId : string).

Definition message_type (m : ParentMessage) : string :=
  match m with
  | scale_bar_update _ => "scale_bar_update"
  | voxel_sizes_update _ => "voxel_sizes_update"
  | drawing_stroke_complete _ => "drawing_stroke_complete"
  | annotation_state_update _ _ _ => "annotation_state_update"
  | prompt_complete _ => "prompt_complete"
  | drawing_snapshot_created _ => "drawing_snapshot_created"
  | viewer_state => "viewer_state"
  | view_state _ _ _ _ _ => "view_state"
  | portal_action _ => "portal_action"
  | plugin_shortcut _ _ => "plugin_shortcut"
  end.

(** Messages received from the parent window, by their [type]; the payload
    fields are the ones the handlers read. *)
Inductive Message : Type :=
| msg_screenshot
| msg_drawing_mode_change (mode : option string)
| msg_prompt_mode_change (mode : option string) (polarity : string)
| msg_drawing_size_change (size : float)
| msg_drawing_color_change (color : string)
| msg_eraser_mode_change (isEraser : option bool)
| msg_annotation_undo
| msg_annotation_redo
| msg_annotation_clear
| msg_annotation_state_sync (strokeCount : nat)
| msg_drawing_clear
| msg_prompt_clear
| msg_drawing_snapshot
| msg_segment_hover (segmentId : option Z)
| msg_segment_recolor
| msg_invalidate_chunks
| msg_get_viewer_state
| msg_view_locked (bbox : option LockedBBox)
| msg_view_unlocked
| msg_reset_to_locked_view
| msg_plugin_activated (pluginId : string) (shortcuts : list string)
| msg_plugin_deactivated
| msg_get_view_state
| msg_other (type : string).

(** Calls into the host that leave the handler's own state alone. *)
Inductive HostCall : Type :=
| scheduleRedraw
| takeScreenshot
| setSegmentSelection (segmentId : option Z)
| randomizeSegmentColors
| invalidateSegmentationCaches
| dispatchViewChangedLater.

(** ** What is painted on the overlay canvas

    The canvas content is the list of painting calls made since the canvas
    was last cleared as a whole; [getImageData]/[putImageData] copy and
    restore that list. *)
Inductive Mark : Type :=
| mark_stroke (composite style : string) (lineWidth : float) (x y : float) (joined : bool)
| mark_rect (style : string) (x y w h : float)
| mark_dot (style : string) (cx cy : float)
| mark_lock_border (element : nat)
| mark_lock_badge (element : nat).

(** ** The state of the handler

    The module-level variables of the handler file, the fields of the
    [DrawingTool] object it is set up for, the navigation state of the viewer,
    and what the handlers emit. *)

(** [strokeData], [promptData], [currentStroke], [currentPrompt], [isCapturing] *)
Record Capture := mkCapture {
  strokeData : list BrushStroke;
  promptData : list Prompt;
  currentStroke : option BrushStroke;
  currentPrompt : option Prompt;
  isCapturing : bool
}.

(** [rafId !== null], [pendingXY], [lastScreen] and the canvas content. *)
Record Render := mkRender {
  rafId : bool;
  pendingXY : option (float * float);
  lastScreen : float * float;
  canvas : list Mark
}.

(** The [DrawingTool] object.  [isEraser] is read by [part_001] only; the
    revision of the class that declares it is not among the sources. *)
Record Tool := mkTool {
  activeMode : option string;
  promptMode : option string;
  promptPolarity : string;
  brushPhysicalSize : float;
  brushPixelSize : float;
  strokeColor : string;
  isEraser : bool;
  isDrawing : bool;
  startX : float;
  startY : float;
  snapshot : option (list Mark)
}.

(** [lockedBBox], [lockedPosition], [lockedZoomFactor] *)
Record Locked := mkLocked {
  lockedBBox : option LockedBBox;
  lockedPosition : option (list float);
  lockedZoomFactor : option float
}.

(** [activePluginId], [activePluginKeys] *)
Record Plugin := mkPlugin {
  activePluginId : option string;
  activePluginKeys : gset string
}.

(** The flags of the DOM event being dispatched. *)
Record Flags := mkFlags {
  defaultPrevented : bool;
  propagationStopped : bool;
  immediatePropagationStopped : bool
}.

Record State := mkState {
  capture : Capture;
  render : Render;
  tool : Tool;
  locked : Locked;
  plugin : Plugin;
  navigationState : option NavigationState;
  lastScaleBarLength : option float;
  listeners : nat;          (* registered [onMove]/[onUp] pairs on [window] *)
  pendingSnapshots : nat;   (* [canvas.toBlob] requests not yet answered *)
  zoomRafId : bool;         (* [zoomRafId !== null] *)
  outbox : list ParentMessage;   (* [window.parent.postMessage], oldest first *)
  hostCalls : list HostCall;
  flags : Flags
}.

Definition no_flags : Flags := mkFlags false false false.

(** The state right after the module is loaded and the tool constructed. *)
Definition initial_state (nav : option NavigationState) : State := {|
  capture := mkCapture [] [] None None false;
  render := mkRender false None (nan, nan) [];
  tool := mkTool None None "positive" 8 20 "#ff0000" false false 0 0 None;
  locked := mkLocked None None None;
  plugin := mkPlugin None ∅;
  navigationState := nav;
  lastScaleBarLength := None;
  listeners := 0;
  pendingSnapshots := 0;
  zoomRafId := false;
  outbox := [];
  hostCalls := [];
  flags := no_flags
|}.

(** *** Field updates *)

Definition upd_capture (f : Capture -> Capture) (s : State) : State :=
  mkState (f (capture s)) (render s) (tool s) (locked s) (plugin s) (navigationState s)
    (lastScaleBarLength s) (listeners s) (pendingSnapshots s) (zoomRafId s) (outbox s) (hostCalls s) (flags s).
Definition upd_render (f : Render -> Render) (s : State) : State :=
  mkState (capture s) (f (render s)) (tool s) (locked s) (plugin s) (navigationState s)
    (lastScaleBarLength s) (listeners s) (pendingSnapshots s) (zoomRafId s) (outbox s) (hostCalls s) (flags s).
Definition upd_tool (f : Tool -> Tool) (s : State) : State :=
  mkState (capture s) (render s) (f (tool s)) (locked s) (plugin s) (navigationState s)
    (lastScaleBarLength s) (listeners s) (pendingSnapshots s) (zoomRafId s) (outbox s) (hostCalls s) (flags s).
Definition upd_locked (f : Locked -> Locked) (s : State) : State :=
  mkState (capture s) (render s) (tool s) (f (locked s)) (plugin s) (navigationState s)
    (lastScaleBarLength s) (listeners s) (pendingSnapshots s) (zoomRafId s) (outbox s) (hostCalls s) (flags s).
Definition upd_plugin (f : Plugin -> Plugin) (s : State) : State :=
  mkState (capture s) (render s) (tool s) (locked s) (f (plugin s)) (navigationState s)
    (lastScaleBarLength s) (listeners s) (pendingSnapshots s) (zoomRafId s) (outbox s) (hostCalls s) (flags s).
Definition set_navigationState (n : option NavigationState) (s : State) : State :=
  mkState (capture s) (render s) (tool s) (locked s) (plugin s) n
    (lastScaleBarLength s) (listeners s) (pendingSnapshots s) (zoomRafId s) (outbox s) (hostCalls s) (flags s).
Definition set_lastScaleBarLength (l : option float) (s : State) : State :=
  mkState (capture s) (render s) (tool s) (locked s) (plugin s) (navigationState s)
    l (listeners s) (pendingSnapshots s) (zoomRafId s) (outbox s) (hostCalls s) (flags s).
Definition set_listeners (n : nat) (s : State) : State :=
  mkState (capture s) (render s) (tool s) (locked s) (plugin s) (navigationState s)
    (lastScaleBarLength s) n (pendingSnapshots s) (zoomRafId s) (outbox s) (hostCalls s) (flags s).
Definition set_pendingSnapshots (n : nat) (s : State) : State :=
  mkState (capture s) (render s) (tool s) (locked s) (plugin s) (navigationState s)
    (lastScaleBarLength s) (listeners s) n (zoomRafId s) (outbox s) (hostCalls s) (flags s).
Definition set_zoomRafId (b : bool) (s : State) : State :=
  mkState (capture s) (render s) (tool s) (locked s) (plugin s) (navigationState s)
    (lastScaleBarLength s) (listeners s) (pendingSnapshots s) b (outbox s) (hostCalls s) (flags s).
Definition set_outbox (o : list ParentMessage) (s : State) : State :=
  mkState (capture s) (render s) (tool s) (locked s) (plugin s) (navigationState s)
    (lastScaleBarLength s) (listeners s) (pendingSnapshots s) (zoomRafId s) o (hostCalls s) (flags s).
Definition set_hostCalls (h : list HostCall) (s : State) : State :=
  mkState (capture s) (render s) (tool s) (locked s) (plugin s) (navigationState s)
    (lastScaleBarLength s) (listeners s) (pendingSnapshots s) (zoomRafId s) (outbox s) h (flags s).
Definition set_flags (f : Flags) (s : State) : State :=
  mkState (capture s) (render s) (tool s) (locked s) (plugin s) (navigationState s)
    (lastScaleBarLength s) (listeners s) (pendingSnapshots s) (zoomRafId s) (outbox s) (hostCalls s) f.

Definition set_strokeData v (c : Capture) :=
  mkCapture v (promptData c) (currentStroke c) (currentPrompt c) (isCapturing c).
Definition set_promptData v (c : Capture) :=
  mkCapture (strokeData c) v (currentStroke c) (currentPrompt c) (isCapturing c).
Definition set_currentStroke v (c : Capture) :=
  mkCapture (strokeData c) (promptData c) v (currentPrompt c) (isCapturing c).
Definition set_currentPrompt v (c : Capture) :=
  mkCapture (strokeData c) (promptData c) (currentStroke c) v (isCapturing c).
Definition set_isCapturing v (c : Capture) :=
  mkCapture (strokeData c) (promptData c) (currentStroke c) (currentPrompt c) v.

Definition set_rafId v (r : Render) := mkRender v (pendingXY r) (lastScreen r) (canvas r).
Definition set_pendingXY v (r : Render) := mkRender (rafId r) v (lastScreen r) (canvas r).
Definition set_lastScreen v (r : Render) := mkRender (rafId r) (pendingXY r) v (canvas r).
Definition set_canvas v (r : Render) := mkRender (rafId r) (pendingXY r) (lastScreen r) v.

Definition set_activeMode v (t : Tool) :=
  mkTool v (promptMode t) (promptPolarity t) (brushPhysicalSize t) (brushPixelSize t)
    (strokeColor t) (isEraser t) (isDrawing t) (startX t) (startY t) (snapshot t).
Definition set_promptMode v (t : Tool) :=
  mkTool (activeMode t) v (promptPolarity t) (brushPhysicalSize t) (brushPixelSize t)
    (strokeColor t) (isEraser t) (isDrawing t) (startX t) (startY t) (snapshot t).
Definition set_promptPolarity v (t : Tool) :=
  mkTool (activeMode t) (promptMode t) v (brushPhysicalSize t) (brushPixelSize t)
    (strokeColor t) (isEraser t) (isDrawing t) (startX t) (startY t) (snapshot t).
Definition set_brushPhysicalSize v (t : Tool) :=
  mkTool (activeMode t) (promptMode t) (promptPolarity t) v (brushPixelSize t)
    (strokeColor t) (isEraser t) (isDrawing t) (startX t) (startY t) (snapshot t).
Definition set_brushPixelSize v (t : Tool) :=
  mkTool (activeMode t) (promptMode t) (promptPolarity t) (brushPhysicalSize t) v
    (strokeColor t) (isEraser t) (isDrawing t) (startX t) (startY t) (snapshot t).
Definition set_strokeColor v (t : Tool) :=
  mkTool (activeMode t) (promptMode t) (promptPolarity t) (brushPhysicalSize t) (brushPixelSize t)
    v (isEraser t) (isDrawing t) (startX t) (startY t) (snapshot t).
Definition set_isEraser v (t : Tool) :=
  mkTool (activeMode t) (promptMode t) (promptPolarity t) (brushPhysicalSize t) (brushPixelSize t)
    (strokeColor t) v (isDrawing t) (startX t) (startY t) (snapshot t).
Definition set_isDrawing v (t : Tool) :=
  mkTool (activeMode t) (promptMode t) (promptPolarity t) (brushPhysicalSize t) (brushPixelSize t)
    (strokeColor t) (isEraser t) v (startX t) (startY t) (snapshot t).
Definition set_start (x y : float) (t : Tool) :=
  mkTool (activeMode t) (promptMode t) (promptPolarity t) (brushPhysicalSize t) (brushPixelSize t)
    (strokeColor t) (isEraser t) (isDrawing t) x y (snapshot t).
Definition set_snapshot v (t : Tool) :=
  mkTool (activeMode t) (promptMode t) (promptPolarity t) (brushPhysicalSize t) (brushPixelSize t)
    (strokeColor t) (isEraser t) (isDrawing t) (startX t) (startY t) v.

Definition set_lockedBBox v (l : Locked) := mkLocked v (lockedPosition l) (lockedZoomFactor l).
Definition set_lockedPosition v (l : Locked) := mkLocked (lockedBBox l) v (lockedZoomFactor l).
Definition set_lockedZoomFactor v (l : Locked) := mkLocked (lockedBBox l) (lockedPosition l) v.

(** ** A state monad with exceptions

    A handler runs on the state and either finishes or throws; what it wrote
    before throwing stays written. *)

Definition M (A : Type) : Type := State -> Outcome A * State.

Definition ret {A} (a : A) : M A := fun s => (Done a, s).
Definition bind {A B} (m : M A) (k : A -> M B) : M B :=
  fun s =>
    match m s with
    | (Done a, s') => k a s'
    | (Throw e, s') => (Throw e, s')
    end.
Definition get : M State := fun s => (Done s, s).
Definition modify (f : State -> State) : M unit := fun s => (Done tt, f s).
Definition lift {A} (o : Outcome A) : M A := fun s => (o, s).
Definition when (b : bool) (m : M unit) : M unit := if b then m else ret tt.

#[global] Instance M_ret : MRet M := @ret.
#[global] Instance M_bind : MBind M := fun A B k m => bind m k.

(** Running a handler for its final state. *)
Definition exec {A} (m : M A) (s : State) : State := snd (m s).

(** *** Effects shared by the revisions *)

Definition postMessage (m : ParentMessage) : M unit :=
  modify (fun s => set_outbox (outbox s ++ [m]) s).
Definition host (c : HostCall) : M unit :=
  modify (fun s => set_hostCalls (hostCalls s ++ [c]) s).
Definition preventDefault : M unit :=
  modify (fun s => set_flags (mkFlags true (propagationStopped (flags s))
                                (immediatePropagationStopped (flags s))) s).
Definition stopPropagation : M unit :=
  modify (fun s => set_flags (mkFlags (defaultPrevented (flags s)) true
                                (immediatePropagationStopped (flags s))) s).
Definition stopImmediatePropagation : M unit :=
  modify (fun s => set_flags (mkFlags (defaultPrevented (flags s)) true true) s).

(** [ctx.clearRect(0, 0, canvas.width, canvas.height)] *)
Definition clearCanvas : M unit := modify (upd_render (set_canvas [])).
Definition paint (m : Mark) : M unit :=
  modify (fun s => upd_render (set_canvas (canvas (render s) ++ [m])) s).

(** [viewer?.display?.scheduleRedraw?.()] *)
Definition safeRedraw : M unit := host scheduleRedraw.

(** [window.addEventListener("mousemove", onMove, true)] and
    [window.addEventListener("mouseup", onUp, true)] for a fresh pair of
    closures; [cleanup] removes the pair a closure belongs to. *)
Definition addCaptureListeners : M unit :=
  modify (fun s => set_listeners (S (listeners s)) s).
Definition removeCaptureListeners : M unit :=
  modify (fun s => set_listeners (pred (listeners s)) s).

(** [Math.round]: the nearest integer, ties towards +∞, computed on the exact
    value [±m·2^e] of the float. *)
Definition Math_round (x : float) : float :=
  match Prim2SF x with
  | S754_finite sgn m e =>
      if (0 <=? e)%Z then x
      else
        let num := if sgn then Z.neg m else Z.pos m in
        let d := (2 ^ (- e))%Z in
        let q := ((2 * num + d) / (2 * d))%Z in
        if (q =? 0)%Z then (if sgn then PrimFloat.neg_zero else PrimFloat.zero)
        else SF2Prim (binary_normalize prec emax q 0 false)
  | _ => x
  end.

(** ** Code shared by the three revisions *)

Definition DATA_PANEL_CLASS : string := "neuroglancer-rendered-data-panel".

Definition nan_point : StrokePoint := mkPoint (Some nan) (Some nan) (Some nan).

(** [isValidPoint], which [drawing_tool_handler.ts] writes inline as
    [isFinite(pt.x) && isFinite(pt.y) && isFinite(pt.z)]. *)
Definition isValidPoint (p : StrokePoint) : bool :=
  isFinite (pt_x p) && isFinite (pt_y p) && isFinite (pt_z p).

(** [last.x !== p.x || last.y !== p.y || last.z !== p.z] *)
Definition differs (a b : StrokePoint) : bool :=
  strict_neq (pt_x a) (pt_x b) || strict_neq (pt_y a) (pt_y b)
  || strict_neq (pt_z a) (pt_z b).

(** [pushUniquePoint], which [drawing_tool_handler.ts] writes inline in
    [onMove]: the point is appended unless the array ends with a point whose
    three coordinates are [===] to it. *)
Definition pushUniquePoint (arr : list StrokePoint) (p : StrokePoint) : list StrokePoint :=
  match last arr with
  | None => arr ++ [p]
  | Some l => if differs l p then arr ++ [p] else arr
  end.

(** [voxelPoint] of [drawing_tool_handler.ts] and [part_000]. *)
Definition voxelPoint_first3 (viewer : Viewer) : StrokePoint :=
  match mousePosition viewer with
  | None => nan_point
  | Some p =>
      if (length p <? 3)%nat then nan_point
      else mkPoint (p !! 0%nat) (p !! 1%nat) (p !! 2%nat)
  end.

(** [containerCoords] *)
Definition containerCoords (e : MouseEvent) (viewer : Viewer) : float * float :=
  ((clientX e - containerLeft viewer)%float, (clientY e - containerTop viewer)%float).

(** [!!(e.target as HTMLElement).closest(DATA_PANEL_SELECTOR)] *)
Definition closest_data_panel (path : list Element) : bool :=
  existsb (fun el => existsb (String.eqb DATA_PANEL_CLASS) (el_classes el)) path.

Definition isOnDataPanel (e : MouseEvent) : bool := closest_data_panel (target e).

(** [isInDataBounds] of [part_000] and [part_001]. *)
Definition isInDataBounds (viewer : Viewer) : bool :=
  match mousePosition viewer, coordinateSpace viewer ≫= cs_bounds with
  | Some pos, Some b =>
      if (length pos <? 3)%nat then false
      else
        forallb
          (fun i =>
             isFinite (pos !! i)
             && negb (js_lt (pos !! i) (lowerBounds b !! i)
                      || js_ge (pos !! i) (upperBounds b !! i)))
          [0; 1; 2]%nat
  | _, _ => false
  end.

Definition minPixelStep : float := 0.75.

(** [enqueueDraw] *)
Definition enqueueDraw (x y : float) : M unit :=
  s ← get;
  let '(lx, ly) := lastScreen (render s) in
  let dx := (x - lx)%float in
  let dy := (y - ly)%float in
  if is_finite lx && (dx * dx + dy * dy <? minPixelStep * minPixelStep)%float
  then ret tt
  else
    modify (upd_render (set_pendingXY (Some (x, y))));;
    when (negb (rafId (render s))) (modify (upd_render (set_rafId true))).

(** [sendAnnotationStateUpdate] of [part_001]. *)
Definition sendAnnotationStateUpdate : M unit :=
  s ← get;
  let n := length (strokeData (capture s)) in
  postMessage (annotation_state_update n (0 <? n)%nat false).

(** [getSliceViewPanels]: the elements of the panels that have a slice view. *)
Definition getSliceViewPanels (viewer : Viewer) : list nat :=
  match panels viewer with
  | None => []
  | Some ps =>
      omap (fun panel =>
              match p_sliceView panel with
              | None => None
              | Some _ => p_element panel
              end) ps
  end.

(** [drawLockedRegionIndicator] of [part_001]: the canvas is cleared, then a
    border is drawn around every slice-view panel and a badge in the first. *)
Definition drawLockedRegionIndicator (viewer : Viewer) (bbox : option LockedBBox) : M unit :=
  clearCanvas;;
  match bbox with
  | None => ret tt
  | Some _ =>
      match getSliceViewPanels viewer with
      | [] => ret tt
      | first :: rest =>
          modify (fun s => upd_render
                    (set_canvas (canvas (render s)
                                 ++ (mark_lock_border <$> (first :: rest))
                                 ++ [mark_lock_badge first])) s)
      end
  end.

Section WithUnits.
Variable ALLOWED_UNITS : list LengthUnit.

(** [Array.from(scales).map((v, i) => convertLength(v, units[i] ?? "m", "µm"))] *)
Fixpoint convert_scales (scales : list float) (units : list string) (i : nat)
  : Outcome (list float) :=
  match scales with
  | [] => Done []
  | v :: rest =>
      match convertLength ALLOWED_UNITS v (default "m" (units !! i)) "µm" with
      | Throw e => Throw e
      | Done c =>
          match convert_scales rest units (S i) with
          | Throw e => Throw e
          | Done cs => Done (c :: cs)
          end
      end
  end.

(** A search loop whose body returns a converted length. *)
Definition search_result {A} (r : option (Outcome A)) : Outcome (option A) :=
  match r with
  | None => Done None
  | Some (Done a) => Done (Some a)
  | Some (Throw e) => Throw e
  end.

(** [getScaleBarPhysicalLength] *)
Definition getScaleBarPhysicalLength (viewer : Viewer) : Outcome (option float) :=
  match panels viewer with
  | None => Done None
  | Some ps =>
      search_result
        (first_hit (fun panel =>
           match p_scaleBars panel with
           | None => None
           | Some bars =>
               first_hit (fun bar =>
                 match sb_dimensions bar with
                 | None => None
                 | Some d =>
                     if truthy_number (physicalLength d)
                     then Some (convertLength ALLOWED_UNITS (physicalLength d)
                                  (default "µm" (physicalUnit d)) "µm")
                     else None
                 end) bars
           end) ps)
  end.

(** [sendScaleBarUpdate] *)
Definition sendScaleBarUpdate (viewer : Viewer) : M unit :=
  scaleBarLength ← lift (getScaleBarPhysicalLength viewer);
  s ← get;
  match scaleBarLength with
  | Some l =>
      if strict_neq (Some l) (lastScaleBarLength s)
      then modify (set_lastScaleBarLength (Some l));;
           postMessage (scale_bar_update l)
      else ret tt
  | None => ret tt
  end.
End WithUnits.

(** ** [src/custom/drawing_tool_handler.ts] *)

Module Handler.
Section WithUnits.
Variable ALLOWED_UNITS : list LengthUnit.

Definition voxelPoint := voxelPoint_first3.

(** [calculatePhysicalSizePerPixel]: the size is read in [physicalUnit]
    (default "µm") and scaled by [1e6]. *)
Definition calculatePhysicalSizePerPixel (viewer : Viewer) : Outcome (option float) :=
  match panels viewer with
  | None => Done None
  | Some ps =>
      search_result
        (first_hit (fun panel =>
           match p_scaleBars panel with
           | None => None
           | Some bars =>
               first_hit (fun bar =>
                 match sb_dimensions bar with
                 | None => None
                 | Some d =>
                     if truthy_number (physicalSizePerPixel d)
                     then Some
                            match convertLength ALLOWED_UNITS (physicalSizePerPixel d)
                                    (default "µm" (physicalUnit d)) "µm" with
                            | Done c => Done (c * 1e6)%float
                            | Throw e => Throw e
                            end
                     else None
                 end) bars
           end) ps)
  end.

(** [calculatePhysicalSizePerVoxel]: the first visible image layer with
    scales and units.  In [sv.visibleLayers?.get?.(managed).displayDimensionRenderInfo]
    the entry of the layer is dereferenced without a guard; the chain as a
    whole is [undefined] when [visibleLayers] or its [get] is missing. *)
Definition calculatePhysicalSizePerVoxel (viewer : Viewer) : Outcome (option (list float)) :=
  match panels viewer with
  | None => Done None
  | Some ps =>
      search_result
        (first_hit (fun panel =>
           match p_sliceView panel with
           | None => None
           | Some sv =>
               first_hit (fun managed =>
                 if negb (opt_is (userLayerType managed) "image") then None
                 else if negb (visibleLayers_get sv) then None
                 else
                   match visibleLayerInfo managed with
                   | None => Some (Throw "TypeError")
                   | Some info =>
                       match info ≫= displayDimensionScales,
                             info ≫= displayDimensionUnits with
                       | Some scales, Some units =>
                           Some (convert_scales ALLOWED_UNITS scales units 0)
                       | _, _ => None
                       end
                   end) (default [] (visibleLayerList sv))
           end) ps)
  end.

(** [drawStep], the animation-frame callback. *)
Definition drawStep (viewer : Viewer) : M unit :=
  modify (upd_render (set_rafId false));;
  s ← get;
  match isCapturing (capture s), pendingXY (render s) with
  | true, Some (x, y) =>
      if negb (is_Some_b (currentStroke (capture s)))
         && negb (is_Some_b (currentPrompt (capture s)))
      then ret tt
      else
        modify (upd_render (set_pendingXY None));;
        let t := tool s in
        let joined := is_finite (fst (lastScreen (render s))) in
        physicalSizePerPixel ← lift (calculatePhysicalSizePerPixel viewer);
        let pixelSize :=
          match physicalSizePerPixel with
          | Some ppp =>
              if truthy_number ppp then (brushPhysicalSize t / ppp)%float
              else brushPixelSize t
          | None => brushPixelSize t
          end in
        (if opt_is (activeMode t) "brush" then
           paint (mark_stroke "source-over" (strokeColor t) (Math_max 1 pixelSize) x y joined)
         else if opt_is (activeMode t) "eraser" then
           paint (mark_stroke "destination-out" "rgba(0,0,0,1)" (Math_max 1 pixelSize) x y joined)
         else if opt_is (promptMode t) "bbox" then
           match snapshot t with
           | Some img => modify (upd_render (set_canvas img))
           | None => ret tt
           end;;
           paint (mark_rect (strokeColor t) (startX t + 0.5) (startY t + 0.5)
                    (x - startX t) (y - startY t))
         else if opt_is (promptMode t) "scribble" then
           paint (mark_stroke "source-over" (strokeColor t) 4 x y joined)
         else if opt_is (promptMode t) "lasso" then
           paint (mark_stroke "source-over" (strokeColor t) 2 x y joined)
         else ret tt);;
        modify (upd_render (set_lastScreen (x, y)))
  | _, _ => ret tt
  end.

(** [onMouseDown]; [now] is [new Date().toISOString()].  The calls of
    [applyMode] only restyle the cursor and are left out. *)
Definition onMouseDown (viewer : Viewer) (now : string) (e : MouseEvent) : M unit :=
  s ← get;
  let mode := activeMode (tool s) in
  let promptMode := promptMode (tool s) in
  let promptPolarity := promptPolarity (tool s) in
  if (negb (truthy_opt mode) && negb (truthy_opt promptMode)) || negb (button e =? 0)%Z
  then ret tt
  else
    preventDefault;;
    stopPropagation;;
    let pt := voxelPoint viewer in
    let '(cx, cy) := containerCoords e viewer in
    modify (upd_capture (set_isCapturing true));;
    modify (upd_render (set_lastScreen (nan, nan)));;
    modify (upd_tool (set_start cx cy));;
    modify (upd_tool (set_isDrawing true));;
    physicalSizePerVoxel ← lift (calculatePhysicalSizePerVoxel viewer);
    sendScaleBarUpdate ALLOWED_UNITS viewer;;
    if opt_is mode "brush" || opt_is mode "eraser" then
      modify (upd_capture (set_currentStroke (Some
        (mkStroke (default "" mode) (strokeColor (tool s)) (brushPhysicalSize (tool s))
           physicalSizePerVoxel now (if isValidPoint pt then [pt] else [])))));;
      addCaptureListeners
    else if opt_is promptMode "point" then
      when (isValidPoint pt)
        (modify (upd_capture (set_currentPrompt (Some (PromptPoint pt promptPolarity))));;
         paint (mark_dot (strokeColor (tool s)) cx cy))
    else
      (if opt_is promptMode "bbox" then
         modify (upd_capture (set_currentPrompt (Some (PromptBBox pt pt promptPolarity))));;
         s' ← get;
         modify (upd_tool (set_snapshot (Some (canvas (render s')))))
       else if opt_is promptMode "scribble" then
         modify (upd_capture (set_currentPrompt (Some
           (PromptScribble (if isValidPoint pt then [pt] else []) promptPolarity))))
       else if opt_is promptMode "lasso" then
         modify (upd_capture (set_currentPrompt (Some
           (PromptLasso (if isValidPoint pt then [pt] else []) promptPolarity))))
       else ret tt);;
      addCaptureListeners.

(** [onMove], a [mousemove] listener on [window]. *)
Definition onMove (viewer : Viewer) (ev : MouseEvent) : M unit :=
  s ← get;
  if negb (isCapturing (capture s)) then ret tt
  else if negb (is_Some_b (currentStroke (capture s)))
          && negb (is_Some_b (currentPrompt (capture s)))
  then ret tt
  else
    let p := voxelPoint viewer in
    when (isValidPoint p)
      match currentStroke (capture s), currentPrompt (capture s) with
      | Some st, _ =>
          when (String.eqb (st_mode st) "brush" || String.eqb (st_mode st) "eraser")
            (modify (upd_capture (set_currentStroke (Some
               (mkStroke (st_mode st) (st_color st) (st_physicalSize st) (st_voxelSizes st)
                  (st_timestamp st) (pushUniquePoint (st_points st) p))))))
      | None, Some (PromptBBox a _ pol) =>
          modify (upd_capture (set_currentPrompt (Some (PromptBBox a p pol))))
      | None, Some (PromptScribble pts pol) =>
          modify (upd_capture (set_currentPrompt (Some
            (PromptScribble (pushUniquePoint pts p) pol))))
      | None, Some (PromptLasso pts pol) =>
          modify (upd_capture (set_currentPrompt (Some
            (PromptLasso (pushUniquePoint pts p) pol))))
      | None, _ => ret tt
      end;;
    let '(x, y) := containerCoords ev viewer in
    enqueueDraw x y.

(** [onUp], the [mouseup] listener registered together with [onMove]. *)
Definition onUp : M unit :=
  s ← get;
  match currentStroke (capture s) with
  | Some st =>
      modify (upd_capture (set_isCapturing false));;
      modify (fun s => upd_capture (set_strokeData (strokeData (capture s) ++ [st])) s);;
      modify (upd_capture (set_currentStroke None));;
      modify (upd_tool (set_isDrawing false));;
      modify (upd_tool (set_snapshot None));;
      postMessage (drawing_stroke_complete None)
  | None => ret tt
  end;;
  match currentPrompt (capture s) with
  | Some pr =>
      modify (upd_capture (set_isCapturing false));;
      modify (fun s => upd_capture (set_promptData (promptData (capture s) ++ [pr])) s);;
      modify (upd_capture (set_currentPrompt None));;
      modify (upd_tool (set_isDrawing false));;
      modify (upd_tool (set_snapshot None));;
      s' ← get;
      postMessage (prompt_complete (promptData (capture s')))
  | None => ret tt
  end;;
  removeCaptureListeners;;
  modify (upd_render (set_rafId false)).

(** The ["message"] listener on [window]. *)
Definition onMessage (viewer : Viewer) (m : Message) : M unit :=
  match m with
  | msg_screenshot => host takeScreenshot
  | msg_drawing_mode_change mode =>
      modify (upd_tool (set_activeMode mode));;
      modify (upd_tool (set_promptMode None))
  | msg_prompt_mode_change mode polarity =>
      modify (upd_tool (set_promptMode mode));;
      modify (upd_tool (set_promptPolarity polarity));;
      modify (upd_tool (set_activeMode None))
  | msg_drawing_size_change size =>
      physicalSizePerPixel ← lift (calculatePhysicalSizePerPixel viewer);
      modify (upd_tool (set_brushPhysicalSize size));;
      modify (upd_tool (set_brushPixelSize
        match physicalSizePerPixel with
        | Some ppp => if truthy_number ppp then (size / ppp)%float else size
        | None => size
        end))
  | msg_drawing_color_change color => modify (upd_tool (set_strokeColor color))
  | msg_drawing_clear =>
      clearCanvas;;
      modify (upd_capture (set_strokeData []));;
      safeRedraw
  | msg_prompt_clear =>
      clearCanvas;;
      modify (upd_capture (set_promptData []));;
      safeRedraw
  | msg_drawing_snapshot =>
      modify (fun s => set_pendingSnapshots (S (pendingSnapshots s)) s)
  | msg_invalidate_chunks =>
      host invalidateSegmentationCaches;;
      host dispatchViewChangedLater
  | _ => ret tt
  end.

(** The [onloadend] callback of a snapshot request whose blob arrived. *)
Definition onSnapshotLoaded : M unit :=
  s ← get;
  postMessage (drawing_snapshot_created (strokeData (capture s)));;
  clearCanvas;;
  modify (upd_capture (set_strokeData []));;
  safeRedraw.
End WithUnits.
End Handler.

(** ** Code that [part_000] and [part_001] share word for word *)

Module Parts.
Section WithUnits.
Context {builtins : Builtins}.
Variable ALLOWED_UNITS : list LengthUnit.

(** [calculatePhysicalSizePerPixel]: the size is read in [physicalBaseUnit]
    (default "m"). *)
Definition calculatePhysicalSizePerPixel (viewer : Viewer) : Outcome (option float) :=
  match panels viewer with
  | None => Done None
  | Some ps =>
      search_result
        (first_hit (fun panel =>
           match p_scaleBars panel with
           | None => None
           | Some bars =>
               first_hit (fun bar =>
                 match sb_dimensions bar with
                 | None => None
                 | Some d =>
                     if truthy_number (physicalSizePerPixel d)
                     then Some (convertLength ALLOWED_UNITS (physicalSizePerPixel d)
                                  (default "m" (physicalBaseUnit d)) "µm")
                     else None
                 end) bars
           end) ps)
  end.

(** [calculatePhysicalSizePerVoxel]: image layers are preferred, then any
    layer with scales and units. *)
Definition calculatePhysicalSizePerVoxel (viewer : Viewer) : Outcome (option (list float)) :=
  match panels viewer with
  | None => Done None
  | Some ps =>
      search_result
        (first_hit (fun filterType : option string =>
           first_hit (fun panel =>
             match p_sliceView panel with
             | None => None
             | Some sv =>
                 first_hit (fun managed =>
                   if truthy_opt filterType
                      && negb (bool_decide (userLayerType managed = filterType))
                   then None
                   else
                     let info :=
                       if visibleLayers_get sv then mjoin (visibleLayerInfo managed)
                       else None in
                     match info ≫= displayDimensionScales,
                           info ≫= displayDimensionUnits with
                     | Some scales, Some units =>
                         Some (convert_scales ALLOWED_UNITS scales units 0)
                     | _, _ => None
                     end) (default [] (visibleLayerList sv))
             end) ps) [Some "image"; None])
  end.

(** [getPixelSize] *)
Definition getPixelSize (viewer : Viewer) : M float :=
  ppp ← lift (calculatePhysicalSizePerPixel viewer);
  s ← get;
  ret match ppp with
      | Some v =>
          if truthy_number v then (brushPhysicalSize (tool s) / v)%float
          else brushPixelSize (tool s)
      | None => brushPixelSize (tool s)
      end.

(** [drawStep], the animation-frame callback. *)
Definition drawStep (viewer : Viewer) : M unit :=
  modify (upd_render (set_rafId false));;
  s ← get;
  match isCapturing (capture s), pendingXY (render s) with
  | true, Some (x, y) =>
      if negb (is_Some_b (currentStroke (capture s)))
         && negb (is_Some_b (currentPrompt (capture s)))
      then ret tt
      else
        modify (upd_render (set_pendingXY None));;
        let t := tool s in
        let joined := is_finite (fst (lastScreen (render s))) in
        (if opt_is (activeMode t) "brush" then
           pixelSize ← getPixelSize viewer;
           paint (mark_stroke "source-over" (strokeColor t) (Math_max 1 pixelSize) x y joined)
         else if opt_is (promptMode t) "bbox" then
           match snapshot t with
           | Some img => modify (upd_render (set_canvas img))
           | None => ret tt
           end;;
           paint (mark_rect (strokeColor t) (startX t + 0.5) (startY t + 0.5)
                    (x - startX t) (y - startY t))
         else if opt_is (promptMode t) "scribble" || opt_is (promptMode t) "lasso" then
           paint (mark_stroke "source-over" (strokeColor t)
                    (if opt_is (promptMode t) "scribble" then 4 else 2) x y joined)
         else ret tt);;
        modify (upd_render (set_lastScreen (x, y)))
  | _, _ => ret tt
  end.

(** [finishCapture] *)
Definition finishCapture : M unit :=
  modify (upd_capture (set_isCapturing false));;
  modify (upd_tool (set_isDrawing false));;
  modify (upd_tool (set_snapshot None));;
  modify (upd_render (set_rafId false)).

(** [onMove]; the two revisions differ in the [voxelPoint] it calls. *)
Definition onMove (voxelPoint : Viewer -> StrokePoint) (viewer : Viewer) (ev : MouseEvent)
  : M unit :=
  s ← get;
  if negb (isCapturing (capture s)) then ret tt
  else if negb (is_Some_b (currentStroke (capture s)))
          && negb (is_Some_b (currentPrompt (capture s)))
  then ret tt
  else if negb (isOnDataPanel ev) || negb (isInDataBounds viewer) then
    modify (upd_render (set_rafId false));;
    modify (upd_render (set_pendingXY None))
  else
    let p := voxelPoint viewer in
    match currentStroke (capture s), currentPrompt (capture s) with
    | Some st, _ =>
        modify (upd_capture (set_currentStroke (Some
          (mkStroke (st_mode st) (st_color st) (st_physicalSize st) (st_voxelSizes st)
             (st_timestamp st) (pushUniquePoint (st_points st) p)))))
    | None, Some (PromptBBox a _ pol) =>
        modify (upd_capture (set_currentPrompt (Some (PromptBBox a p pol))))
    | None, Some (PromptScribble pts pol) =>
        modify (upd_capture (set_currentPrompt (Some
          (PromptScribble (pushUniquePoint pts p) pol))))
    | None, Some (PromptLasso pts pol) =>
        modify (upd_capture (set_currentPrompt (Some
          (PromptLasso (pushUniquePoint pts p) pol))))
    | None, _ => ret tt
    end;;
    let '(x, y) := containerCoords ev viewer in
    enqueueDraw x y.

(** The branch of the ["message"] listener for "drawing_size_change". *)
Definition onDrawingSizeChange (viewer : Viewer) (size : float) : M unit :=
  ppp ← lift (calculatePhysicalSizePerPixel viewer);
  modify (upd_tool (set_brushPhysicalSize size));;
  match ppp with
  | Some v =>
      if truthy_number v then
        voxelSizes ← lift (calculatePhysicalSizePerVoxel viewer);
        let minPx :=
          match voxelSizes with
          | Some vs => Math_max 1 (Math_round (Math_min vs / v))
          | None => 1%float
          end in
        modify (upd_tool (set_brushPixelSize (Math_max minPx (size / v))))
      else modify (upd_tool (set_brushPixelSize size))
  | None => modify (upd_tool (set_brushPixelSize size))
  end.

(** [recalcPixelSize], run in the animation frame after a zoom change. *)
Definition recalcPixelSize (viewer : Viewer) : M unit :=
  ppp ← lift (calculatePhysicalSizePerPixel viewer);
  match ppp with
  | Some v =>
      if truthy_number v then
        voxelSizes ← lift (calculatePhysicalSizePerVoxel viewer);
        s ← get;
        let minPx :=
          match voxelSizes with
          | Some vs => Math_max 1 (Math_round (Math_min vs / v))
          | None => 1%float
          end in
        let next := Math_max minPx (Math_round (brushPhysicalSize (tool s) / v)) in
        when (strict_neq (Some next) (Some (Math_round (brushPixelSize (tool s)))))
          (modify (upd_tool (set_brushPixelSize next)))
      else ret tt
  | None => ret tt
  end.

(** The [zoomFactor.changed] listener and the frame it requests. *)
Definition onZoomChanged (viewer : Viewer) : M unit :=
  sendScaleBarUpdate ALLOWED_UNITS viewer;;
  modify (set_zoomRafId true).

Definition onZoomFrame (viewer : Viewer) : M unit :=
  modify (set_zoomRafId false);;
  recalcPixelSize viewer.

(** The own properties of the object literal [portalShortcuts]. *)
Definition portalShortcuts : gmap string string :=
  {[ "s" := "portal-save-scene";
     "d" := "portal-download-roi";
     "k" := "portal-show-cheatsheet" ]}.

(** [portalShortcuts] is an object literal, so [portalShortcuts[key]] also
    finds what the object inherits from [Object.prototype]: the accessor
    [__proto__], whose value is [Object.prototype] itself, and the methods.
    The names are those of the language standard. *)
Definition Object_prototype_methods : list string :=
  ["constructor"; "hasOwnProperty"; "isPrototypeOf"; "propertyIsEnumerable";
   "toLocaleString"; "toString"; "valueOf"; "__defineGetter__"; "__defineSetter__";
   "__lookupGetter__"; "__lookupSetter__"].

Definition inherits (key : string) : bool :=
  String.eqb key "__proto__" || existsb (String.eqb key) Object_prototype_methods.

(** What [portalShortcuts[key]] is when it is not [undefined]; each of the
    three is truthy. *)
Inductive Property : Type :=
| own_action (action : string)
| inherited_prototype
| inherited_method.

Definition portalShortcuts_get (key : string) : option Property :=
  match portalShortcuts !! key with
  | Some action => Some (own_action action)
  | None =>
      if String.eqb key "__proto__" then Some inherited_prototype
      else if existsb (String.eqb key) Object_prototype_methods then Some inherited_method
      else None
  end.

(** [window.parent.postMessage({ type: "portal_action", action:
    portalShortcuts[key] }, "*")]: a function cannot be cloned, and
    [postMessage] throws. *)
Definition postPortalAction (property : Property) : M unit :=
  match property with
  | own_action action => postMessage (portal_action (action_name action))
  | inherited_prototype => postMessage (portal_action action_empty_object)
  | inherited_method => lift (Throw "DataCloneError")
  end.

(** [activatePluginBindings] and [deactivatePluginBindings] *)
Definition activatePluginBindings (pluginId : string) (shortcuts : list string) : M unit :=
  modify (upd_plugin (fun _ => mkPlugin (Some pluginId) (list_to_set (toLowerCase <$> shortcuts)))).

Definition deactivatePluginBindings : M unit :=
  modify (upd_plugin (fun _ => mkPlugin None ∅)).
End WithUnits.
End Parts.

(** ** The revision [part_000] *)

Module Part000.
Section WithUnits.
Context {builtins : Builtins}.
Variable ALLOWED_UNITS : list LengthUnit.

Definition voxelPoint := voxelPoint_first3.

(** [onMouseDown]; [now] is [new Date().toISOString()]. *)
Definition onMouseDown (viewer : Viewer) (now : string) (e : MouseEvent) : M unit :=
  s ← get;
  let mode := activeMode (tool s) in
  let promptMode := promptMode (tool s) in
  let promptPolarity := promptPolarity (tool s) in
  if (negb (truthy_opt mode) && negb (truthy_opt promptMode)) || negb (button e =? 0)%Z
  then ret tt
  else if negb (isOnDataPanel e) then ret tt
  else if negb (isInDataBounds viewer) then ret tt
  else
    let pt := voxelPoint viewer in
    preventDefault;;
    stopPropagation;;
    let '(cx, cy) := containerCoords e viewer in
    modify (upd_capture (set_isCapturing true));;
    modify (upd_render (set_lastScreen (nan, nan)));;
    modify (upd_tool (set_start cx cy));;
    modify (upd_tool (set_isDrawing true));;
    physicalSizePerVoxel ← lift (Parts.calculatePhysicalSizePerVoxel ALLOWED_UNITS viewer);
    sendScaleBarUpdate ALLOWED_UNITS viewer;;
    if opt_is mode "brush" then
      modify (upd_capture (set_currentStroke (Some
        (mkStroke "brush" (strokeColor (tool s)) (brushPhysicalSize (tool s))
           physicalSizePerVoxel now (if isValidPoint pt then [pt] else [])))));;
      addCaptureListeners
    else if opt_is promptMode "point" then
      when (isValidPoint pt)
        (modify (upd_capture (set_currentPrompt (Some (PromptPoint pt promptPolarity))));;
         paint (mark_dot (strokeColor (tool s)) cx cy))
    else
      (if opt_is promptMode "bbox" then
         modify (upd_capture (set_currentPrompt (Some (PromptBBox pt pt promptPolarity))));;
         s' ← get;
         modify (upd_tool (set_snapshot (Some (canvas (render s')))))
       else if opt_is promptMode "scribble" then
         modify (upd_capture (set_currentPrompt (Some
           (PromptScribble (if isValidPoint pt then [pt] else []) promptPolarity))))
       else if opt_is promptMode "lasso" then
         modify (upd_capture (set_currentPrompt (Some
           (PromptLasso (if isValidPoint pt then [pt] else []) promptPolarity))))
       else ret tt);;
      addCaptureListeners.

Definition onMove := Parts.onMove voxelPoint.

(** [commitStroke], which is all [onUp] calls. *)
Definition commitStroke : M unit :=
  removeCaptureListeners;;
  s ← get;
  match currentStroke (capture s) with
  | Some st =>
      modify (fun s => upd_capture (set_strokeData (strokeData (capture s) ++ [st])) s);;
      modify (upd_capture (set_currentStroke None));;
      Parts.finishCapture;;
      postMessage (drawing_stroke_complete None)
  | None => ret tt
  end;;
  match currentPrompt (capture s) with
  | Some pr =>
      modify (fun s => upd_capture (set_promptData (promptData (capture s) ++ [pr])) s);;
      modify (upd_capture (set_currentPrompt None));;
      Parts.finishCapture;;
      s' ← get;
      postMessage (prompt_complete (promptData (capture s')))
  | None => ret tt
  end.

Definition onUp := commitStroke.

(** The ["message"] listener on [window]. *)
Definition onMessage (viewer : Viewer) (m : Message) : M unit :=
  match m with
  | msg_screenshot => host takeScreenshot
  | msg_drawing_mode_change mode =>
      modify (upd_tool (set_activeMode mode));;
      modify (upd_tool (set_promptMode None))
  | msg_prompt_mode_change mode polarity =>
      modify (upd_tool (set_promptMode mode));;
      modify (upd_tool (set_promptPolarity polarity));;
      modify (upd_tool (set_activeMode None))
  | msg_drawing_size_change size => Parts.onDrawingSizeChange ALLOWED_UNITS viewer size
  | msg_drawing_color_change color => modify (upd_tool (set_strokeColor color))
  | msg_drawing_clear =>
      clearCanvas;;
      modify (upd_capture (set_strokeData []));;
      safeRedraw
  | msg_prompt_clear =>
      clearCanvas;;
      modify (upd_capture (set_promptData []));;
      safeRedraw
  | msg_drawing_snapshot =>
      modify (fun s => set_pendingSnapshots (S (pendingSnapshots s)) s)
  | msg_segment_hover segId => host (setSegmentSelection segId)
  | msg_segment_recolor => host randomizeSegmentColors
  | msg_invalidate_chunks =>
      host invalidateSegmentationCaches;;
      host dispatchViewChangedLater
  | msg_get_viewer_state => postMessage viewer_state
  | msg_plugin_activated pluginId shortcuts => Parts.activatePluginBindings pluginId shortcuts
  | msg_plugin_deactivated => Parts.deactivatePluginBindings
  | _ => ret tt
  end.

Definition onSnapshotLoaded : M unit :=
  s ← get;
  postMessage (drawing_snapshot_created (strokeData (capture s)));;
  clearCanvas;;
  modify (upd_capture (set_strokeData []));;
  safeRedraw.

(** The capture-phase [keydown] listener on [document]. *)
Definition onKeyDown (e : KeyboardEvent) : M unit :=
  s ← get;
  let ctrlOrCmd := ctrlKey e || metaKey e in
  let key := toLowerCase (key e) in
  match (if ctrlOrCmd then Parts.portalShortcuts_get key else None) with
  | Some property =>
      preventDefault;;
      stopImmediatePropagation;;
      Parts.postPortalAction property
  | None =>
      if truthy_opt (activePluginId (plugin s)) && negb ctrlOrCmd && negb (altKey e)
         && bool_decide (key ∈ activePluginKeys (plugin s))
      then
        preventDefault;;
        stopImmediatePropagation;;
        postMessage (plugin_shortcut key (default "" (activePluginId (plugin s))))
      else ret tt
  end.
End WithUnits.
End Part000.

(** ** The revision [part_001] *)

Module Part001.
Section WithUnits.
Context {builtins : Builtins}.
Variable ALLOWED_UNITS : list LengthUnit.

(** [voxelPoint]: the components at the dimensions named "x", "y", "z"
    when the coordinate space names all three, the first three otherwise. *)
Definition voxelPoint (viewer : Viewer) : StrokePoint :=
  match mousePosition viewer with
  | None => nan_point
  | Some p =>
      if (length p <? 3)%nat then nan_point
      else
        let fallback := mkPoint (p !! 0%nat) (p !! 1%nat) (p !! 2%nat) in
        match coordinateSpace viewer ≫= cs_names with
        | Some names =>
            if (3 <=? length names)%nat then
              match indexOf names "x", indexOf names "y", indexOf names "z" with
              | Some idx_x, Some idx_y, Some idx_z =>
                  mkPoint (p !! idx_x) (p !! idx_y) (p !! idx_z)
              | _, _, _ => fallback
              end
            else fallback
        | None => fallback
        end
  end.

(** [onMouseDown]; [now] is [new Date().toISOString()]. *)
Definition onMouseDown (viewer : Viewer) (now : string) (e : MouseEvent) : M unit :=
  s ← get;
  let mode := activeMode (tool s) in
  let promptMode := promptMode (tool s) in
  let promptPolarity := promptPolarity (tool s) in
  if (negb (truthy_opt mode) && negb (truthy_opt promptMode)) || negb (button e =? 0)%Z
  then ret tt
  else if negb (isOnDataPanel e) then ret tt
  else if negb (isInDataBounds viewer) then ret tt
  else
    let pt := voxelPoint viewer in
    preventDefault;;
    stopPropagation;;
    let '(cx, cy) := containerCoords e viewer in
    modify (upd_capture (set_isCapturing true));;
    modify (upd_render (set_lastScreen (nan, nan)));;
    modify (upd_tool (set_start cx cy));;
    modify (upd_tool (set_isDrawing true));;
    physicalSizePerVoxel ← lift (Parts.calculatePhysicalSizePerVoxel ALLOWED_UNITS viewer);
    sendScaleBarUpdate ALLOWED_UNITS viewer;;
    match physicalSizePerVoxel with
    | Some vs => postMessage (voxel_sizes_update vs)
    | None => ret tt
    end;;
    if opt_is mode "brush" || opt_is mode "eraser" then
      modify (upd_capture (set_currentStroke (Some
        (mkStroke "brush" (strokeColor (tool s)) (brushPhysicalSize (tool s))
           physicalSizePerVoxel now (if isValidPoint pt then [pt] else [])))));;
      addCaptureListeners
    else if opt_is promptMode "point" then
      when (isValidPoint pt)
        (modify (upd_capture (set_currentPrompt (Some (PromptPoint pt promptPolarity))));;
         paint (mark_dot (strokeColor (tool s)) cx cy))
    else
      (if opt_is promptMode "bbox" then
         modify (upd_capture (set_currentPrompt (Some (PromptBBox pt pt promptPolarity))));;
         s' ← get;
         modify (upd_tool (set_snapshot (Some (canvas (render s')))))
       else if opt_is promptMode "scribble" then
         modify (upd_capture (set_currentPrompt (Some
           (PromptScribble (if isValidPoint pt then [pt] else []) promptPolarity))))
       else if opt_is promptMode "lasso" then
         modify (upd_capture (set_currentPrompt (Some
           (PromptLasso (if isValidPoint pt then [pt] else []) promptPolarity))))
       else ret tt);;
      addCaptureListeners.

Definition onMove := Parts.onMove voxelPoint.

(** [commitStroke], which is all [onUp] calls. *)
Definition commitStroke : M unit :=
  removeCaptureListeners;;
  s ← get;
  match currentStroke (capture s) with
  | Some st =>
      modify (fun s => upd_capture (set_strokeData (strokeData (capture s) ++ [st])) s);;
      let isEraserMode := opt_is (activeMode (tool s)) "eraser" || isEraser (tool s) in
      postMessage (drawing_stroke_complete (Some (st, isEraserMode)));;
      sendAnnotationStateUpdate;;
      modify (upd_capture (set_currentStroke None));;
      Parts.finishCapture
  | None => ret tt
  end;;
  match currentPrompt (capture s) with
  | Some pr =>
      modify (fun s => upd_capture (set_promptData (promptData (capture s) ++ [pr])) s);;
      modify (upd_capture (set_currentPrompt None));;
      Parts.finishCapture;;
      s' ← get;
      postMessage (prompt_complete (promptData (capture s')))
  | None => ret tt
  end.

Definition onUp := commitStroke.

(** [isOnSliceViewPanel] *)
Definition isOnSliceViewPanel (viewer : Viewer) (path : list Element) : bool :=
  if negb (closest_data_panel path) then false
  else
    existsb (fun element => existsb (fun el => Nat.eqb (el_id el) element) path)
      (getSliceViewPanels viewer).

(** The second capture-phase [mousedown] listener on the container, which
    blocks navigation while the view is locked. *)
Definition onLockedMouseDown (viewer : Viewer) (e : MouseEvent) : M unit :=
  s ← get;
  if negb (is_Some_b (lockedBBox (locked s))) then ret tt
  else if negb (isOnSliceViewPanel viewer (target e)) then ret tt
  else if negb (truthy_opt (activeMode (tool s))) && negb (truthy_opt (promptMode (tool s)))
  then
    preventDefault;;
    stopPropagation
  else
    when ((button e =? 1)%Z || (button e =? 2)%Z)
      (preventDefault;;
       stopPropagation).

Definition navKeys : list string :=
  ["ArrowUp"; "ArrowDown"; "ArrowLeft"; "ArrowRight"; "PageUp"; "PageDown"].

(** The capture-phase [keydown] listener on the container. *)
Definition onLockedKeyDown (e : KeyboardEvent) : M unit :=
  s ← get;
  if negb (is_Some_b (lockedBBox (locked s))) then ret tt
  else if negb (existsb (String.eqb (key e)) navKeys) then ret tt
  else
    when (closest_data_panel (key_target e))
      (preventDefault;;
       stopPropagation).

(** The part of the locked indicator that follows a full clear of the
    canvas: [if (lockedBBox) drawLockedRegionIndicator(...)]. *)
Definition redrawLockedIndicator (viewer : Viewer) : M unit :=
  s ← get;
  match lockedBBox (locked s) with
  | Some b => drawLockedRegionIndicator viewer (Some b)
  | None => ret tt
  end.

(** The visible bounding box of "get_view_state": [p] is the position, [v]
    the physical size per pixel, [vx] and [vy] the voxel sizes, [ix], [iy]
    and [iz] the indices of the dimensions named x, y and z.  The result is
    [Throw] when [panel.element] is missing, [Done None] when an upper bound
    is not finite (the early reply with ["Image bounds not available"]), and
    otherwise the value of [bbox]. *)
Definition visibleBBox (panel : Panel) (b : Bounds) (p : list float) (v vx vy : float)
    (ix iy iz : nat) : Outcome (option (option LockedBBox)) :=
  match p_element panel with
  | None => Throw "TypeError"
  | Some _ =>
      let vpWidth := default 800%float (p_offsetWidth panel) in
      let vpHeight := default 600%float (p_offsetHeight panel) in
      let vpPhysWidth := (vpWidth * v)%float in
      let vpPhysHeight := (vpHeight * v)%float in
      let halfW := Math_ceil ((vpPhysWidth / vx) / 2) in
      let halfH := Math_ceil ((vpPhysHeight / vy) / 2) in
      match upperBounds b !! ix, upperBounds b !! iy, upperBounds b !! iz with
      | Some upperX, Some upperY, Some upperZ =>
          if negb (is_finite upperX) || negb (is_finite upperY) || negb (is_finite upperZ)
          then Done None
          else
            let posX := default nan (p !! ix) in
            let posY := default nan (p !! iy) in
            let posZ := default nan (p !! iz) in
            let zSlices := 10%float in
            let x_start := Math_max 0 (Math_floor (posX - halfW)) in
            let x_end := Math_min2 (Math_floor upperX) (Math_ceil (posX + halfW)) in
            let y_start := Math_max 0 (Math_floor (posY - halfH)) in
            let y_end := Math_min2 (Math_floor upperY) (Math_ceil (posY + halfH)) in
            let z_start := Math_max 0 (Math_floor (posZ - zSlices / 2)) in
            let z_end := Math_min2 (Math_floor upperZ) (Math_ceil (posZ + zSlices / 2)) in
            Done (Some
              (if (x_start <? x_end)%float && (y_start <? y_end)%float
                  && (z_start <? z_end)%float
               then Some {| x_start := x_start; x_end := x_end;
                            y_start := y_start; y_end := y_end;
                            z_start := z_start; z_end := z_end |}
               else None))
      | _, _, _ => Done None
      end
  end.

(** The voxel sizes of "get_view_state", in x, y, z order. *)
Definition xyzVoxelSizes (scales : option (list float)) (units : option (list string))
    (indices : option (nat * nat * nat)) : Outcome (option (float * float * float)) :=
  match scales, units, indices with
  | Some scales, Some units, Some (idx_x, idx_y, idx_z) =>
      let conv (i : nat) : Outcome float :=
        convertLength ALLOWED_UNITS (default nan (scales !! i))
          (default "m" (units !! i)) "µm" in
      match conv idx_x with
      | Throw e => Throw e
      | Done vx =>
          match conv idx_y with
          | Throw e => Throw e
          | Done vy =>
              match conv idx_z with
              | Throw e => Throw e
              | Done vz => Done (Some (vx, vy, vz))
              end
          end
      end
  | _, _, _ => Done None
  end.

(** The [bbox] of "get_view_state": [Done None] stands for the early reply,
    [Done (Some bbox)] for the value of [bbox] at the last [postMessage]. *)
Definition viewBBox (viewer : Viewer) (bounds : option Bounds) (pos : option (list float))
    (ppp : option float) (voxelSizes : option (float * float * float))
    (indices : option (nat * nat * nat)) : Outcome (option (option LockedBBox)) :=
  match bounds, pos, ppp, voxelSizes, indices with
  | Some b, Some p, Some v, Some (vx, vy, _), Some (idx_x, idx_y, idx_z) =>
      match panels viewer with
      | None => Throw "TypeError"
      | Some panels =>
          match List.find (fun panel => is_Some_b (p_sliceView panel)) panels with
          | Some panel => visibleBBox panel b p v vx vy idx_x idx_y idx_z
          | None => Done (Some None)
          end
      end
  | _, _, _, _, _ => Done (Some None)
  end.

(** The branch for "get_view_state".  [scaleIndex] of the message is the
    constant 0; [pos] is [navState?.position?.value], and [ppp] is
    [physicalPerPixel] where the code tests it for truthiness. *)
Definition onGetViewState (viewer : Viewer) : M unit :=
  s ← get;
  let pos : option (list float) := mjoin (navigationState s ≫= nav_position) in
  let bounds : option Bounds := coordinateSpace viewer ≫= cs_bounds in
  physicalPerPixel ← lift (Parts.calculatePhysicalSizePerPixel ALLOWED_UNITS viewer);
  let ppp : option float :=
    physicalPerPixel ≫= (fun v => if truthy_number v then Some v else None) in
  let names : list string := default [] (coordinateSpace viewer ≫= cs_names) in
  let indices : option (nat * nat * nat) :=
    match indexOf names "x", indexOf names "y", indexOf names "z" with
    | Some idx_x, Some idx_y, Some idx_z => Some (idx_x, idx_y, idx_z)
    | _, _, _ => None
    end in
  voxelSizes ← lift (xyzVoxelSizes (coordinateSpace viewer ≫= cs_scales)
                       (coordinateSpace viewer ≫= cs_units) indices);
  let sizes : option (list float) := (fun '(vx, vy, vz) => [vx; vy; vz]) <$> voxelSizes in
  let position : option (list jsnum) :=
    match pos, indices with
    | Some p, Some (idx_x, idx_y, idx_z) => Some [p !! idx_x; p !! idx_y; p !! idx_z]
    | _, _ => None
    end in
  bbox ← lift (viewBBox viewer bounds pos ppp voxelSizes indices);
  match bbox with
  | None =>
      postMessage
        (view_state position None sizes [1; 1; 1]%float (Some "Image bounds not available"))
  | Some bbox =>
      let scaleFactors : list float :=
        match ppp, voxelSizes with
        | Some v, Some (vx, vy, vz) => [v / vx; v / vy; v / vz]%float
        | _, _ => [1; 1; 1]%float
        end in
      postMessage (view_state position bbox sizes scaleFactors None)
  end.

(** The ["message"] listener on [window]. *)
Definition onMessage (viewer : Viewer) (m : Message) : M unit :=
  match m with
  | msg_screenshot => host takeScreenshot
  | msg_drawing_mode_change mode =>
      modify (upd_tool (set_activeMode mode));;
      modify (upd_tool (set_promptMode None))
  | msg_prompt_mode_change mode polarity =>
      modify (upd_tool (set_promptMode mode));;
      modify (upd_tool (set_promptPolarity polarity));;
      modify (upd_tool (set_activeMode None))
  | msg_drawing_size_change size => Parts.onDrawingSizeChange ALLOWED_UNITS viewer size
  | msg_drawing_color_change color => modify (upd_tool (set_strokeColor color))
  | msg_eraser_mode_change isEraser =>
      modify (upd_tool (set_isEraser (default false isEraser)))
  | msg_annotation_undo
  | msg_annotation_clear =>
      clearCanvas;;
      modify (upd_capture (set_strokeData []));;
      redrawLockedIndicator viewer;;
      sendAnnotationStateUpdate;;
      safeRedraw
  | msg_annotation_redo =>
      sendAnnotationStateUpdate;;
      safeRedraw
  | msg_annotation_state_sync strokeCount =>
      when (Nat.eqb strokeCount 0)
        (clearCanvas;;
         modify (upd_capture (set_strokeData [])));;
      redrawLockedIndicator viewer;;
      sendAnnotationStateUpdate;;
      safeRedraw
  | msg_drawing_clear =>
      clearCanvas;;
      modify (upd_capture (set_strokeData []));;
      redrawLockedIndicator viewer;;
      safeRedraw
  | msg_prompt_clear =>
      clearCanvas;;
      modify (upd_capture (set_promptData []));;
      redrawLockedIndicator viewer;;
      safeRedraw
  | msg_drawing_snapshot =>
      modify (fun s => set_pendingSnapshots (S (pendingSnapshots s)) s)
  | msg_segment_hover segId => host (setSegmentSelection segId)
  | msg_segment_recolor => host randomizeSegmentColors
  | msg_invalidate_chunks =>
      host invalidateSegmentationCaches;;
      host dispatchViewChangedLater
  | msg_get_viewer_state => postMessage viewer_state
  | msg_view_locked bbox =>
      modify (upd_locked (set_lockedBBox bbox));;
      s ← get;
      match mjoin (navigationState s ≫= nav_position) with
      | Some pos => modify (upd_locked (set_lockedPosition (Some pos)))
      | None => ret tt
      end;;
      match mjoin (navigationState s ≫= nav_zoomFactor) with
      | Some z => modify (upd_locked (set_lockedZoomFactor (Some z)))
      | None => ret tt
      end;;
      drawLockedRegionIndicator viewer bbox
  | msg_view_unlocked =>
      modify (upd_locked (set_lockedBBox None));;
      modify (upd_locked (set_lockedPosition None));;
      modify (upd_locked (set_lockedZoomFactor None));;
      clearCanvas;;
      safeRedraw
  | msg_reset_to_locked_view =>
      s ← get;
      match lockedPosition (locked s), navigationState s with
      | Some pos, Some nav =>
          match nav_position nav with
          | Some _ =>
              modify (set_navigationState
                        (Some {| nav_position := Some (Some pos);
                                 nav_zoomFactor := nav_zoomFactor nav |}))
          | None => ret tt
          end
      | _, _ => ret tt
      end;;
      s ← get;
      match lockedZoomFactor (locked s), navigationState s with
      | Some z, Some nav =>
          match nav_zoomFactor nav with
          | Some _ =>
              modify (set_navigationState
                        (Some {| nav_position := nav_position nav;
                                 nav_zoomFactor := Some (Some z) |}))
          | None => ret tt
          end
      | _, _ => ret tt
      end;;
      safeRedraw
  | msg_plugin_activated pluginId shortcuts => Parts.activatePluginBindings pluginId shortcuts
  | msg_plugin_deactivated => Parts.deactivatePluginBindings
  | msg_get_view_state => onGetViewState viewer
  | msg_other _ => ret tt
  end.

Definition onSnapshotLoaded (viewer : Viewer) : M unit :=
  s ← get;
  postMessage (drawing_snapshot_created (strokeData (capture s)));;
  clearCanvas;;
  modify (upd_capture (set_strokeData []));;
  redrawLockedIndicator viewer;;
  safeRedraw.

(** The capture-phase [keydown] listener on [document]. *)
Definition onKeyDown (e : KeyboardEvent) : M unit :=
  s ← get;
  let ctrlOrCmd := ctrlKey e || metaKey e in
  let key := toLowerCase (key e) in
  let pluginId := default "" (activePluginId (plugin s)) in
  match (if ctrlOrCmd then Parts.portalShortcuts_get key else None) with
  | Some property =>
      preventDefault;;
      stopImmediatePropagation;;
      Parts.postPortalAction property
  | None =>
      if truthy_opt (activePluginId (plugin s)) && ctrlOrCmd && String.eqb key "z" then
        preventDefault;;
        stopImmediatePropagation;;
        let shortcutKey :=
          if shiftKey e
          then (if metaKey e then "cmd+shift+z" else "ctrl+shift+z")
          else (if metaKey e then "cmd+z" else "ctrl+z") in
        postMessage (plugin_shortcut shortcutKey pluginId)
      else if truthy_opt (activePluginId (plugin s)) && negb ctrlOrCmd && negb (altKey e)
              && bool_decide (key ∈ activePluginKeys (plugin s))
      then
        preventDefault;;
        stopImmediatePropagation;;
        postMessage (plugin_shortcut key pluginId)
      else ret tt
  end.
End WithUnits.
End Part001.

(** ** The class [DrawingTool] of [src/custom/drawing_tool.ts]: the cursor

    The conversion of a number in a template literal and
    [encodeURIComponent] are built-ins of the language, and whether a string
    parses as a value of the CSS property [cursor] is decided by the
    browser; the class is embedded over the three. *)

Section Style.
Variable cursorParses : string -> bool.

(** [style.setProperty("cursor", v, "important")] on a [cursor] property
    that is [style] ([None] when it is not set): an empty [v] removes the
    property, a [v] that parses as a cursor sets it, and any other [v]
    leaves it as it was.  A declaration is represented by the string it was
    set from. *)
Definition setProperty (v : string) (style : option string) : option string :=
  if String.eqb v EmptyString then None
  else if cursorParses v then Some v
  else style.
End Style.

Module DrawingTool.
Section WithBuiltins.
Variable numberToString : float -> string.
Variable encodeURIComponent : string -> string.
Variable cursorParses : string -> bool.

Definition data_url (svg : string) : string :=
  "data:image/svg+xml;utf8," +:+ encodeURIComponent svg.

Definition makeBrushCursor (r : float) : string :=
  let d := (r * 2)%float in
  data_url
    (String.concat EmptyString
        [ "<svg xmlns="; dq; "http://www.w3.org/2000/svg"; dq; " width="; dq; numberToString d; dq;
          " height="; dq; numberToString d; dq; " viewBox="; dq; "0 0 "; numberToString d; " ";
          numberToString d; dq; "><circle cx="; dq; numberToString r; dq; " cy="; dq;
          numberToString r; dq; " r="; dq; numberToString (r - 1)%float; dq; " fill="; dq;
          "rgba(0,0,0,0.28)"; dq; " stroke="; dq; "white"; dq; " stroke-width="; dq; "1"; dq;
          "/></svg>" ]).

Definition makePointCursor : string :=
  data_url
    (String.concat EmptyString
        [ "<svg xmlns="; dq; "http://www.w3.org/2000/svg"; dq; " width="; dq; "32"; dq; " height=";
          dq; "32"; dq; " viewBox="; dq; "0 0 32 32"; dq; "><path d="; dq;
          "M17 4c-3.87 0-7 3.13-7 7 0 4.5 7 14 7 14s7-9.5 7-14c0-3.87-3.13-7-7-7z"; dq; " fill=";
          dq; "rgba(0,0,0,0.3)"; dq; "/><path d="; dq;
          "M16 3c-3.87 0-7 3.13-7 7 0 4.5 7 14 7 14s7-9.5 7-14c0-3.87-3.13-7-7-7z"; dq; " fill=";
          dq; "rgba(255,255,255,0.85)"; dq; " stroke="; dq; "rgba(0,0,0,0.6)"; dq;
          " stroke-width="; dq; "1.5"; dq; "/><circle cx="; dq; "16"; dq; " cy="; dq; "10"; dq;
          " r="; dq; "2.5"; dq; " fill="; dq; "rgba(0,0,0,0.5)"; dq; "/></svg>" ]).

Definition makeScribbleCursor : string :=
  data_url
    (String.concat EmptyString
        [ "<svg xmlns="; dq; "http://www.w3.org/2000/svg"; dq; " width="; dq; "32"; dq; " height=";
          dq; "32"; dq; " viewBox="; dq; "0 0 32 32"; dq; "><path d="; dq;
          "M6 28l1-6L25 4l4 4L11 26z"; dq; " fill="; dq; "rgba(0,0,0,0.25)"; dq; " transform="; dq;
          "translate(1,0)"; dq; "/><path d="; dq; "M5 27l1-6L24 3l4 4L10 25z"; dq; " fill="; dq;
          "rgba(255,255,255,0.85)"; dq; " stroke="; dq; "rgba(0,0,0,0.6)"; dq; " stroke-width=";
          dq; "1.5"; dq; " stroke-linejoin="; dq; "round"; dq; "/><line x1="; dq; "22"; dq; " y1=";
          dq; "5"; dq; " x2="; dq; "26"; dq; " y2="; dq; "9"; dq; " stroke="; dq;
          "rgba(0,0,0,0.2)"; dq; " stroke-width="; dq; "1"; dq; "/><circle cx="; dq; "5"; dq;
          " cy="; dq; "27"; dq; " r="; dq; "1.5"; dq; " fill="; dq; "rgba(0,0,0,0.5)"; dq;
          "/></svg>" ]).

Definition makeLassoCursor : string :=
  data_url
    (String.concat EmptyString
        [ "<svg xmlns="; dq; "http://www.w3.org/2000/svg"; dq; " width="; dq; "32"; dq; " height=";
          dq; "32"; dq; " viewBox="; dq; "0 0 32 32"; dq; "><path d="; dq;
          "M8 26C2 20 2 10 8 5c6-5 16-3 19 4 2.5 6-.5 13-6 17"; dq; " fill="; dq; "none"; dq;
          " stroke="; dq; "rgba(0,0,0,0.3)"; dq; " stroke-width="; dq; "2.5"; dq;
          " stroke-linecap="; dq; "round"; dq; " transform="; dq; "translate(1,0)"; dq;
          "/><path d="; dq; "M7 25C1 19 1 9 7 4c6-5 16-3 19 4 2.5 6-.5 13-6 17"; dq; " fill="; dq;
          "none"; dq; " stroke="; dq; "rgba(255,255,255,0.85)"; dq; " stroke-width="; dq; "2"; dq;
          " stroke-linecap="; dq; "round"; dq; " stroke-dasharray="; dq; "5,3"; dq;
          "/><circle cx="; dq; "7"; dq; " cy="; dq; "25"; dq; " r="; dq; "3"; dq; " fill="; dq;
          "rgba(255,255,255,0.85)"; dq; " stroke="; dq; "rgba(0,0,0,0.5)"; dq; " stroke-width=";
          dq; "1.5"; dq; "/></svg>" ]).

(** [url("${url}") ${x} ${y}, ${fallback}] *)
Definition url_cursor (url x y fallback : string) : string :=
  String.concat EmptyString ["url("; dq; url; dq; ") "; x; " "; y; ", "; fallback].

(** The [cursor] that [applyMode] computes from the settings. *)
Definition cursor_of (t : Tool) : string :=
  let mode := activeMode t in
  let promptMode := promptMode t in
  if opt_is mode "brush" then
    let r := Math_max 2 (Math_floor (brushPixelSize t / 2)) in
    url_cursor (makeBrushCursor r) (numberToString r) (numberToString r) "crosshair"
  else if opt_is promptMode "point" then url_cursor makePointCursor "16" "24" "default"
  else if opt_is promptMode "bbox" then "crosshair"
  else if opt_is promptMode "scribble" then url_cursor makeScribbleCursor "5" "27" "default"
  else if opt_is promptMode "lasso" then url_cursor makeLassoCursor "7" "25" "default"
  else if truthy_opt mode then "crosshair"
  else EmptyString.

(** The cursor state of the tool: [currentCursor], [cursorTimer], the
    intervals [setInterval] started and [clearInterval] has not stopped, and
    the [cursor] style property of the container and of the rendered-data
    panels ([None] when the property is not set). *)
Record View := mkView {
  currentCursor : string;
  cursorTimer : option nat;
  nextTimer : nat;
  running : gset nat;
  containerCursor : option string;
  panelCursors : list (option string)
}.

(** The state the constructor leaves, before its call of [applyMode]. *)
Definition constructed (panels : nat) : View :=
  mkView EmptyString None 0 ∅ None (replicate panels None).

(** [enforceCursor]: the container and every panel get the same call,
    [setProperty] when [currentCursor] is truthy and [removeProperty]
    otherwise. *)
Definition enforceCursor (v : View) : View :=
  let apply (style : option string) : option string :=
    if truthy_string (currentCursor v) then setProperty cursorParses (currentCursor v) style
    else None in
  mkView (currentCursor v) (cursorTimer v) (nextTimer v) (running v)
    (apply (containerCursor v)) (apply <$> panelCursors v).

(** [applyMode] *)
Definition applyMode (t : Tool) (v : View) : View :=
  let cursor := cursor_of t in
  let wasActive := negb (String.eqb (currentCursor v) EmptyString) in
  let v1 := enforceCursor
              (mkView cursor (cursorTimer v) (nextTimer v) (running v)
                 (containerCursor v) (panelCursors v)) in
  if truthy_string cursor && negb wasActive then
    mkView (currentCursor v1) (Some (nextTimer v1)) (S (nextTimer v1))
      (running v1 ∪ {[nextTimer v1]}) (containerCursor v1) (panelCursors v1)
  else if negb (truthy_string cursor) && wasActive then
    match cursorTimer v1 with
    | Some id =>
        mkView (currentCursor v1) None (nextTimer v1) (running v1 ∖ {[id]})
          (containerCursor v1) (panelCursors v1)
    | None => v1
    end
  else v1.

(** [disposed], as far as the cursor goes. *)
Definition disposed (v : View) : View :=
  let stopped := match cursorTimer v with
                 | Some id => running v ∖ {[id]}
                 | None => running v
                 end in
  enforceCursor
    (mkView EmptyString (cursorTimer v) (nextTimer v) stopped
       (containerCursor v) (panelCursors v)).

(** What happens to the tool: a change of a setting calls [applyMode], an
    interval that is running fires, the host replaces the panels, the tool is
    disposed. *)
Inductive Step : Type :=
| step_applyMode (t : Tool)
| step_interval (id : nat)
| step_panels (styles : list (option string))
| step_disposed.

Definition step (v : View) (st : Step) : View :=
  match st with
  | step_applyMode t => applyMode t v
  | step_interval id => if bool_decide (id ∈ running v) then enforceCursor v else v
  | step_panels styles =>
      mkView (currentCursor v) (cursorTimer v) (nextTimer v) (running v)
        (containerCursor v) styles
  | step_disposed => disposed v
  end.
End WithBuiltins.
End DrawingTool.

(** ** The class [DrawingTool] of [part_002]: the cursor *)

Module Part002.
Section WithBuiltins.
Variable numberToString : float -> string.
Variable encodeURIComponent : string -> string.
Variable cursorParses : string -> bool.

Definition data_url (svg : string) : string :=
  "data:image/svg+xml;utf8," +:+ encodeURIComponent svg.

Definition makeBrushCursor (r : float) : string :=
  let d := (r * 2)%float in
  data_url
    (String.concat EmptyString
        [ "<svg xmlns="; dq; "http://www.w3.org/2000/svg"; dq; " width="; dq; numberToString d; dq;
          " height="; dq; numberToString d; dq; " viewBox="; dq; "0 0 "; numberToString d; " ";
          numberToString d; dq; "><circle cx="; dq; numberToString r; dq; " cy="; dq;
          numberToString r; dq; " r="; dq; numberToString (r - 1)%float; dq; " fill="; dq;
          "rgba(0,0,0,0.28)"; dq; " stroke="; dq; "white"; dq; " stroke-width="; dq; "1"; dq;
          "/></svg>" ]).

Definition makeEraserCursor (s : float) : string :=
  data_url
    (String.concat EmptyString
        [ "<svg xmlns="; dq; "http://www.w3.org/2000/svg"; dq; " width="; dq; numberToString s; dq;
          " height="; dq; numberToString s; dq; " viewBox="; dq; "0 0 "; numberToString s; " ";
          numberToString s; dq; "><rect x="; dq; "0.5"; dq; " y="; dq; "0.5"; dq; " width="; dq;
          numberToString (s - 1)%float; dq; " height="; dq; numberToString (s - 1)%float; dq;
          " fill="; dq; "rgba(255,255,255,0.15)"; dq; " stroke="; dq; "white"; dq;
          " stroke-width="; dq; "1"; dq; "/></svg>" ]).

(** The value [applyMode] passes to [set]. *)
Definition cursor_of (t : Tool) : string :=
  let mode := activeMode t in
  let promptMode := promptMode t in
  if opt_is mode "brush" then
    let r := Math_max 2 (Math_floor (brushPixelSize t / 2)) in
    DrawingTool.url_cursor (makeBrushCursor r) (numberToString r) (numberToString r)
      "crosshair"
  else if opt_is mode "eraser" then
    let s := Math_max 6 (Math_floor (brushPixelSize t)) in
    let hot := Math_floor (s / 2) in
    DrawingTool.url_cursor (makeEraserCursor s) (numberToString hot) (numberToString hot)
      "not-allowed"
  else if opt_is promptMode "point" then "crosshair"
  else if opt_is promptMode "bbox" then "crosshair"
  else if opt_is promptMode "scribble" then
    let r := Math_max 2 4 in
    DrawingTool.url_cursor (makeBrushCursor r) (numberToString r) (numberToString r)
      "crosshair"
  else if opt_is promptMode "lasso" then "crosshair"
  else if truthy_opt mode then "crosshair"
  else "grab".

(** The [cursor] style property of the container and of the canvas. *)
Record View := mkView { containerCursor : option string; canvasCursor : option string }.

(** [applyMode]: [set] calls [setProperty] on the container and on the
    canvas. *)
Definition applyMode (t : Tool) (v : View) : View :=
  mkView (setProperty cursorParses (cursor_of t) (containerCursor v))
    (setProperty cursorParses (cursor_of t) (canvasCursor v)).
End WithBuiltins.
End Part002.

Section Embedding.
Context {builtins : Builtins}.

(** ** Events and their dispatch

    The browser and the host deliver events one at a time.  A listener that
    throws ends there; what it wrote stays, and the listeners after it still
    run.  The listeners on resizing and on the signals of the segmentation
    layers are not among the events: they repaint the locked-region
    indicator or post the colour seed and the hovered segment, and read or
    write nothing else of the state. *)

Inductive Event : Type :=
| ev_mousedown (viewer : Viewer) (now : string) (e : MouseEvent)
| ev_mousemove (viewer : Viewer) (e : MouseEvent)
| ev_mouseup
| ev_frame (viewer : Viewer)
| ev_message (viewer : Viewer) (m : Message)
| ev_snapshot_loaded (viewer : Viewer)
| ev_keydown (e : KeyboardEvent)
| ev_container_keydown (e : KeyboardEvent)
| ev_zoom_changed (viewer : Viewer)
| ev_zoom_frame (viewer : Viewer)
| ev_navigate (position : option (list float)) (zoomFactor : option float).

(** A fresh DOM event starts with its flags down. *)
Definition begin_event (s : State) : State := set_flags no_flags s.

(** The listeners registered [n] times on [window] run one after the other. *)
Fixpoint run_listeners (n : nat) (h : M unit) (s : State) : State :=
  match n with
  | O => s
  | S n' => run_listeners n' h (exec h s)
  end.

(** The user moves the view: the host writes the values of the position and
    zoom objects that exist. *)
Definition navigate (position : option (list float)) (zoomFactor : option float)
    (s : State) : State :=
  match navigationState s with
  | None => s
  | Some nav =>
      set_navigationState
        (Some {| nav_position := (fun _ => position) <$> nav_position nav;
                 nav_zoomFactor := (fun _ => zoomFactor) <$> nav_zoomFactor nav |}) s
  end.

Definition answer_snapshot (h : M unit) (s : State) : State :=
  match pendingSnapshots s with
  | O => s
  | S n => exec h (set_pendingSnapshots n s)
  end.

(** Whether a [mousedown] goes on from the container to the panels below it,
    where the viewer's own navigation listeners sit. *)
Definition reaches_viewer (s : State) : bool := negb (propagationStopped (flags s)).

Section Dispatch.
Variable ALLOWED_UNITS : list LengthUnit.

Definition zoom_listener (h : M unit) (s : State) : State :=
  if is_Some_b (navigationState s ≫= nav_zoomFactor) then exec h s else s.

Definition Handler_step (s : State) (ev : Event) : State :=
  match ev with
  | ev_mousedown viewer now e =>
      exec (Handler.onMouseDown ALLOWED_UNITS viewer now e) (begin_event s)
  | ev_mousemove viewer e =>
      run_listeners (listeners s) (Handler.onMove viewer e) (begin_event s)
  | ev_mouseup => run_listeners (listeners s) Handler.onUp (begin_event s)
  | ev_frame viewer =>
      if rafId (render s) then exec (Handler.drawStep ALLOWED_UNITS viewer) s else s
  | ev_message viewer m => exec (Handler.onMessage ALLOWED_UNITS viewer m) s
  | ev_snapshot_loaded _ => answer_snapshot Handler.onSnapshotLoaded s
  | ev_keydown _ | ev_container_keydown _ => begin_event s
  | ev_zoom_changed viewer => zoom_listener (sendScaleBarUpdate ALLOWED_UNITS viewer) s
  | ev_zoom_frame _ => s
  | ev_navigate position zoomFactor => navigate position zoomFactor s
  end.

Definition Part000_step (s : State) (ev : Event) : State :=
  match ev with
  | ev_mousedown viewer now e =>
      exec (Part000.onMouseDown ALLOWED_UNITS viewer now e) (begin_event s)
  | ev_mousemove viewer e =>
      run_listeners (listeners s) (Part000.onMove viewer e) (begin_event s)
  | ev_mouseup => run_listeners (listeners s) Part000.onUp (begin_event s)
  | ev_frame viewer =>
      if rafId (render s) then exec (Parts.drawStep ALLOWED_UNITS viewer) s else s
  | ev_message viewer m => exec (Part000.onMessage ALLOWED_UNITS viewer m) s
  | ev_snapshot_loaded _ => answer_snapshot Part000.onSnapshotLoaded s
  | ev_keydown e => exec (Part000.onKeyDown e) (begin_event s)
  | ev_container_keydown _ => begin_event s
  | ev_zoom_changed viewer => zoom_listener (Parts.onZoomChanged ALLOWED_UNITS viewer) s
  | ev_zoom_frame viewer =>
      if zoomRafId s then exec (Parts.onZoomFrame ALLOWED_UNITS viewer) s else s
  | ev_navigate position zoomFactor => navigate position zoomFactor s
  end.

(** In [part_001] the container has two capture-phase [mousedown]
    listeners; they run in the order of their registration, [onMouseDown]
    first. *)
Definition Part001_mousedown (viewer : Viewer) (now : string) (e : MouseEvent)
    (s : State) : State :=
  exec (Part001.onLockedMouseDown viewer e)
    (exec (Part001.onMouseDown ALLOWED_UNITS viewer now e) (begin_event s)).

Definition Part001_step (s : State) (ev : Event) : State :=
  match ev with
  | ev_mousedown viewer now e => Part001_mousedown viewer now e s
  | ev_mousemove viewer e =>
      run_listeners (listeners s) (Part001.onMove viewer e) (begin_event s)
  | ev_mouseup => run_listeners (listeners s) Part001.onUp (begin_event s)
  | ev_frame viewer =>
      if rafId (render s) then exec (Parts.drawStep ALLOWED_UNITS viewer) s else s
  | ev_message viewer m => exec (Part001.onMessage ALLOWED_UNITS viewer m) s
  | ev_snapshot_loaded viewer => answer_snapshot (Part001.onSnapshotLoaded viewer) s
  | ev_keydown e => exec (Part001.onKeyDown e) (begin_event s)
  | ev_container_keydown e => exec (Part001.onLockedKeyDown e) (begin_event s)
  | ev_zoom_changed viewer => zoom_listener (Parts.onZoomChanged ALLOWED_UNITS viewer) s
  | ev_zoom_frame viewer =>
      if zoomRafId s then exec (Parts.onZoomFrame ALLOWED_UNITS viewer) s else s
  | ev_navigate position zoomFactor => navigate position zoomFactor s
  end.

(** The state after a sequence of events. *)
Definition run_events (step : State -> Event -> State) (s : State) (evs : list Event)
  : State := foldl step s evs.

(** [setupDrawingToolMessageHandler]: the listeners above are registered and
    [sendScaleBarUpdate(viewer)] is called once; [nav] is the navigation
    state of the viewer.  This is where every run of events starts. *)
Definition setupDrawingToolMessageHandler (viewer : Viewer) (nav : option NavigationState)
  : State := exec (sendScaleBarUpdate ALLOWED_UNITS viewer) (initial_state nav).
End Dispatch.

(** The three revisions, by name. *)
Inductive Revision : Type := drawing_tool_handler_ts | part_000 | part_001.

Definition step_of (r : Revision) (ALLOWED_UNITS : list LengthUnit) : State -> Event -> State :=
  match r with
  | drawing_tool_handler_ts => Handler_step ALLOWED_UNITS
  | part_000 => Part000_step ALLOWED_UNITS
  | part_001 => Part001_step ALLOWED_UNITS
  end.

(** The handlers of a revision, by name. *)
Definition onMouseDown_of (r : Revision) (ALLOWED_UNITS : list LengthUnit)
    : Viewer -> string -> MouseEvent -> M unit :=
  match r with
  | drawing_tool_handler_ts => Handler.onMouseDown ALLOWED_UNITS
  | part_000 => Part000.onMouseDown ALLOWED_UNITS
  | part_001 => Part001.onMouseDown ALLOWED_UNITS
  end.

Definition voxelPoint_of (r : Revision) : Viewer -> StrokePoint :=
  match r with
  | drawing_tool_handler_ts => Handler.voxelPoint
  | part_000 => Part000.voxelPoint
  | part_001 => Part001.voxelPoint
  end.

Definition onMove_of (r : Revision) : Viewer -> MouseEvent -> M unit :=
  match r with
  | drawing_tool_handler_ts => Handler.onMove
  | part_000 => Part000.onMove
  | part_001 => Part001.onMove
  end.

Definition onUp_of (r : Revision) : M unit :=
  match r with
  | drawing_tool_handler_ts => Handler.onUp
  | part_000 => Part000.onUp
  | part_001 => Part001.onUp
  end.

Definition onMessage_of (r : Revision) (ALLOWED_UNITS : list LengthUnit)
    : Viewer -> Message -> M unit :=
  match r with
  | drawing_tool_handler_ts => Handler.onMessage ALLOWED_UNITS
  | part_000 => Part000.onMessage ALLOWED_UNITS
  | part_001 => Part001.onMessage ALLOWED_UNITS
  end.

(** The [keydown] listener on [document]; the first revision has none. *)
Definition onKeyDown_of (r : Revision) : KeyboardEvent -> M unit :=
  match r with
  | drawing_tool_handler_ts => fun _ => ret tt
  | part_000 => Part000.onKeyDown
  | part_001 => Part001.onKeyDown
  end.

(** Whether the revision checks the data panel and the data bounds before it
    starts a capture. *)
Definition has_data_guards (r : Revision) : bool :=
  match r with
  | drawing_tool_handler_ts => false
  | part_000 | part_001 => true
  end.

(** ** Properties stated over the embedding *)

(** A handler keeps an invariant of the state, whether it finishes or throws. *)
Definition preserves {A} (I : State -> Prop) (m : M A) : Prop :=
  forall s, I s -> I (snd (m s)).

(** Which of the position and zoom objects of the navigation state exist. *)
Definition nav_objects (s : State) : option (bool * bool) :=
  (fun nav => (is_Some_b (nav_position nav), is_Some_b (nav_zoomFactor nav)))
    <$> navigationState s.

(** The part of the state only parent messages write: the two modes and the
    locked view; with it, which navigation objects exist. *)
Definition settings (s : State) : option string * option string * Locked * option (bool * bool) :=
  (activeMode (tool s), promptMode (tool s), locked s, nav_objects s).

(** A handler leaves the settings as they are, whether it finishes or throws. *)
Definition keeps_settings {A} (m : M A) : Prop :=
  forall x, preserves (fun s => settings s = x) m.

Definition is_message (ev : Event) : bool :=
  match ev with
  | ev_message _ _ => true
  | _ => false
  end.

(** A unit name occurs in the table of units. *)
Definition unit_occurs (ALLOWED_UNITS : list LengthUnit) (name : string) : Prop :=
  exists u, u ∈ ALLOWED_UNITS /\ lu_unit u = name.

(** [u] is the first entry of the table whose unit is [name]. *)
Definition first_named (ALLOWED_UNITS : list LengthUnit) (name : string) (u : LengthUnit) : Prop :=
  exists before after,
    ALLOWED_UNITS = before ++ u :: after
    /\ lu_unit u = name
    /\ Forall (fun v => lu_unit v <> name) before.

(** Every length of the table is a finite number other than zero. *)
Definition proper_lengths (ALLOWED_UNITS : list LengthUnit) : Prop :=
  Forall (fun u => is_finite (lengthInNanometers u) = true
                   /\ is_zero (lengthInNanometers u) = false) ALLOWED_UNITS.

(** A drawing or prompt mode is active: [mode || promptMode]. *)
Definition mode_active (s : State) : bool :=
  truthy_opt (activeMode (tool s)) || truthy_opt (promptMode (tool s)).

(** The mouse position has at least three components. *)
Definition has_position (viewer : Viewer) : Prop :=
  exists p, mousePosition viewer = Some p /\ 3 <= length p.

(** The first three components of the mouse position are finite and lie
    within the bounds of the coordinate space, lower bound included, upper
    bound excluded; a bound that is not there excludes nothing. *)
Definition within_data_bounds (viewer : Viewer) : Prop :=
  exists pos b,
    mousePosition viewer = Some pos
    /\ coordinateSpace viewer ≫= cs_bounds = Some b
    /\ 3 <= length pos
    /\ forall i, i < 3 ->
         exists x, pos !! i = Some x
                   /\ is_finite x = true
                   /\ js_lt (Some x) (lowerBounds b !! i) = false
                   /\ js_ge (Some x) (upperBounds b !! i) = false.

(** What [onUp] posts for the stroke and for the prompt in progress. *)
Definition stroke_messages (r : Revision) (s : State) : list ParentMessage :=
  match currentStroke (capture s) with
  | None => []
  | Some st =>
      match r with
      | part_001 =>
          [drawing_stroke_complete
             (Some (st, opt_is (activeMode (tool s)) "eraser" || isEraser (tool s)));
           annotation_state_update (length (strokeData (capture s) ++ [st])) true false]
      | _ => [drawing_stroke_complete None]
      end
  end.

Definition prompt_messages (s : State) : list ParentMessage :=
  match currentPrompt (capture s) with
  | None => []
  | Some pr => [prompt_complete (promptData (capture s) ++ [pr])]
  end.

(** The capture state once the stroke and the prompt in progress are
    committed. *)
Definition committed (c : Capture) : Capture :=
  mkCapture (strokeData c ++ option_list (currentStroke c))
    (promptData c ++ option_list (currentPrompt c)) None None
    (if is_Some_b (currentStroke c) || is_Some_b (currentPrompt c) then false
     else isCapturing c).

(** The DOM event was taken away from the viewer: its default is prevented
    and its propagation stopped. *)
Definition event_consumed (s : State) : Prop :=
  defaultPrevented (flags s) = true /\ propagationStopped (flags s) = true.

(** A keyboard event was intercepted: default prevented, immediate
    propagation stopped. *)
Definition key_intercepted (s : State) : Prop :=
  defaultPrevented (flags s) = true /\ immediatePropagationStopped (flags s) = true.

(** The values of the navigation position and of the zoom factor. *)
Definition nav_position_value (s : State) : option (list float) :=
  mjoin (navigationState s ≫= nav_position).
Definition nav_zoom_value (s : State) : option float :=
  mjoin (navigationState s ≫= nav_zoomFactor).

(** The parent messages that set or clear the locked view. *)
Definition is_lock_message (ev : Event) : bool :=
  match ev with
  | ev_message _ (msg_view_locked _) | ev_message _ msg_view_unlocked => true
  | _ => false
  end.

(** What the locked-region indicator paints on the cleared canvas. *)
Definition lock_indicator (viewer : Viewer) (bbox : option LockedBBox) : list Mark :=
  match bbox, getSliceViewPanels viewer with
  | Some _, first :: rest => (mark_lock_border <$> (first :: rest)) ++ [mark_lock_badge first]
  | _, _ => []
  end.

(** What the mouse-down guard asks for in a revision: a mode is active, the
    left button is pressed, and, where the revision checks it, the target is
    inside a rendered-data panel and the position within the data bounds. *)
Definition capture_may_start (r : Revision) (s : State) (viewer : Viewer) (e : MouseEvent)
    : Prop :=
  mode_active s = true
  /\ button e = 0%Z
  /\ (has_data_guards r = true -> isOnDataPanel e = true /\ within_data_bounds viewer).

(** The point the position stands for when the dimensions named "x", "y" and
    "z" are looked up by name, and the first three components are taken when
    one of the names is missing. *)
Definition named_or_first3 (viewer : Viewer) : StrokePoint :=
  match mousePosition viewer with
  | None => nan_point
  | Some p =>
      if (length p <? 3)%nat then nan_point
      else
        let names := default [] (coordinateSpace viewer ≫= cs_names) in
        match indexOf names "x", indexOf names "y", indexOf names "z" with
        | Some ix, Some iy, Some iz => mkPoint (p !! ix) (p !! iy) (p !! iz)
        | _, _, _ => mkPoint (p !! 0%nat) (p !! 1%nat) (p !! 2%nat)
        end
  end.

(** The point lists a state holds: of the committed strokes, of the stroke in
    progress, and of the scribble and lasso prompts, committed or in
    progress. *)
Definition prompt_points (p : Prompt) : option (list StrokePoint) :=
  match p with
  | PromptScribble pts _ | PromptLasso pts _ => Some pts
  | PromptPoint _ _ | PromptBBox _ _ _ => None
  end.

Definition point_lists (c : Capture) : list (list StrokePoint) :=
  (st_points <$> strokeData c)
  ++ (st_points <$> option_list (currentStroke c))
  ++ omap prompt_points (promptData c)
  ++ omap prompt_points (option_list (currentPrompt c)).

Definition committed_point_lists (c : Capture) : list (list StrokePoint) :=
  (st_points <$> strokeData c) ++ omap prompt_points (promptData c).

(** Every point list of the state satisfies [J]. *)
Definition points_inv (J : list StrokePoint -> Prop) (s : State) : Prop :=
  Forall J (point_lists (capture s)).

(** No two consecutive points are [===] in all of x, y and z. *)
Definition no_adjacent_duplicates (l : list StrokePoint) : Prop :=
  forall i a b, l !! i = Some a -> l !! S i = Some b -> differs a b = true.

(** The viewer that comes with a mouse-down or mouse-move event, and the
    viewers that came with the mouse events of a run. *)
Definition mouse_viewer (ev : Event) : option Viewer :=
  match ev with
  | ev_mousedown viewer _ _ | ev_mousemove viewer _ => Some viewer
  | _ => None
  end.

Definition mouse_viewers (evs : list Event) : list Viewer := omap mouse_viewer evs.

(** The test that stands before every append of a point: the bounds check in
    the revisions that have it, the validity of the point in the first one. *)
Definition recordable (r : Revision) (viewer : Viewer) : bool :=
  if has_data_guards r then isInDataBounds viewer
  else isValidPoint (voxelPoint_first3 viewer).

(** The points of a run all come from mouse positions of its events. *)
Definition from_positions (r : Revision) (viewers : list Viewer) (l : list StrokePoint) : Prop :=
  Forall (fun p => exists viewer,
            viewer ∈ viewers /\ has_position viewer /\ p = voxelPoint_of r viewer) l.

(** At most one of [activeMode] and [promptMode] is set. *)
Definition modes_exclusive (s : State) : Prop :=
  activeMode (tool s) = None \/ promptMode (tool s) = None.

(** The lock-indicator marks. *)
Definition is_lock_mark (m : Mark) : bool :=
  match m with
  | mark_lock_border _ | mark_lock_badge _ => true
  | _ => false
  end.

(** ** Properties of whole runs *)

(** The handlers that are neither mouse nor message handlers keep [I]. *)
Definition quiet_handlers_preserve (ALLOWED_UNITS : list LengthUnit) (I : State -> Prop) : Prop :=
  (forall viewer, preserves I (Handler.drawStep ALLOWED_UNITS viewer))
  /\ (forall viewer, preserves I (Parts.drawStep ALLOWED_UNITS viewer))
  /\ preserves I Handler.onSnapshotLoaded
  /\ preserves I Part000.onSnapshotLoaded
  /\ (forall viewer, preserves I (Part001.onSnapshotLoaded viewer))
  /\ (forall e, preserves I (Part000.onKeyDown e))
  /\ (forall e, preserves I (Part001.onKeyDown e))
  /\ (forall viewer e, preserves I (Part001.onLockedMouseDown viewer e))
  /\ (forall e, preserves I (Part001.onLockedKeyDown e))
  /\ (forall viewer, preserves I (sendScaleBarUpdate ALLOWED_UNITS viewer))
  /\ (forall viewer, preserves I (Parts.onZoomChanged ALLOWED_UNITS viewer))
  /\ (forall viewer, preserves I (Parts.onZoomFrame ALLOWED_UNITS viewer)).

(** [I] does not read what the dispatch itself writes: the flags of the
    event, the count of snapshot requests, the navigation state. *)
Definition dispatch_blind (I : State -> Prop) : Prop :=
  (forall s f, I s -> I (set_flags f s))
  /\ (forall s n, I s -> I (set_pendingSnapshots n s))
  /\ (forall s n, I s -> I (set_navigationState n s)).

(** A painted stroke segment is not thinner than one pixel. *)
Definition wide_enough (m : Mark) : Prop :=
  match m with
  | mark_stroke _ _ lineWidth _ _ _ => (lineWidth <? 1)%float = false
  | _ => True
  end.

(** What is on the canvas, and what [putImageData] may put back on it. *)
Definition painted (s : State) : list Mark :=
  canvas (render s) ++ default [] (snapshot (tool s)).

(** Every stroke segment that is painted, or that [putImageData] may put
    back, is wide enough. *)
Definition width_inv (s : State) : Prop := Forall wide_enough (painted s).

(** [calculatePhysicalSizePerVoxel] of a revision. *)
Definition calculatePhysicalSizePerVoxel_of (r : Revision) (ALLOWED_UNITS : list LengthUnit)
    : Viewer -> Outcome (option (list float)) :=
  match r with
  | drawing_tool_handler_ts => Handler.calculatePhysicalSizePerVoxel ALLOWED_UNITS
  | part_000 | part_001 => Parts.calculatePhysicalSizePerVoxel ALLOWED_UNITS
  end.

(** The test [onMove] makes before it records the position of a mouse move:
    target and position inside the data in the revisions that check it, the
    validity of the point in the first one. *)
Definition records (r : Revision) (viewer : Viewer) (e : MouseEvent) : bool :=
  if has_data_guards r then isOnDataPanel e && isInDataBounds viewer
  else isValidPoint (voxelPoint_first3 viewer).

(** The points of a stroke after a sequence of mouse moves. *)
Definition trace_points (r : Revision) (start : list StrokePoint)
    (moves : list (Viewer * MouseEvent)) : list StrokePoint :=
  foldl (fun acc move =>
           if records r move.1 move.2 then pushUniquePoint acc (voxelPoint_of r move.1)
           else acc) start moves.

Definition mouse_moves (moves : list (Viewer * MouseEvent)) : list Event :=
  (fun move => ev_mousemove move.1 move.2) <$> moves.

(** A brush stroke is being captured, with one pair of listeners. *)
Definition stroke_in_progress (s : State) (st : BrushStroke) : Prop :=
  currentStroke (capture s) = Some st
  /\ currentPrompt (capture s) = None
  /\ isCapturing (capture s) = true
  /\ listeners s = 1
  /\ st_mode st = "brush".

Definition with_points (st : BrushStroke) (pts : list StrokePoint) : BrushStroke :=
  mkStroke (st_mode st) (st_color st) (st_physicalSize st) (st_voxelSizes st)
    (st_timestamp st) pts.

(** No capture is in progress and no capture listener is registered. *)
Definition idle (s : State) : Prop :=
  currentStroke (capture s) = None
  /\ currentPrompt (capture s) = None
  /\ listeners s = 0.

(** The prompt a mouse-down begins in the prompt modes that are dragged. *)
Definition begun_prompt (promptMode : string) (pt : StrokePoint) (polarity : string)
    : option Prompt :=
  if String.eqb promptMode "bbox" then Some (PromptBBox pt pt polarity)
  else if String.eqb promptMode "scribble"
  then Some (PromptScribble (if isValidPoint pt then [pt] else []) polarity)
  else if String.eqb promptMode "lasso"
  then Some (PromptLasso (if isValidPoint pt then [pt] else []) polarity)
  else None.

(** What a recorded mouse move does to the prompt in progress. *)
Definition moved_prompt (pr : Prompt) (p : StrokePoint) : Prompt :=
  match pr with
  | PromptBBox startPoint _ polarity => PromptBBox startPoint p polarity
  | PromptScribble points polarity => PromptScribble (pushUniquePoint points p) polarity
  | PromptLasso points polarity => PromptLasso (pushUniquePoint points p) polarity
  | PromptPoint _ _ => pr
  end.

Definition trace_prompt (r : Revision) (start : Prompt)
    (moves : list (Viewer * MouseEvent)) : Prompt :=
  foldl (fun acc move =>
           if records r move.1 move.2 then moved_prompt acc (voxelPoint_of r move.1)
           else acc) start moves.

(** A prompt is being captured, with one pair of listeners. *)
Definition prompt_in_progress (s : State) (pr : Prompt) : Prop :=
  currentStroke (capture s) = None
  /\ currentPrompt (capture s) = Some pr
  /\ isCapturing (capture s) = true
  /\ listeners s = 1.

(** The events of the mouse. *)
Definition is_mouse_event (ev : Event) : bool :=
  match ev with
  | ev_mousedown _ _ _ | ev_mousemove _ _ | ev_mouseup => true
  | _ => false
  end.

(** The point prompt mode is selected and nothing is being dragged. *)
Definition point_mode (s : State) : Prop :=
  activeMode (tool s) = None
  /\ promptMode (tool s) = Some "point"
  /\ currentStroke (capture s) = None
  /\ listeners s = 0.

(** What a run in point mode keeps of the state [s0] it started in: the
    committed strokes and prompts, and the polarity; what it posts is no
    "prompt_complete"; the prompt in progress is the one of [s0] or a point
    prompt at the position of one of the [viewers]. *)
Definition point_mode_run (r : Revision) (s0 : State) (viewers : list Viewer) (s : State)
    : Prop :=
  point_mode s
  /\ promptPolarity (tool s) = promptPolarity (tool s0)
  /\ strokeData (capture s) = strokeData (capture s0)
  /\ promptData (capture s) = promptData (capture s0)
  /\ (exists posted,
        outbox s = outbox s0 ++ posted
        /\ Forall (fun m => message_type m <> "prompt_complete") posted)
  /\ (currentPrompt (capture s) = currentPrompt (capture s0)
      \/ exists viewer,
           viewer ∈ viewers
           /\ isValidPoint (voxelPoint_of r viewer) = true
           /\ currentPrompt (capture s)
              = Some (PromptPoint (voxelPoint_of r viewer) (promptPolarity (tool s0)))).

(** The points of a run all passed the test that stands before an append. *)
Definition from_recordable (r : Revision) (viewers : list Viewer) (l : list StrokePoint)
    : Prop :=
  Forall (fun p => exists viewer,
            viewer ∈ viewers /\ recordable r viewer = true /\ p = voxelPoint_of r viewer) l.

(** A stroke in progress is being captured and has its listeners. *)
Definition stroke_attended (s : State) : Prop :=
  currentStroke (capture s) = None
  \/ (isCapturing (capture s) = true /\ 0 < listeners s).

(** The stroke a "drawing_stroke_complete" message of [part_001] carries. *)
Definition completed_stroke (m : ParentMessage) : option BrushStroke :=
  match m with
  | drawing_stroke_complete (Some (st, _)) => Some st
  | _ => None
  end.

(** The strokes the parent window was sent, oldest first. *)
Definition completed_strokes (s : State) : list BrushStroke :=
  omap completed_stroke (outbox s).

(** [strokeData] holds the strokes sent last, in the order they were sent. *)
Definition strokes_reported (s : State) : Prop :=
  strokeData (capture s) `suffix_of` completed_strokes s.

(** What the parent window can rely on in a message. *)
Definition well_formed (m : ParentMessage) : Prop :=
  match m with
  | prompt_complete prompts => prompts <> []
  | annotation_state_update strokeCount canUndo canRedo =>
      canUndo = (0 <? strokeCount)%nat /\ canRedo = false
  | portal_action (action_name name) =>
      name ∈ ["portal-save-scene"; "portal-download-roi"; "portal-show-cheatsheet"]
  | _ => True
  end.

Definition outbox_well_formed (s : State) : Prop := Forall well_formed (outbox s).

(** ** Properties of the keyboard, the brush size and the scale bar *)

(** Whether the revision forwards Ctrl/Cmd+Z to the active plugin. *)
Definition has_undo_shortcut (r : Revision) : bool :=
  match r with
  | part_001 => true
  | drawing_tool_handler_ts | part_000 => false
  end.

(** The cases in which the [keydown] listener on [document] takes a key: a
    portal shortcut, an inherited property of [portalShortcuts], undo/redo
    for a plugin ([part_001] only), a plain key of the active plugin. *)
Definition portal_key (e : KeyboardEvent) : Prop :=
  ctrlKey e || metaKey e = true
  /\ (toLowerCase (key e) = "s" \/ toLowerCase (key e) = "d" \/ toLowerCase (key e) = "k").

(** Ctrl or Cmd with a key whose lower-cased form names something the
    object literal inherits. *)
Definition inherited_key (e : KeyboardEvent) : Prop :=
  ctrlKey e || metaKey e = true /\ Parts.inherits (toLowerCase (key e)) = true.

(** What the listener posts for a property of [portalShortcuts]. *)
Definition portal_posted (property : Parts.Property) : list ParentMessage :=
  match property with
  | Parts.own_action action => [portal_action (action_name action)]
  | Parts.inherited_prototype => [portal_action action_empty_object]
  | Parts.inherited_method => []
  end.

Definition undo_key (r : Revision) (e : KeyboardEvent) (s : State) : Prop :=
  has_undo_shortcut r = true
  /\ truthy_opt (activePluginId (plugin s)) = true
  /\ ctrlKey e || metaKey e = true
  /\ toLowerCase (key e) = "z".

Definition plugin_key (e : KeyboardEvent) (s : State) : Prop :=
  truthy_opt (activePluginId (plugin s)) = true
  /\ ctrlKey e = false /\ metaKey e = false /\ altKey e = false
  /\ toLowerCase (key e) ∈ activePluginKeys (plugin s).

(** [ppp] as the handlers test it: a physical size per pixel that is there
    and truthy. *)
Definition known_pixel_size (ppp : option float) : option float :=
  match ppp with
  | Some v => if truthy_number v then Some v else None
  | None => None
  end.

(** The length a "scale_bar_update" message carries. *)
Definition scale_bar_length (m : ParentMessage) : option float :=
  match m with
  | scale_bar_update l => Some l
  | _ => None
  end.

(** The length the parent window was told last. *)
Definition last_scale_bar_sent (s : State) : option float :=
  last (omap scale_bar_length (outbox s)).

(** The parent window knows the cached scale-bar length. *)
Definition scale_bar_in_sync (s : State) : Prop :=
  lastScaleBarLength s = last_scale_bar_sent s.

(** The unit of the scale at index [i]: [units[i] ?? "m"]. *)
Definition scale_unit (units : list string) (i : nat) : string := default "m" (units !! i).

(** The visible layers of the slice-view panels, in the order the loops
    visit them, each with its slice view. *)
Definition visible_layers (ps : list Panel) : list (SliceView * ManagedLayer) :=
  ps ≫= (fun panel =>
           match p_sliceView panel with
           | Some sv => (fun managed => (sv, managed)) <$> default [] (visibleLayerList sv)
           | None => []
           end).

(** The scales and units of a visible layer, when it has both. *)
Definition layer_dimensions (entry : SliceView * ManagedLayer)
    : option (list float * list string) :=
  let info :=
    if visibleLayers_get entry.1 then mjoin (visibleLayerInfo entry.2) else None in
  match info ≫= displayDimensionScales, info ≫= displayDimensionUnits with
  | Some scales, Some units => Some (scales, units)
  | _, _ => None
  end.

Definition is_image_layer (entry : SliceView * ManagedLayer) : bool :=
  opt_is (userLayerType entry.2) "image".

(** The layer [calculatePhysicalSizePerVoxel] of [part_000] and [part_001]
    measures: the first image layer with dimensions, else the first layer
    with dimensions. *)
Definition measured_layer (ps : list Panel) : option (list float * list string) :=
  match head (omap (fun entry => if is_image_layer entry then layer_dimensions entry
                                 else None) (visible_layers ps)) with
  | Some d => Some d
  | None => head (omap layer_dimensions (visible_layers ps))
  end.

(** ** Properties of the cursor *)

(** A drawing or prompt mode that [applyMode] of [drawing_tool.ts] gives a
    cursor. *)
Definition has_cursor (t : Tool) : Prop :=
  truthy_opt (activeMode t) = true
  \/ promptMode t = Some "point" \/ promptMode t = Some "bbox"
  \/ promptMode t = Some "scribble" \/ promptMode t = Some "lasso".

(** Exactly one interval runs while a cursor is set, and none otherwise. *)
Definition one_interval (v : DrawingTool.View) : Prop :=
  if truthy_string (DrawingTool.currentCursor v)
  then exists id, DrawingTool.cursorTimer v = Some id /\ DrawingTool.running v = {[id]}
  else DrawingTool.running v = ∅.

End Embedding.

(** ** Sample data for concrete runs *)

Definition data_panel : Element :=
  {| el_id := 7; el_classes := ["neuroglancer-panel"; "neuroglancer-rendered-data-panel"] |}.
Definition side_bar : Element := {| el_id := 3; el_classes := ["neuroglancer-side-panel"] |}.
Definition root : Element := {| el_id := 1; el_classes := ["neuroglancer-container"] |}.

Definition sample_layer : ManagedLayer :=
  {| userLayerType := Some "image";
     visibleLayerInfo :=
       Some (Some {| displayDimensionScales := Some [8; 8; 40]%float;
                     displayDimensionUnits := Some ["nm"; "nm"; "nm"] |}) |}.

Definition sample_panel : Panel :=
  {| p_scaleBars :=
       Some [ {| sb_dimensions :=
                   Some {| physicalSizePerPixel := 1;
                           physicalLength := 10;
                           physicalUnit := Some "µm";
                           physicalBaseUnit := Some "µm" |} |} ];
     p_sliceView := Some {| visibleLayerList := Some [sample_layer];
                            visibleLayers_get := true |};
     p_element := Some 7;
     p_offsetWidth := Some 800%float;
     p_offsetHeight := Some 600%float |}.

Definition sample_space (names : list string) : CoordinateSpace :=
  {| cs_names := Some names;
     cs_bounds := Some {| lowerBounds := [0; 0; 0]%float;
                          upperBounds := [100; 100; 100]%float |};
     cs_scales := Some [8; 8; 40]%float;
     cs_units := Some ["nm"; "nm"; "nm"] |}.

Definition sample_viewer (names : list string) (position : option (list float)) : Viewer :=
  {| mousePosition := position;
     coordinateSpace := Some (sample_space names);
     panels := Some [sample_panel];
     containerLeft := 10;
     containerTop := 20 |}.

Definition click (b : Z) (path : list Element) : MouseEvent :=
  {| button := b; clientX := 50; clientY := 60; target := path |}.

Definition key_press (k : string) (ctrl meta alt : bool) : KeyboardEvent :=
  {| key := k; ctrlKey := ctrl; metaKey := meta; altKey := alt; shiftKey := false;
     key_target := [root] |}.

Definition sample_nav : option NavigationState :=
  Some {| nav_position := Some (Some [1; 2; 3]%float); nav_zoomFactor := Some (Some 2%float) |}.

Definition sample_bbox : LockedBBox :=
  {| x_start := 0; x_end := 10; y_start := 0; y_end := 10; z_start := 0; z_end := 5 |}.

(** The initial state with the brush selected, and with the view locked too. *)
Definition brush_state : State :=
  upd_tool (set_activeMode (Some "brush")) (initial_state sample_nav).

Definition locked_brush_state : State :=
  upd_locked (set_lockedBBox (Some sample_bbox)) brush_state.

Definition in_bounds_viewer : Viewer := sample_viewer ["x"; "y"; "z"] (Some [1; 2; 3]%float).
Definition out_of_bounds_viewer : Viewer := sample_viewer ["x"; "y"; "z"] (Some [500; 2; 3]%float).
Definition permuted_viewer : Viewer := sample_viewer ["z"; "y"; "x"] (Some [1; 2; 3]%float).

(** The sample viewer with the mouse at another position. *)
Definition moved_viewer : Viewer := sample_viewer ["x"; "y"; "z"] (Some [4; 5; 6]%float).

(** The initial state with the scribble prompt selected. *)
Definition scribble_state : State :=
  upd_tool (set_promptMode (Some "scribble")) (initial_state sample_nav).

(** The initial state with a plugin active that registered two keys. *)
Definition plugin_state : State :=
  exec (Parts.activatePluginBindings (builtins := ascii_builtins) "segmenter" ["B"; "e"])
    (initial_state None).

(** The initial state with the point prompt selected. *)
Definition point_state : State :=
  upd_tool (set_promptMode (Some "point")) (initial_state sample_nav).

(** A viewer whose image layer has a display unit that is no length unit. *)
Definition seconds_layer : ManagedLayer :=
  {| userLayerType := Some "image";
     visibleLayerInfo :=
       Some (Some {| displayDimensionScales := Some [8; 8; 1]%float;
                     displayDimensionUnits := Some ["nm"; "nm"; "s"] |}) |}.

Definition seconds_viewer : Viewer :=
  {| mousePosition := Some [1; 2; 3]%float;
     coordinateSpace := Some (sample_space ["x"; "y"; "z"]);
     panels :=
       Some [ {| p_scaleBars := p_scaleBars sample_panel;
                 p_sliceView := Some {| visibleLayerList := Some [seconds_layer];
                                        visibleLayers_get := true |};
                 p_element := Some 7;
                 p_offsetWidth := Some 800%float;
                 p_offsetHeight := Some 600%float |} ];
     containerLeft := 10;
     containerTop := 20 |}.

(** * Proofs *)

Section Properties.
Context {builtins : Builtins}.

(** ** Two exact identities of binary64 arithmetic *)

Section FloatIdentities.
Local Open Scope Z_scope.

Lemma spec_iter_pos {A} (f : A -> A) p x : SpecFloat.iter_pos f p x = Pos.iter f x p.
Proof.
revert x. induction p as [p IHp|p IHp|]; intros x; simpl; rewrite ?IHp; try reflexivity.
now rewrite !Pos.iter_swap.
Qed.

Lemma digits2_pos_shift (m k : positive) :
digits2_pos (Pos.iter xO m k) = (digits2_pos m + k)%positive.
Proof.
induction k using Pos.peano_ind.
- simpl. lia.
- rewrite Pos.iter_succ. simpl. rewrite IHk. lia.
Qed.

Lemma shr_1_iter_exact (k m : positive) :
SpecFloat.iter_pos shr_1 k (Build_shr_record (Zpos (Pos.iter xO m k)) false false)
= Build_shr_record (Zpos m) false false.
Proof.
rewrite spec_iter_pos.
induction k using Pos.peano_ind.
- reflexivity.
- rewrite !Pos.iter_succ. rewrite <- Pos.iter_swap. simpl. exact IHk.
Qed.

(** Rounding an exact product whose mantissa carries [k] extra low zero bits of a
  canonical mantissa gives the canonical float back. *)
Lemma binary_round_aux_shifted (s : bool) (m : positive) (e : Z) (k : positive) :
bounded prec emax m e = true ->
binary_round_aux prec emax s (Zpos (Pos.iter xO m k)) (e - Zpos k) loc_Exact
= S754_finite s m e.
Proof.
intros Hb. unfold bounded, canonical_mantissa in Hb.
apply andb_prop in Hb as [Hc He]. apply Z.eqb_eq in Hc. apply Z.leb_le in He.
unfold binary_round_aux.
assert (H1 : shr_fexp prec emax (Zpos (Pos.iter xO m k)) (e - Zpos k) loc_Exact
             = (Build_shr_record (Zpos m) false false, e)).
{ unfold shr_fexp. simpl Zdigits2. rewrite digits2_pos_shift.
  replace (Zpos (digits2_pos m + k) + (e - Zpos k)) with (Zpos (digits2_pos m) + e) by lia.
  rewrite Hc. replace (e - (e - Zpos k)) with (Zpos k) by lia.
  simpl. rewrite shr_1_iter_exact. f_equal. lia. }
rewrite H1. simpl.
assert (H2 : shr_fexp prec emax (Zpos m) e loc_Exact
             = (Build_shr_record (Zpos m) false false, e)).
{ unfold shr_fexp. simpl Zdigits2. rewrite Hc, Z.sub_diag. reflexivity. }
rewrite H2. simpl. apply Z.leb_le in He. rewrite He. reflexivity.
Qed.

Lemma float_mul_1_r (v : float) : (v * 1)%float = v.
Proof.
apply Prim2SF_inj. rewrite mul_spec.
pose proof (Prim2SF_valid v) as Hv.
change (Prim2SF 1) with (S754_finite false 4503599627370496 (-52)).
destruct (Prim2SF v) as [s|s| |s m e]; simpl; try reflexivity; try (destruct s; reflexivity).
rewrite Bool.xorb_false_r, Pos.mul_comm.
change (4503599627370496 * m)%positive with (Pos.iter xO m 52).
apply (binary_round_aux_shifted s m e 52). exact Hv.
Qed.

Lemma float_div_diag (x : float) :
is_finite x = true -> is_zero x = false -> (x / x)%float = 1%float.
Proof.
intros Hf Hz. apply Prim2SF_inj. rewrite div_spec.
change (Prim2SF 1) with (S754_finite false 4503599627370496 (-52)).
unfold is_finite, is_nan, is_infinity, is_zero in *.
rewrite !FloatAxioms.eqb_spec, abs_spec in Hf. rewrite FloatAxioms.eqb_spec in Hz.
change (Prim2SF infinity) with (S754_infinity false) in Hf.
change (Prim2SF PrimFloat.zero) with (S754_zero false) in Hz.
destruct (Prim2SF x) as [s|s| |s m e]; try (destruct s; discriminate); try discriminate.
unfold SF64div, SFdiv, SFdiv_core_binary.
replace (Zdigits2 (Z.pos m) + e - (Zdigits2 (Z.pos m) + e)) with 0 by lia.
rewrite Z.sub_diag. 
change (Z.min (fexp prec emax 0) 0) with (-53).
change (0 - -53) with 53.
cbv iota beta.
rewrite Z.shiftl_mul_pow2 by lia.
assert (Hd : Z.div_eucl (Z.pos m * 2 ^ 53) (Z.pos m) = (2 ^ 53, 0)).
{ assert (Hq : Z.pos m * 2 ^ 53 / Z.pos m = 2 ^ 53)
    by (rewrite Z.mul_comm; apply Z.div_mul; lia).
  assert (Hr : (Z.pos m * 2 ^ 53) mod Z.pos m = 0)
    by (rewrite Z.mul_comm; apply Z.mod_mul; lia).
  unfold Z.div, Z.modulo in Hq, Hr.
  destruct (Z.div_eucl (Z.pos m * 2 ^ 53) (Z.pos m)) as [q r].
  simpl in Hq, Hr. now subst. }
rewrite Hd. 
assert (Hl : new_location (Z.pos m) 0 = loc_Exact).
{ unfold new_location, new_location_even, new_location_odd. destruct (Z.even (Z.pos m)); reflexivity. }
rewrite Hl. rewrite Bool.xorb_nilpotent. reflexivity.
Qed.

End FloatIdentities.

(** ** [convertLength] *)

Section ConvertLength.
Variable ALLOWED_UNITS : list LengthUnit.

Lemma find_unit_Some name u :
  find_unit ALLOWED_UNITS name = Some u -> u ∈ ALLOWED_UNITS /\ lu_unit u = name.
Proof.
  unfold find_unit. intros H. apply find_some in H as [Hin Heq].
  split; [by apply list_elem_of_In | by apply String.eqb_eq].
Qed.

Lemma find_unit_None name :
  find_unit ALLOWED_UNITS name = None <-> ~ unit_occurs ALLOWED_UNITS name.
Proof.
  unfold find_unit, unit_occurs. split.
  - intros H [u [Hin Heq]]. apply list_elem_of_In in Hin.
    pose proof (find_none _ _ H u Hin) as Hn. simpl in Hn.
    rewrite <- Heq, String.eqb_refl in Hn. discriminate.
  - intros Hno. destruct (find _ _) as [u|] eqn:Hf; [|done].
    exfalso. apply Hno. exists u. by apply find_unit_Some.
Qed.

(** The entry [find] returns is the first one of that name. *)
Lemma find_unit_first name u :
  find_unit ALLOWED_UNITS name = Some u -> first_named ALLOWED_UNITS name u.
Proof.
  unfold find_unit, first_named. induction ALLOWED_UNITS as [|v l IH]; simpl; [done|].
  destruct (String.eqb (lu_unit v) name) eqn:Hv.
  - intros [= ->]. exists [], l. apply String.eqb_eq in Hv. by repeat split.
  - intros H. destruct (IH H) as (before & after & -> & Hu & Hb).
    exists (v :: before), after. repeat split; [done|].
    constructor; [|done]. by apply String.eqb_neq.
Qed.
End ConvertLength.

(** C10. [convertLength(value, fromUnit, toUnit)] throws exactly when
    [fromUnit] or [toUnit] does not occur as a unit in [ALLOWED_UNITS]; when
    both occur it returns [value] times the ratio of the length of the first
    entry named [fromUnit] to the length of the first entry named [toUnit];
    and, the lengths of the table being finite and not zero, converting from
    a unit to that same unit returns [value] itself. *)
Theorem C10_convertLength_outcome
    (ALLOWED_UNITS : list LengthUnit) (value : float) (fromUnit toUnit : string) :
  ((exists error, convertLength ALLOWED_UNITS value fromUnit toUnit = Throw error)
   <-> (~ unit_occurs ALLOWED_UNITS fromUnit \/ ~ unit_occurs ALLOWED_UNITS toUnit))
  /\ (unit_occurs ALLOWED_UNITS fromUnit ->
      unit_occurs ALLOWED_UNITS toUnit ->
      exists from to,
        first_named ALLOWED_UNITS fromUnit from
        /\ first_named ALLOWED_UNITS toUnit to
        /\ convertLength ALLOWED_UNITS value fromUnit toUnit
           = Done (value * (lengthInNanometers from / lengthInNanometers to))%float)
  /\ (proper_lengths ALLOWED_UNITS ->
      unit_occurs ALLOWED_UNITS fromUnit ->
      convertLength ALLOWED_UNITS value fromUnit fromUnit = Done value).
Proof.
  split; [|split].
  - unfold convertLength. split.
    + intros [error H].
      destruct (find_unit ALLOWED_UNITS fromUnit) eqn:Hfrom.
      * destruct (find_unit ALLOWED_UNITS toUnit) eqn:Hto; [discriminate|].
        right. by apply find_unit_None.
      * left. by apply find_unit_None.
    + intros [H|H]; apply find_unit_None in H; rewrite H.
      * eauto.
      * destruct (find_unit ALLOWED_UNITS fromUnit); eauto.
  - intros Hfrom Hto. unfold convertLength.
    destruct (find_unit ALLOWED_UNITS fromUnit) as [from|] eqn:Efrom;
      [|by apply find_unit_None in Efrom].
    destruct (find_unit ALLOWED_UNITS toUnit) as [to|] eqn:Eto;
      [|by apply find_unit_None in Eto].
    exists from, to. split; [|split]; auto using find_unit_first.
  - intros Hproper Hfrom. unfold convertLength.
    destruct (find_unit ALLOWED_UNITS fromUnit) as [from|] eqn:Efrom;
      [|by apply find_unit_None in Efrom].
    apply find_unit_Some in Efrom as [Hin _].
    unfold proper_lengths in Hproper. rewrite Forall_forall in Hproper.
    destruct (Hproper from Hin) as [Hfin Hnz].
    by rewrite float_div_diag, float_mul_1_r.
Qed.

(** ** Invariants of handlers *)

Section Preservation.
Context (I : State -> Prop).

Lemma preserves_ret {A} (a : A) : preserves I (ret a).
Proof. by intros s. Qed.

Lemma preserves_lift {A} (o : Outcome A) : preserves I (lift o).
Proof. by intros s. Qed.

Lemma preserves_get : preserves I get.
Proof. by intros s. Qed.

Lemma preserves_modify (g : State -> State) :
  (forall s, I s -> I (g s)) -> preserves I (modify g).
Proof. intros H s. apply H. Qed.

Lemma preserves_bind {A B} (m : M A) (k : A -> M B) :
  preserves I m -> (forall a, preserves I (k a)) -> preserves I (m ≫= k).
Proof.
  intros Hm Hk s Hs. unfold mbind, M_bind, bind.
  specialize (Hm s Hs). destruct (m s) as [[a|e] s']; simpl in *; [|done].
  by apply Hk.
Qed.

Lemma preserves_get_bind {B} (k : State -> M B) :
  (forall s0, I s0 -> preserves I (k s0)) -> preserves I (get ≫= k).
Proof. intros Hk s Hs. unfold mbind, M_bind, bind, get. by apply Hk. Qed.

Lemma preserves_exec {A} (m : M A) s : preserves I m -> I s -> I (exec m s).
Proof. intros Hm Hs. by apply Hm. Qed.

Lemma preserves_run_listeners n (h : M unit) s :
  preserves I h -> I s -> I (run_listeners n h s).
Proof.
  intros Hh. revert s. induction n as [|n IH]; intros s Hs; simpl; [done|].
  apply IH. by apply Hh.
Qed.
End Preservation.

(** One step through the body of a handler. *)
Ltac pres_step :=
  lazymatch goal with
  | |- preserves _ (mbind _ get) => apply preserves_get_bind; intros ? ?
  | |- preserves _ (mbind _ _) => apply preserves_bind; [|intros ?]
  | |- preserves _ (ret _) => apply preserves_ret
  | |- preserves _ (lift _) => apply preserves_lift
  | |- preserves _ get => apply preserves_get
  | |- preserves _ (modify _) => apply preserves_modify; intros ? ?
  | |- preserves _ (when ?b _) => unfold when
  | |- preserves _ (if ?b then _ else _) => destruct b eqn:?
  | |- preserves _ (match ?x with _ => _ end) => destruct x eqn:?
  end.

(** The procedures that are made of the primitives above. *)
Ltac unfold_procs :=
  unfold postMessage, host, preventDefault, stopPropagation, stopImmediatePropagation,
    clearCanvas, paint, safeRedraw, addCaptureListeners, removeCaptureListeners,
    enqueueDraw, sendAnnotationStateUpdate, drawLockedRegionIndicator, sendScaleBarUpdate,
    Parts.getPixelSize, Parts.finishCapture, Parts.onDrawingSizeChange, Parts.recalcPixelSize,
    Parts.activatePluginBindings, Parts.deactivatePluginBindings, Parts.postPortalAction,
    Part001.redrawLockedIndicator, Part001.onGetViewState.

Ltac pres_auto tac :=
  repeat (first [ pres_step | progress unfold_procs ]); try solve [tac].

(** ** What the handlers leave alone *)

Ltac settings_tac :=
  cbv beta in *;
  match goal with
  | H : settings _ = _ |- settings _ = _ => rewrite <- H; reflexivity
  end.

Section Quiet.
Context (ALLOWED_UNITS : list LengthUnit).

Lemma Handler_onMouseDown_settings viewer now e :
  keeps_settings (Handler.onMouseDown ALLOWED_UNITS viewer now e).
Proof. intros x. unfold Handler.onMouseDown. pres_auto settings_tac. Qed.

Lemma Part000_onMouseDown_settings viewer now e :
  keeps_settings (Part000.onMouseDown ALLOWED_UNITS viewer now e).
Proof. intros x. unfold Part000.onMouseDown. pres_auto settings_tac. Qed.

Lemma Part001_onMouseDown_settings viewer now e :
  keeps_settings (Part001.onMouseDown ALLOWED_UNITS viewer now e).
Proof. intros x. unfold Part001.onMouseDown. pres_auto settings_tac. Qed.

Lemma Handler_onMove_settings viewer e : keeps_settings (Handler.onMove viewer e).
Proof. intros x. unfold Handler.onMove. pres_auto settings_tac. Qed.

Lemma Parts_onMove_settings vp viewer e : keeps_settings (Parts.onMove vp viewer e).
Proof. intros x. unfold Parts.onMove. pres_auto settings_tac. Qed.

Lemma Handler_onUp_settings : keeps_settings Handler.onUp.
Proof. intros x. unfold Handler.onUp. pres_auto settings_tac. Qed.

Lemma Part000_onUp_settings : keeps_settings Part000.onUp.
Proof. intros x. unfold Part000.onUp, Part000.commitStroke. pres_auto settings_tac. Qed.

Lemma Part001_onUp_settings : keeps_settings Part001.onUp.
Proof. intros x. unfold Part001.onUp, Part001.commitStroke. pres_auto settings_tac. Qed.

Lemma Handler_drawStep_settings viewer :
  keeps_settings (Handler.drawStep ALLOWED_UNITS viewer).
Proof. intros x. unfold Handler.drawStep. pres_auto settings_tac. Qed.

Lemma Parts_drawStep_settings viewer : keeps_settings (Parts.drawStep ALLOWED_UNITS viewer).
Proof. intros x. unfold Parts.drawStep. pres_auto settings_tac. Qed.

Lemma Handler_onSnapshotLoaded_settings : keeps_settings Handler.onSnapshotLoaded.
Proof. intros x. unfold Handler.onSnapshotLoaded. pres_auto settings_tac. Qed.

Lemma Part000_onSnapshotLoaded_settings : keeps_settings Part000.onSnapshotLoaded.
Proof. intros x. unfold Part000.onSnapshotLoaded. pres_auto settings_tac. Qed.

Lemma Part001_onSnapshotLoaded_settings viewer :
  keeps_settings (Part001.onSnapshotLoaded viewer).
Proof. intros x. unfold Part001.onSnapshotLoaded. pres_auto settings_tac. Qed.

Lemma Part000_onKeyDown_settings e : keeps_settings (Part000.onKeyDown e).
Proof. intros x. unfold Part000.onKeyDown. pres_auto settings_tac. Qed.

Lemma Part001_onKeyDown_settings e : keeps_settings (Part001.onKeyDown e).
Proof. intros x. unfold Part001.onKeyDown. pres_auto settings_tac. Qed.

Lemma Part001_onLockedMouseDown_settings viewer e :
  keeps_settings (Part001.onLockedMouseDown viewer e).
Proof. intros x. unfold Part001.onLockedMouseDown. pres_auto settings_tac. Qed.

Lemma Part001_onLockedKeyDown_settings e : keeps_settings (Part001.onLockedKeyDown e).
Proof. intros x. unfold Part001.onLockedKeyDown. pres_auto settings_tac. Qed.

Lemma sendScaleBarUpdate_settings viewer :
  keeps_settings (sendScaleBarUpdate ALLOWED_UNITS viewer).
Proof. intros x. pres_auto settings_tac. Qed.

Lemma Parts_onZoomChanged_settings viewer :
  keeps_settings (Parts.onZoomChanged ALLOWED_UNITS viewer).
Proof. intros x. unfold Parts.onZoomChanged. pres_auto settings_tac. Qed.

Lemma Parts_onZoomFrame_settings viewer :
  keeps_settings (Parts.onZoomFrame ALLOWED_UNITS viewer).
Proof. intros x. unfold Parts.onZoomFrame. pres_auto settings_tac. Qed.
End Quiet.

(** ** Events other than parent messages keep the settings *)

Lemma settings_exec {A} (m : M A) s :
  keeps_settings m -> settings (exec m s) = settings s.
Proof. intros H. by apply (H (settings s) s). Qed.

Lemma settings_run_listeners n (h : M unit) s :
  keeps_settings h -> settings (run_listeners n h s) = settings s.
Proof. intros H. by apply (preserves_run_listeners _ n h s (H (settings s))). Qed.

Lemma settings_navigate position zoomFactor s :
  settings (navigate position zoomFactor s) = settings s.
Proof.
  unfold navigate, settings, nav_objects.
  destruct (navigationState s) as [[[p|] [z|]]|] eqn:Hn; simpl; rewrite ?Hn; reflexivity.
Qed.

Lemma step_settings r ALLOWED_UNITS s ev :
  is_message ev = false -> settings (step_of r ALLOWED_UNITS s ev) = settings s.
Proof.
  intros Hev.
  destruct r, ev; try discriminate; simpl;
    unfold Part001_mousedown, answer_snapshot, zoom_listener;
    repeat match goal with
      | |- context [if ?b then _ else _] => destruct b
      | |- context [match pendingSnapshots ?s with _ => _ end] => destruct (pendingSnapshots s)
      end;
    rewrite ?settings_navigate;
    repeat first
      [ reflexivity
      | rewrite settings_run_listeners
      | rewrite settings_exec ];
    intros;
    eauto using Handler_onMouseDown_settings, Part000_onMouseDown_settings,
      Part001_onMouseDown_settings, Handler_onMove_settings, Parts_onMove_settings,
      Handler_onUp_settings, Part000_onUp_settings, Part001_onUp_settings,
      Handler_drawStep_settings, Parts_drawStep_settings, Handler_onSnapshotLoaded_settings,
      Part000_onSnapshotLoaded_settings, Part001_onSnapshotLoaded_settings,
      Part000_onKeyDown_settings, Part001_onKeyDown_settings,
      Part001_onLockedMouseDown_settings, Part001_onLockedKeyDown_settings,
      sendScaleBarUpdate_settings, Parts_onZoomChanged_settings, Parts_onZoomFrame_settings.
Qed.

Lemma setup_settings ALLOWED_UNITS viewer nav :
  settings (setupDrawingToolMessageHandler ALLOWED_UNITS viewer nav)
  = settings (initial_state nav).
Proof. apply settings_exec, sendScaleBarUpdate_settings. Qed.

(** ** The two modes *)

Lemma modes_exclusive_settings s s' :
  settings s' = settings s -> modes_exclusive s -> modes_exclusive s'.
Proof. unfold settings, modes_exclusive. intros [= -> -> _ _]. tauto. Qed.

Ltac modes_tac := unfold modes_exclusive in *; simpl in *; tauto.

Lemma onMessage_modes_exclusive r ALLOWED_UNITS viewer m :
  preserves modes_exclusive (onMessage_of r ALLOWED_UNITS viewer m).
Proof.
  destruct r, m; simpl;
    unfold Handler.onMessage, Part000.onMessage, Part001.onMessage;
    try (pres_auto modes_tac; fail);
    intros s _; first [by right | by left].
Qed.

Lemma step_modes_exclusive r ALLOWED_UNITS s ev :
  modes_exclusive s -> modes_exclusive (step_of r ALLOWED_UNITS s ev).
Proof.
  intros Hs. destruct (is_message ev) eqn:Hev.
  - destruct ev; try discriminate.
    pose proof (onMessage_modes_exclusive r ALLOWED_UNITS viewer m s Hs) as H.
    by destruct r.
  - eapply modes_exclusive_settings; [by apply step_settings|done].
Qed.

(** C9. In every revision the two modes start out null, a
    "drawing_mode_change" message sets [promptMode] to null, a
    "prompt_mode_change" message sets [activeMode] to null, and after every
    sequence of events (parent messages and all others) at most one of
    [activeMode] and [promptMode] is non-null. *)
Theorem C9_modes_mutually_exclusive (r : Revision) (ALLOWED_UNITS : list LengthUnit) :
  (forall nav, activeMode (tool (initial_state nav)) = None
               /\ promptMode (tool (initial_state nav)) = None)
  /\ (forall viewer mode s,
        promptMode (tool (exec (onMessage_of r ALLOWED_UNITS viewer
                                  (msg_drawing_mode_change mode)) s)) = None)
  /\ (forall viewer mode polarity s,
        activeMode (tool (exec (onMessage_of r ALLOWED_UNITS viewer
                                  (msg_prompt_mode_change mode polarity)) s)) = None)
  /\ (forall viewer nav evs,
        modes_exclusive
          (run_events (step_of r ALLOWED_UNITS)
             (setupDrawingToolMessageHandler ALLOWED_UNITS viewer nav) evs)).
Proof.
  repeat split.
  - intros viewer mode s. by destruct r.
  - intros viewer mode polarity s. by destruct r.
  - intros viewer nav evs. unfold run_events.
    assert (H0 : modes_exclusive (setupDrawingToolMessageHandler ALLOWED_UNITS viewer nav)).
    { eapply modes_exclusive_settings; [apply setup_settings|by left]. }
    revert H0. generalize (setupDrawingToolMessageHandler ALLOWED_UNITS viewer nav).
    induction evs as [|ev evs IH]; intros s Hs; simpl; [done|].
    apply IH. by apply step_modes_exclusive.
Qed.

(** ** The point lists of the state *)

Lemma points_inv_iff J s :
  points_inv J s <->
  Forall (fun st => J (st_points st)) (strokeData (capture s))
  /\ (forall st, currentStroke (capture s) = Some st -> J (st_points st))
  /\ Forall (fun p => forall l, prompt_points p = Some l -> J l) (promptData (capture s))
  /\ (forall p l, currentPrompt (capture s) = Some p -> prompt_points p = Some l -> J l).
Proof.
  unfold points_inv, point_lists. rewrite !Forall_app, !Forall_fmap.
  assert (Hom : forall ps, Forall J (omap prompt_points ps)
                           <-> Forall (fun p => forall l, prompt_points p = Some l -> J l) ps).
  { induction ps as [|p ps IH]; simpl; [by split; constructor|].
    rewrite Forall_cons, <- IH.
    destruct (prompt_points p) as [l|]; rewrite ?Forall_cons.
    - split; intros [H1 H2]; split; auto. by intros l' [= <-].
    - split; [intros H; split; [done|exact H] | by intros [_ H]]. }
  rewrite !Hom.
  assert (Hst : Forall (J ∘ st_points) (option_list (currentStroke (capture s)))
                <-> forall st, currentStroke (capture s) = Some st -> J (st_points st)).
  { destruct (currentStroke (capture s)) as [st|]; simpl.
    - rewrite Forall_cons. split; [by intros [H _] ? [= <-] | intros H; split; [by apply H|done]].
    - split; [done | intros; constructor]. }
  assert (Hpr : Forall (fun p => forall l, prompt_points p = Some l -> J l)
                  (option_list (currentPrompt (capture s)))
                <-> forall p l, currentPrompt (capture s) = Some p ->
                                prompt_points p = Some l -> J l).
  { destruct (currentPrompt (capture s)) as [p|]; simpl.
    - rewrite Forall_cons.
      split; [intros [H _] ? ? [= <-]; apply H | intros H; split; [intros l; by apply H|done]].
    - split; [done | intros; constructor]. }
  rewrite Hst, Hpr. tauto.
Qed.

Lemma no_adjacent_duplicates_nil : no_adjacent_duplicates [].
Proof. intros i a b H. by rewrite lookup_nil in H. Qed.

Lemma pushUniquePoint_cases arr p :
  pushUniquePoint arr p = arr
  \/ (pushUniquePoint arr p = arr ++ [p]
      /\ forall l, last arr = Some l -> differs l p = true).
Proof.
  unfold pushUniquePoint. destruct (last arr) as [l|] eqn:Hl.
  - destruct (differs l p) eqn:Hd; [right|by left].
    split; [done|]. by intros ? [= <-].
  - right. by split.
Qed.

Lemma pushUniquePoint_no_adjacent_duplicates arr p :
  no_adjacent_duplicates arr -> no_adjacent_duplicates (pushUniquePoint arr p).
Proof.
  intros Harr. destruct (pushUniquePoint_cases arr p) as [->|[-> Hlast]]; [done|].
  intros i a b Ha Hb.
  destruct (decide (S i < length arr)) as [Hlt|Hge].
  - rewrite lookup_app_l in Ha by lia. rewrite lookup_app_l in Hb by lia. eauto.
  - assert (Hi : i < length (arr ++ [p])) by (eapply lookup_lt_Some; eauto).
    assert (HSi : S i < length (arr ++ [p])) by (eapply lookup_lt_Some; eauto).
    rewrite length_app in HSi. simpl in HSi.
    assert (Hlen : length arr = S i) by lia.
    rewrite lookup_app_l in Ha by lia.
    rewrite lookup_app_r in Hb by lia.
    replace (S i - length arr) with 0 in Hb by lia. simpl in Hb. injection Hb as <-.
    apply Hlast. rewrite last_lookup, Hlen. exact Ha.
Qed.

Section Points.
Context (ALLOWED_UNITS : list LengthUnit).
Context (J : list StrokePoint -> Prop) (HJ0 : J []).

Ltac norm_guards :=
  repeat match goal with
    | H : negb _ = false |- _ => apply negb_false_iff in H
    | H : negb _ = true |- _ => apply negb_true_iff in H
    | H : _ || _ = false |- _ => apply orb_false_iff in H; destruct H
    | H : _ && _ = true |- _ => apply andb_true_iff in H; destruct H
    end.

Ltac points_tac :=
  cbv beta in *; norm_guards;
  repeat match goal with
    | H : points_inv _ _ |- _ => apply points_inv_iff in H; destruct H as (? & ? & ? & ?)
    end;
  apply points_inv_iff; simpl; repeat split;
  rewrite ?Forall_app, ?Forall_cons, ?Forall_nil; repeat split;
  try done;
  try (intros ? [= <-]; simpl);
  try (intros ? ? [= <-]; simpl; intros [= <-]);
  repeat match goal with |- context [if ?b then _ else _] => destruct b eqn:? end;
  try match goal with
    | Hp : _ -> forall l, J l -> J (pushUniquePoint l ?p) |- J [?p] =>
        change [p] with (pushUniquePoint [] p)
    end;
  eauto.

Lemma onMouseDown_points r viewer now e :
  (recordable r viewer = true ->
   forall l, J l -> J (pushUniquePoint l (voxelPoint_of r viewer))) ->
  preserves (points_inv J) (onMouseDown_of r ALLOWED_UNITS viewer now e).
Proof.
  intros Hpush. unfold recordable in Hpush.
  destruct r; simpl in *;
    unfold Handler.onMouseDown, Part000.onMouseDown, Part001.onMouseDown,
      Handler.voxelPoint, Part000.voxelPoint in *;
    pres_auto points_tac.
Qed.

Lemma onMove_points r viewer e :
  (recordable r viewer = true ->
   forall l, J l -> J (pushUniquePoint l (voxelPoint_of r viewer))) ->
  preserves (points_inv J) (onMove_of r viewer e).
Proof.
  intros Hpush. unfold recordable in Hpush.
  destruct r; simpl in *;
    unfold Handler.onMove, Part000.onMove, Part001.onMove, Parts.onMove,
      Handler.voxelPoint, Part000.voxelPoint in *;
    pres_auto points_tac.
Qed.

Lemma onUp_points r : preserves (points_inv J) (onUp_of r).
Proof.
  destruct r; simpl;
    unfold Handler.onUp, Part000.onUp, Part001.onUp, Part000.commitStroke,
      Part001.commitStroke;
    pres_auto points_tac.
Qed.

Lemma onMessage_points r viewer m :
  preserves (points_inv J) (onMessage_of r ALLOWED_UNITS viewer m).
Proof.
  destruct r; simpl; unfold Handler.onMessage, Part000.onMessage, Part001.onMessage;
    pres_auto points_tac.
Qed.

Lemma quiet_points :
  (forall viewer, preserves (points_inv J) (Handler.drawStep ALLOWED_UNITS viewer))
  /\ (forall viewer, preserves (points_inv J) (Parts.drawStep ALLOWED_UNITS viewer))
  /\ preserves (points_inv J) Handler.onSnapshotLoaded
  /\ preserves (points_inv J) Part000.onSnapshotLoaded
  /\ (forall viewer, preserves (points_inv J) (Part001.onSnapshotLoaded viewer))
  /\ (forall e, preserves (points_inv J) (Part000.onKeyDown e))
  /\ (forall e, preserves (points_inv J) (Part001.onKeyDown e))
  /\ (forall viewer e, preserves (points_inv J) (Part001.onLockedMouseDown viewer e))
  /\ (forall e, preserves (points_inv J) (Part001.onLockedKeyDown e))
  /\ (forall viewer, preserves (points_inv J) (sendScaleBarUpdate ALLOWED_UNITS viewer))
  /\ (forall viewer, preserves (points_inv J) (Parts.onZoomChanged ALLOWED_UNITS viewer))
  /\ (forall viewer, preserves (points_inv J) (Parts.onZoomFrame ALLOWED_UNITS viewer)).
Proof.
  repeat split; intros;
    unfold Handler.drawStep, Parts.drawStep, Handler.onSnapshotLoaded,
      Part000.onSnapshotLoaded, Part001.onSnapshotLoaded, Part000.onKeyDown,
      Part001.onKeyDown, Part001.onLockedMouseDown, Part001.onLockedKeyDown,
      Parts.onZoomChanged, Parts.onZoomFrame;
    pres_auto points_tac.
Qed.

Lemma step_points r s ev :
  (forall viewer, mouse_viewer ev = Some viewer ->
     recordable r viewer = true ->
     forall l, J l -> J (pushUniquePoint l (voxelPoint_of r viewer))) ->
  points_inv J s -> points_inv J (step_of r ALLOWED_UNITS s ev).
Proof.
  intros Hpush Hs.
  destruct quiet_points as (Q1 & Q2 & Q3 & Q4 & Q5 & Q6 & Q7 & Q8 & Q9 & Q10 & Q11 & Q12).
  assert (Hb : points_inv J (begin_event s)) by exact Hs.
  assert (Hdown : forall viewer now e, mouse_viewer ev = Some viewer ->
            points_inv J (exec (onMouseDown_of r ALLOWED_UNITS viewer now e) (begin_event s))).
  { intros. apply preserves_exec; [apply onMouseDown_points|]; eauto. }
  assert (Hmove : forall viewer e, mouse_viewer ev = Some viewer ->
            points_inv J (run_listeners (listeners s) (onMove_of r viewer e) (begin_event s))).
  { intros. apply preserves_run_listeners; [apply onMove_points|]; eauto. }
  assert (Hup : points_inv J (run_listeners (listeners s) (onUp_of r) (begin_event s))).
  { apply preserves_run_listeners; [apply onUp_points|]; eauto. }
  assert (Hmsg : forall viewer m,
            points_inv J (exec (onMessage_of r ALLOWED_UNITS viewer m) s)).
  { intros. apply preserves_exec; [apply onMessage_points|]; eauto. }
  destruct r, ev; simpl;
    unfold Part001_mousedown, answer_snapshot, zoom_listener, navigate;
    repeat match goal with
      | |- context [if ?b then _ else _] => destruct b
      | |- context [match pendingSnapshots ?s with _ => _ end] => destruct (pendingSnapshots s)
      | |- context [match navigationState ?s with _ => _ end] => destruct (navigationState s)
      end;
    try done;
    try (by apply (Hdown viewer now e));
    try (by apply (Hmove viewer e));
    try (by apply (Hmsg viewer m));
    try (apply preserves_exec; eauto; fail).
Qed.
End Points.

Lemma run_events_snoc step s evs ev :
  run_events step s (evs ++ [ev]) = step (run_events step s evs) ev.
Proof. unfold run_events. by rewrite foldl_app. Qed.

Lemma sendScaleBarUpdate_capture ALLOWED_UNITS viewer s :
  capture (exec (sendScaleBarUpdate ALLOWED_UNITS viewer) s) = capture s.
Proof.
  apply (preserves_exec (fun s' => capture s' = capture s)); [|done].
  pres_auto ltac:(simpl in *; congruence).
Qed.

Lemma points_inv_setup J ALLOWED_UNITS viewer nav :
  points_inv J (setupDrawingToolMessageHandler ALLOWED_UNITS viewer nav).
Proof.
  unfold points_inv, setupDrawingToolMessageHandler.
  rewrite sendScaleBarUpdate_capture. constructor.
Qed.

Lemma points_inv_committed J s :
  points_inv J s ->
  (forall st, st ∈ strokeData (capture s) -> J (st_points st))
  /\ (forall p l, p ∈ promptData (capture s) -> prompt_points p = Some l -> J l).
Proof.
  intros H. apply points_inv_iff in H as (H1 & _ & H3 & _).
  rewrite Forall_forall in H1. rewrite Forall_forall in H3.
  split; intros; [apply H1 | eapply H3]; eauto; by apply list_elem_of_In.
Qed.

(** C8. Appending through the duplicate check keeps a point list free of
    consecutive points that are [===] in x, y and z; so, in every revision
    and after every sequence of events, every point list of the state has
    that property: those of the stroke or prompt in progress, and those of
    every committed stroke and of every committed scribble or lasso prompt. *)
Theorem C8_adjacent_duplicate_freedom :
  (forall arr p,
     no_adjacent_duplicates arr -> no_adjacent_duplicates (pushUniquePoint arr p))
  /\ (forall (r : Revision) (ALLOWED_UNITS : list LengthUnit) viewer nav evs,
        let s := run_events (step_of r ALLOWED_UNITS)
                   (setupDrawingToolMessageHandler ALLOWED_UNITS viewer nav) evs in
        points_inv no_adjacent_duplicates s
        /\ (forall st, st ∈ strokeData (capture s) -> no_adjacent_duplicates (st_points st))
        /\ (forall p l, p ∈ promptData (capture s) -> prompt_points p = Some l ->
                        no_adjacent_duplicates l)).
Proof.
  split; [exact pushUniquePoint_no_adjacent_duplicates|].
  intros r ALLOWED_UNITS viewer0 nav evs s.
  assert (Hinv : points_inv no_adjacent_duplicates s).
  { subst s. induction evs as [|ev evs IH] using rev_ind.
    - apply points_inv_setup.
    - rewrite run_events_snoc.
      apply step_points; [exact no_adjacent_duplicates_nil| |exact IH].
      intros viewer _ _ l Hl. by apply pushUniquePoint_no_adjacent_duplicates. }
  split; [exact Hinv|]. by apply points_inv_committed.
Qed.

(** ** Where the recorded points come from *)

Lemma indexOf_lookup l x i : indexOf l x = Some i -> l !! i = Some x.
Proof.
  revert i. induction l as [|y l IH]; intros i; simpl; [done|].
  destruct (String.eqb y x) eqn:Hy.
  - intros [= <-]. apply String.eqb_eq in Hy. by subst.
  - destruct (indexOf l x) as [j|]; simpl; [|done]. intros [= <-]. by apply IH.
Qed.

Lemma three_names_length names ix iy iz :
  indexOf names "x" = Some ix -> indexOf names "y" = Some iy ->
  indexOf names "z" = Some iz -> 3 <= length names.
Proof.
  intros Hx Hy Hz.
  apply indexOf_lookup in Hx, Hy, Hz.
  pose proof (lookup_lt_Some _ _ _ Hx). pose proof (lookup_lt_Some _ _ _ Hy).
  pose proof (lookup_lt_Some _ _ _ Hz).
  assert (ix <> iy) by (intros ->; congruence).
  assert (ix <> iz) by (intros ->; congruence).
  assert (iy <> iz) by (intros ->; congruence).
  lia.
Qed.

Lemma Part001_voxelPoint_named viewer :
  Part001.voxelPoint viewer = named_or_first3 viewer.
Proof.
  unfold Part001.voxelPoint, named_or_first3.
  destruct (mousePosition viewer) as [p|]; [|done].
  destruct (length p <? 3)%nat; [done|].
  destruct (coordinateSpace viewer ≫= cs_names) as [names|]; [|done].
  change (default [] (Some names)) with names.
  destruct (3 <=? length names)%nat eqn:Hlen; [done|].
  destruct (indexOf names "x") as [ix|] eqn:Hx, (indexOf names "y") as [iy|] eqn:Hy,
    (indexOf names "z") as [iz|] eqn:Hz; try done.
  pose proof (three_names_length _ _ _ _ Hx Hy Hz). apply Nat.leb_gt in Hlen. lia.
Qed.

Lemma voxelPoint_first3_valid viewer :
  isValidPoint (voxelPoint_first3 viewer) = true -> has_position viewer.
Proof.
  unfold voxelPoint_first3, has_position.
  destruct (mousePosition viewer) as [p|]; [|done].
  destruct (length p <? 3)%nat eqn:Hlen; [done|].
  intros _. exists p. split; [done|]. apply Nat.ltb_ge in Hlen. lia.
Qed.

Lemma isInDataBounds_position viewer : isInDataBounds viewer = true -> has_position viewer.
Proof.
  unfold isInDataBounds, has_position.
  destruct (mousePosition viewer) as [pos|]; [|done].
  destruct (coordinateSpace viewer ≫= cs_bounds) as [b|]; [|done].
  destruct (length pos <? 3)%nat eqn:Hlen; [done|].
  intros _. exists pos. split; [done|]. apply Nat.ltb_ge in Hlen. lia.
Qed.

Lemma recordable_position r viewer : recordable r viewer = true -> has_position viewer.
Proof.
  destruct r; simpl; auto using voxelPoint_first3_valid, isInDataBounds_position.
Qed.

Lemma no_position_nan r viewer : ~ has_position viewer -> voxelPoint_of r viewer = nan_point.
Proof.
  intros Hno.
  assert (H : mousePosition viewer = None
              \/ exists p, mousePosition viewer = Some p /\ (length p <? 3)%nat = true).
  { destruct (mousePosition viewer) as [p|] eqn:Hp; [|by left]. right. exists p.
    split; [done|]. apply Nat.ltb_lt. apply Nat.nlt_ge. intros Hlt. apply Hno.
    exists p. split; [done|lia]. }
  destruct r; simpl; unfold Handler.voxelPoint, Part000.voxelPoint, Part001.voxelPoint,
    voxelPoint_first3; destruct H as [->|(p & -> & ->)]; reflexivity.
Qed.

Lemma from_positions_push r viewers viewer l :
  viewer ∈ viewers -> has_position viewer ->
  from_positions r viewers l ->
  from_positions r viewers (pushUniquePoint l (voxelPoint_of r viewer)).
Proof.
  intros Hin Hpos Hl. unfold from_positions in *.
  destruct (pushUniquePoint_cases l (voxelPoint_of r viewer)) as [->|[-> _]]; [done|].
  apply Forall_app. split; [done|]. constructor; [|constructor]. eauto.
Qed.

Lemma from_positions_mono r viewers viewers' l :
  viewers ⊆ viewers' -> from_positions r viewers l -> from_positions r viewers' l.
Proof.
  intros Hsub. unfold from_positions. intros H. eapply Forall_impl; [exact H|].
  intros p (viewer & Hin & Hpos & ->). eauto.
Qed.

Lemma points_inv_impl (J J' : list StrokePoint -> Prop) s :
  (forall l, J l -> J' l) -> points_inv J s -> points_inv J' s.
Proof. intros HJ. unfold points_inv. intros H. by eapply Forall_impl. Qed.

Lemma run_points_from_positions r ALLOWED_UNITS viewer0 nav evs :
  points_inv (from_positions r (mouse_viewers evs))
    (run_events (step_of r ALLOWED_UNITS)
       (setupDrawingToolMessageHandler ALLOWED_UNITS viewer0 nav) evs).
Proof.
  induction evs as [|ev evs IH] using rev_ind.
  - apply points_inv_setup.
  - rewrite run_events_snoc.
    assert (Hsub : mouse_viewers evs ⊆ mouse_viewers (evs ++ [ev])).
    { unfold mouse_viewers. rewrite omap_app. set_solver. }
    apply step_points.
    + constructor.
    + intros viewer Hev Hrec l Hl.
      apply from_positions_push; [|by eapply recordable_position|done].
      unfold mouse_viewers. rewrite omap_app. simpl. rewrite Hev. set_solver.
    + eapply points_inv_impl; [|exact IH].
      intros l. by apply from_positions_mono.
Qed.

(** C2, as amended.  Every point of a brush stroke, scribble prompt or lasso
    prompt is [voxelPoint] of the mouse position that came with a mouse event
    of the run, a position with at least three components.  In [part_001]
    that point has the components at the dimensions named "x", "y", "z" when
    all three names are present and the first three components otherwise; in
    [drawing_tool_handler.ts] and [part_000] it has the first three
    components whatever the names are.  When the position is missing or has
    fewer than three components the point is (NaN, NaN, NaN) and no append
    is made. *)
Theorem C2_recorded_points_are_mouse_positions :
  (forall viewer, voxelPoint_of part_001 viewer = named_or_first3 viewer)
  /\ (forall r viewer p,
        r <> part_001 -> mousePosition viewer = Some p -> 3 <= length p ->
        voxelPoint_of r viewer = mkPoint (p !! 0) (p !! 1) (p !! 2))
  /\ (forall r viewer,
        ~ has_position viewer ->
        voxelPoint_of r viewer = nan_point /\ recordable r viewer = false)
  /\ (forall r ALLOWED_UNITS viewer0 nav evs l p,
        l ∈ point_lists
              (capture (run_events (step_of r ALLOWED_UNITS)
                          (setupDrawingToolMessageHandler ALLOWED_UNITS viewer0 nav) evs)) ->
        p ∈ l ->
        exists viewer,
          viewer ∈ mouse_viewers evs /\ has_position viewer
          /\ p = voxelPoint_of r viewer).
Proof.
  split; [exact Part001_voxelPoint_named|]. split; [|split].
  - intros r viewer p Hr Hp Hlen.
    assert (Hltb : (length p <? 3)%nat = false) by (apply Nat.ltb_ge; lia).
    destruct r; [| |done]; simpl;
      unfold Handler.voxelPoint, Part000.voxelPoint, voxelPoint_first3;
      by rewrite Hp, Hltb.
  - intros r viewer Hno. split; [by apply no_position_nan|].
    destruct (recordable r viewer) eqn:Hrec; [|done].
    by apply recordable_position in Hrec.
  - intros r ALLOWED_UNITS viewer0 nav evs l p Hl Hp.
    pose proof (run_points_from_positions r ALLOWED_UNITS viewer0 nav evs) as Hinv.
    unfold points_inv in Hinv. rewrite Forall_forall in Hinv.
    specialize (Hinv l Hl).
    unfold from_positions in Hinv. rewrite Forall_forall in Hinv.
    by apply Hinv.
Qed.

(** ** The mouse-down guard *)

Lemma isInDataBounds_spec viewer :
  isInDataBounds viewer = true <-> within_data_bounds viewer.
Proof.
  unfold isInDataBounds, within_data_bounds.
  destruct (mousePosition viewer) as [pos|]; [|split; [done|by intros (? & ? & ? & _)]].
  destruct (coordinateSpace viewer ≫= cs_bounds) as [b|];
    [|split; [done|by intros (? & ? & _ & ? & _)]].
  destruct (length pos <? 3)%nat eqn:Hlen.
  - apply Nat.ltb_lt in Hlen. split; [done|].
    intros (pos' & b' & [= <-] & _ & Hge & _). lia.
  - apply Nat.ltb_ge in Hlen. rewrite forallb_forall. split.
    + intros Hall. exists pos, b. repeat split; [lia|].
      intros i Hi.
      assert (Hin : In i [0; 1; 2]) by (simpl; lia).
      specialize (Hall i Hin).
      destruct (lookup_lt_is_Some_2 pos i ltac:(lia)) as [x Hx].
      rewrite Hx in Hall. apply andb_true_iff in Hall as [Hfin Hin_b].
      apply negb_true_iff, orb_false_iff in Hin_b as [Hlo Hhi].
      exists x. by repeat split.
    + intros (pos' & b' & [= <-] & [= <-] & _ & Hall) i Hin.
      assert (Hi : i < 3) by (simpl in Hin; lia).
      destruct (Hall i Hi) as (x & -> & Hfin & Hlo & Hhi).
      simpl. rewrite Hfin. simpl in Hlo, Hhi. by rewrite Hlo, Hhi.
Qed.

Lemma onMouseDown_guard r ALLOWED_UNITS viewer now e s :
  (mode_active s = false
   \/ (button e =? 0)%Z = false
   \/ (has_data_guards r = true
       /\ (isOnDataPanel e = false \/ isInDataBounds viewer = false))) ->
  exec (onMouseDown_of r ALLOWED_UNITS viewer now e) s = s.
Proof.
  unfold mode_active. intros H.
  destruct r; simpl;
    unfold Handler.onMouseDown, Part000.onMouseDown, Part001.onMouseDown, exec,
      mbind, M_bind, bind, get;
    destruct (truthy_opt (activeMode (tool s))), (truthy_opt (promptMode (tool s))),
      (button e =? 0)%Z; simpl in *; try done;
    try (destruct H as [H|[H|[H1 H]]]; discriminate);
    destruct H as [H|[H|[_ [->| ->]]]]; try discriminate; try done;
    by destruct (isOnDataPanel e).
Qed.

(** C1, as amended.  In every revision a mouse-down starts a capture (it
    writes to the state at all) only when a drawing or prompt mode is active
    and the left button is pressed; in [part_000] and [part_001] only when,
    moreover, the target lies inside a rendered-data panel and the first
    three components of the mouse position are finite and within the data
    bounds.  In every other case the handler returns with the state, and so
    the capture state, as it was. *)
Theorem C1_capture_starts_only_when_guarded
    (r : Revision) (ALLOWED_UNITS : list LengthUnit)
    (viewer : Viewer) (now : string) (e : MouseEvent) (s : State) :
  let s' := exec (onMouseDown_of r ALLOWED_UNITS viewer now e) s in
  (~ capture_may_start r s viewer e -> s' = s /\ capture s' = capture s)
  /\ (s' <> s -> capture_may_start r s viewer e).
Proof.
  intros s'.
  assert (Hdec : capture_may_start r s viewer e \/ s' = s).
  { unfold capture_may_start.
    destruct (mode_active s) eqn:Hm;
      [|right; apply onMouseDown_guard; by left].
    destruct (button e =? 0)%Z eqn:Hb;
      [|right; apply onMouseDown_guard; by right; left].
    apply Z.eqb_eq in Hb.
    destruct (has_data_guards r) eqn:Hg; [|left; by repeat split].
    destruct (isOnDataPanel e) eqn:Hp;
      [|right; apply onMouseDown_guard; right; right; rewrite Hg; by split; [|left]].
    destruct (isInDataBounds viewer) eqn:Hi;
      [|right; apply onMouseDown_guard; right; right; rewrite Hg; by split; [|right]].
    left. repeat split; [done|]. by apply isInDataBounds_spec. }
  split.
  - intros Hno. destruct Hdec as [?|Heq]; [done|]. by rewrite Heq.
  - intros Hne. by destruct Hdec.
Qed.

(** ** Committing on mouse-up *)

Ltac run_monad :=
  unfold exec, mbind, M_bind, bind, get, modify, ret, lift, when, postMessage, host,
    preventDefault, stopPropagation, stopImmediatePropagation, clearCanvas, paint,
    safeRedraw, addCaptureListeners, removeCaptureListeners, Parts.finishCapture,
    sendAnnotationStateUpdate;
  simpl.

Ltac unfold_setters :=
  unfold set_currentStroke, set_currentPrompt, set_strokeData, set_promptData,
    set_isCapturing, set_lockedBBox, set_lockedPosition, set_lockedZoomFactor,
    set_canvas, set_rafId, set_pendingXY, set_lastScreen;
  simpl.

Lemma onUp_effect r s :
  let s' := exec (onUp_of r) s in
  capture s' = committed (capture s)
  /\ outbox s' = outbox s ++ stroke_messages r s ++ prompt_messages s
  /\ listeners s' = pred (listeners s).
Proof.
  unfold committed, stroke_messages, prompt_messages.
  destruct s as [[sd pd cs cp ic] rd tl lk pg nv ls li ps zr ob hc fl].
  destruct r, cs as [st|], cp as [pr|]; simpl;
    unfold Handler.onUp, Part000.onUp, Part001.onUp, Part000.commitStroke,
      Part001.commitStroke;
    run_monad; unfold_setters;
    rewrite <- ?app_assoc, ?app_nil_r, ?length_app; simpl;
    try replace (0 <? length sd + 1)%nat with true by (symmetry; apply Nat.ltb_lt; lia);
    done.
Qed.

(** Further [onUp] listeners of the same event find nothing to commit. *)
Lemma onUp_idle r n s :
  currentStroke (capture s) = None -> currentPrompt (capture s) = None ->
  capture (run_listeners n (onUp_of r) s) = capture s
  /\ outbox (run_listeners n (onUp_of r) s) = outbox s.
Proof.
  revert s. induction n as [|n IH]; intros s Hst Hpr; simpl; [done|].
  destruct (onUp_effect r s) as (Hc & Ho & _).
  unfold committed, stroke_messages, prompt_messages in *.
  rewrite Hst, Hpr in *. simpl in *. rewrite !app_nil_r in *.
  assert (Hcap : capture (exec (onUp_of r) s) = capture s).
  { rewrite Hc. destruct (capture s); simpl in *. by subst. }
  destruct (IH (exec (onUp_of r) s)) as [-> ->]; rewrite ?Hcap; done.
Qed.

Lemma mouseup_effect r ALLOWED_UNITS s :
  0 < listeners s ->
  let s' := step_of r ALLOWED_UNITS s ev_mouseup in
  capture s' = committed (capture s)
  /\ outbox s' = outbox s ++ stroke_messages r s ++ prompt_messages s.
Proof.
  intros Hl.
  assert (Hstep : step_of r ALLOWED_UNITS s ev_mouseup
                  = run_listeners (listeners s) (onUp_of r) (begin_event s))
    by (by destruct r).
  simpl. rewrite Hstep.
  destruct (listeners s) as [|n]; [lia|]. simpl.
  destruct (onUp_effect r (begin_event s)) as (Hc & Ho & _).
  destruct (onUp_idle r n (exec (onUp_of r) (begin_event s))) as [-> ->];
    by rewrite Hc.
Qed.


(** A click in point mode registers no [onUp] listener. *)
Example point_prompt_registers_no_listener :
  let s0 := upd_tool (set_promptMode (Some "point")) (initial_state sample_nav) in
  let s := exec (Part001.onMouseDown upstream_units in_bounds_viewer "t"
                   (click 0 [data_panel; root])) s0 in
  is_Some_b (currentPrompt (capture s)) = true /\ listeners s = 0.
Proof. vm_compute. by split. Qed.

(** ** The clear messages *)

Lemma drawing_clear_effect ALLOWED_UNITS viewer s :
  let s' := set_hostCalls (hostCalls s ++ [scheduleRedraw])
              (upd_capture (set_strokeData []) (upd_render (set_canvas []) s)) in
  exec (Handler.onMessage ALLOWED_UNITS viewer msg_drawing_clear) s = s'
  /\ exec (Part000.onMessage ALLOWED_UNITS viewer msg_drawing_clear) s = s'.
Proof. split; reflexivity. Qed.

Lemma prompt_clear_effect ALLOWED_UNITS viewer s :
  let s' := set_hostCalls (hostCalls s ++ [scheduleRedraw])
              (upd_capture (set_promptData []) (upd_render (set_canvas []) s)) in
  exec (Handler.onMessage ALLOWED_UNITS viewer msg_prompt_clear) s = s'
  /\ exec (Part000.onMessage ALLOWED_UNITS viewer msg_prompt_clear) s = s'.
Proof. split; reflexivity. Qed.

(** C7. In [drawing_tool_handler.ts] and in [part_000], a "drawing_clear"
    message empties [strokeData] and clears the overlay canvas and leaves
    [promptData] as it was; a "prompt_clear" message empties [promptData]
    and clears the canvas and leaves [strokeData] as it was; neither changes
    the [DrawingTool] settings: active mode, prompt mode, brush sizes and
    stroke color. *)
Theorem C7_clear_messages_frame
    (ALLOWED_UNITS : list LengthUnit) (viewer : Viewer) (s : State) :
  let cleared_strokes s' :=
    strokeData (capture s') = [] /\ canvas (render s') = []
    /\ promptData (capture s') = promptData (capture s) /\ tool s' = tool s in
  let cleared_prompts s' :=
    promptData (capture s') = [] /\ canvas (render s') = []
    /\ strokeData (capture s') = strokeData (capture s) /\ tool s' = tool s in
  cleared_strokes (exec (Handler.onMessage ALLOWED_UNITS viewer msg_drawing_clear) s)
  /\ cleared_strokes (exec (Part000.onMessage ALLOWED_UNITS viewer msg_drawing_clear) s)
  /\ cleared_prompts (exec (Handler.onMessage ALLOWED_UNITS viewer msg_prompt_clear) s)
  /\ cleared_prompts (exec (Part000.onMessage ALLOWED_UNITS viewer msg_prompt_clear) s).
Proof.
  intros cleared_strokes cleared_prompts.
  destruct (drawing_clear_effect ALLOWED_UNITS viewer s) as [-> ->].
  destruct (prompt_clear_effect ALLOWED_UNITS viewer s) as [-> ->].
  unfold cleared_strokes, cleared_prompts. simpl.
  repeat split.
Qed.

(** In [part_001] the two messages do the same, and the locked-region
    indicator is painted again on the cleared canvas while a locked bounding
    box is set. *)
Lemma Part001_clear_messages_frame ALLOWED_UNITS viewer s :
  let settled (s' : State) :=
    canvas (render s') = lock_indicator viewer (lockedBBox (locked s))
    /\ (lockedBBox (locked s) = None -> canvas (render s') = [])
    /\ tool s' = tool s in
  let s1 := exec (Part001.onMessage ALLOWED_UNITS viewer msg_drawing_clear) s in
  let s2 := exec (Part001.onMessage ALLOWED_UNITS viewer msg_prompt_clear) s in
  (strokeData (capture s1) = [] /\ promptData (capture s1) = promptData (capture s)
   /\ settled s1)
  /\ (promptData (capture s2) = [] /\ strokeData (capture s2) = strokeData (capture s)
      /\ settled s2).
Proof.
  unfold lock_indicator.
  destruct s as [cp [rf px lsn cv] tl [[b|] lp lz] pg nv ls li ps zr ob hc fl];
    unfold Part001.onMessage, Part001.redrawLockedIndicator, drawLockedRegionIndicator;
    run_monad; try done;
    destruct (getSliceViewPanels viewer); simpl; by repeat split.
Qed.

(** ** Keyboard shortcuts *)

Lemma portal_shortcut_lookup :
  Parts.portalShortcuts !! "s" = Some "portal-save-scene"
  /\ Parts.portalShortcuts !! "d" = Some "portal-download-roi"
  /\ Parts.portalShortcuts !! "k" = Some "portal-show-cheatsheet".
Proof. vm_compute. by repeat split. Qed.

Lemma onKeyDown_portal r e s action :
  r <> drawing_tool_handler_ts ->
  ctrlKey e || metaKey e = true ->
  Parts.portalShortcuts !! toLowerCase (key e) = Some action ->
  exec (onKeyDown_of r e) (begin_event s)
  = set_outbox (outbox s ++ [portal_action (action_name action)])
      (set_flags (mkFlags true true true) s).
Proof.
  intros Hr Hctrl Hlook.
  destruct r; [done| |]; simpl;
    unfold Part000.onKeyDown, Part001.onKeyDown, Parts.portalShortcuts_get;
    run_monad; by rewrite Hctrl, Hlook.
Qed.

Lemma onKeyDown_plain r e s :
  r <> drawing_tool_handler_ts ->
  ctrlKey e = false -> metaKey e = false -> altKey e = false ->
  exec (onKeyDown_of r e) (begin_event s)
  = if truthy_opt (activePluginId (plugin s))
       && bool_decide (toLowerCase (key e) ∈ activePluginKeys (plugin s))
    then set_outbox (outbox s ++ [plugin_shortcut (toLowerCase (key e))
                                    (default "" (activePluginId (plugin s)))])
           (set_flags (mkFlags true true true) s)
    else begin_event s.
Proof.
  intros Hr Hc Hm Ha.
  destruct r; [done| |]; simpl; unfold Part000.onKeyDown, Part001.onKeyDown;
    run_monad; rewrite Hc, Hm, Ha; simpl;
    destruct (truthy_opt (activePluginId (plugin s))); simpl; try done;
    by destruct (bool_decide _).
Qed.

(** C5. In [part_000] and [part_001], a keydown with Ctrl or Meta held whose
    key, lower-cased by [toLowerCase], is "s", "d" or "k" has its default
    prevented and its immediate propagation stopped, and a "portal_action"
    message is posted with the action "portal-save-scene",
    "portal-download-roi" or "portal-show-cheatsheet" respectively; a key
    pressed without Ctrl, Meta and Alt is intercepted and forwarded as a
    "plugin_shortcut" message exactly when a plugin is active and the
    lower-cased key is in its set of shortcuts, and otherwise nothing
    happens. *)
Theorem C5_keyboard_shortcuts (r : Revision) (e : KeyboardEvent) (s : State) :
  r <> drawing_tool_handler_ts ->
  let s' := exec (onKeyDown_of r e) (begin_event s) in
  (ctrlKey e || metaKey e = true ->
   forall action,
     (toLowerCase (key e), action)
     ∈ [("s", "portal-save-scene"); ("d", "portal-download-roi");
        ("k", "portal-show-cheatsheet")] ->
     key_intercepted s' /\ outbox s' = outbox s ++ [portal_action (action_name action)])
  /\ (ctrlKey e = false -> metaKey e = false -> altKey e = false ->
      let active := truthy_opt (activePluginId (plugin s)) = true in
      let registered := toLowerCase (key e) ∈ activePluginKeys (plugin s) in
      (active /\ registered ->
       key_intercepted s'
       /\ exists pluginId,
            activePluginId (plugin s) = Some pluginId
            /\ outbox s' = outbox s ++ [plugin_shortcut (toLowerCase (key e)) pluginId])
      /\ (~ (active /\ registered) -> s' = begin_event s /\ outbox s' = outbox s)).
Proof.
  intros Hr s'. split.
  - intros Hctrl action Hin.
    destruct portal_shortcut_lookup as (Hs & Hd & Hk).
    assert (Hlook : Parts.portalShortcuts !! toLowerCase (key e) = Some action).
    { repeat (apply elem_of_cons in Hin as [[= -> ->]|Hin]; [done|]).
      by apply elem_of_nil in Hin. }
    subst s'. rewrite (onKeyDown_portal r e s action Hr Hctrl Hlook). by repeat split.
  - intros Hc Hm Ha active registered. subst s'.
    rewrite (onKeyDown_plain r e s Hr Hc Hm Ha). split.
    + intros [Hact Hreg]. unfold active in Hact. rewrite Hact. simpl.
      rewrite bool_decide_eq_true_2 by exact Hreg. split; [by split|].
      destruct (activePluginId (plugin s)) as [pluginId|]; [|done].
      by exists pluginId.
    + intros Hno.
      destruct (truthy_opt (activePluginId (plugin s))) eqn:Hact; simpl; [|done].
      rewrite bool_decide_eq_false_2; [done|]. intros Hreg. by apply Hno.
Qed.

(** ** The locked view: blocking navigation *)

Ltac consumed_tac := unfold event_consumed in *; simpl in *; tauto.

Lemma Part001_onMouseDown_consumes ALLOWED_UNITS viewer now e s :
  mode_active s = true -> button e = 0%Z -> isOnDataPanel e = true ->
  isInDataBounds viewer = true ->
  event_consumed (exec (Part001.onMouseDown ALLOWED_UNITS viewer now e) s).
Proof.
  unfold mode_active. intros Hm Hb Hp Hi.
  unfold Part001.onMouseDown, exec.
  unfold mbind at 1. unfold M_bind at 1. unfold bind at 1. unfold get at 1. cbv beta iota.
  apply orb_true_iff in Hm.
  assert (Hg : negb (truthy_opt (activeMode (tool s)))
               && negb (truthy_opt (promptMode (tool s)))
               || negb (button e =? 0)%Z = false).
  { rewrite Hb. simpl. rewrite orb_false_r. apply andb_false_iff.
    destruct Hm as [->| ->]; auto. }
  rewrite Hg, Hp, Hi. cbv [negb].
  unfold mbind at 1. unfold M_bind at 1. unfold bind at 1.
  unfold preventDefault at 1. unfold modify at 1. cbv beta iota.
  unfold mbind at 1. unfold M_bind at 1. unfold bind at 1.
  unfold stopPropagation at 1. unfold modify at 1. cbv beta iota.
  match goal with
  | |- event_consumed (snd (?m ?s1)) => apply (preserves_exec event_consumed m s1)
  end.
  - pres_auto consumed_tac.
  - consumed_tac.
Qed.

Lemma Part001_onLockedMouseDown_keeps_consumed viewer e :
  preserves event_consumed (Part001.onLockedMouseDown viewer e).
Proof. unfold Part001.onLockedMouseDown. pres_auto consumed_tac. Qed.

Lemma onLockedMouseDown_effect viewer e s :
  exec (Part001.onLockedMouseDown viewer e) s
  = if is_Some_b (lockedBBox (locked s))
       && Part001.isOnSliceViewPanel viewer (target e)
       && (negb (mode_active s) || (button e =? 1)%Z || (button e =? 2)%Z)
    then set_flags (mkFlags true true (immediatePropagationStopped (flags s))) s
    else s.
Proof.
  unfold Part001.onLockedMouseDown, mode_active. run_monad.
  destruct (is_Some_b (lockedBBox (locked s))); simpl; [|done].
  destruct (Part001.isOnSliceViewPanel viewer (target e)); simpl; [|done].
  destruct (truthy_opt (activeMode (tool s))), (truthy_opt (promptMode (tool s)));
    simpl; try done;
    by destruct (button e =? 1)%Z, (button e =? 2)%Z.
Qed.

Lemma isOnSliceViewPanel_data_panel viewer path :
  Part001.isOnSliceViewPanel viewer path = true -> closest_data_panel path = true.
Proof. unfold Part001.isOnSliceViewPanel. by destruct (closest_data_panel path). Qed.

(** C4, as amended.  The blocker of [part_001] changes nothing while no
    locked bounding box is set.  While one is set and the target of a
    mouse-down lies inside a slice-view panel: with no drawing or prompt
    mode active the event has its default prevented and its propagation
    stopped whatever the button, and does not go on to the viewer; with a
    mode active the same holds for the middle and the right button, and
    every other button is left to the other listeners untouched; a left
    press is taken by the drawing handler, which stops it when the mouse
    position is within the data bounds. *)
Theorem C4_locked_view_blocks_navigation
    (ALLOWED_UNITS : list LengthUnit) (viewer : Viewer) (now : string)
    (e : MouseEvent) (s : State) :
  let blocked := exec (Part001.onLockedMouseDown viewer e) s in
  let dispatched := Part001_mousedown ALLOWED_UNITS viewer now e s in
  (lockedBBox (locked s) = None -> blocked = s)
  /\ (is_Some (lockedBBox (locked s)) ->
      Part001.isOnSliceViewPanel viewer (target e) = true ->
      (mode_active s = false ->
       event_consumed blocked /\ reaches_viewer dispatched = false)
      /\ (mode_active s = true -> button e = 1%Z \/ button e = 2%Z ->
          event_consumed blocked /\ reaches_viewer dispatched = false)
      /\ (mode_active s = true -> button e <> 1%Z -> button e <> 2%Z -> blocked = s)
      /\ (mode_active s = true -> button e = 0%Z -> within_data_bounds viewer ->
          reaches_viewer dispatched = false)).
Proof.
  intros blocked dispatched. subst blocked dispatched. unfold Part001_mousedown.
  rewrite !onLockedMouseDown_effect. split; [by intros ->|].
  intros [b Hb] Hpanel.
  pose proof (onMouseDown_guard part_001 ALLOWED_UNITS viewer now e (begin_event s))
    as Hreturn.
  simpl in Hreturn. change (mode_active (begin_event s)) with (mode_active s) in Hreturn.
  split; [|split; [|split]].
  - intros Hm. split.
    + rewrite Hb, Hpanel, Hm. by split.
    + rewrite Hreturn by (by left).
      change (locked (begin_event s)) with (locked s).
      change (mode_active (begin_event s)) with (mode_active s).
      by rewrite Hb, Hpanel, Hm.
  - intros Hm Hbtn.
    assert (Hbtn' : ((button e =? 1)%Z || (button e =? 2)%Z) = true /\ (button e =? 0)%Z = false)
      by (destruct Hbtn as [-> | ->]; by split).
    destruct Hbtn' as [H12 H0]. split.
    + rewrite Hb, Hpanel, Hm. simpl. rewrite H12. by split.
    + rewrite Hreturn by (by right; left).
      change (locked (begin_event s)) with (locked s).
      change (mode_active (begin_event s)) with (mode_active s).
      rewrite Hb, Hpanel, Hm. simpl. by rewrite H12.
  - intros Hm H1 H2. rewrite Hm. simpl.
    apply Z.eqb_neq in H1, H2. by rewrite H1, H2, andb_false_r.
  - intros Hm Hbtn Hbounds.
    assert (Hc : event_consumed
              (exec (Part001.onMouseDown ALLOWED_UNITS viewer now e) (begin_event s))).
    { apply Part001_onMouseDown_consumes; try done.
      - by apply (isOnSliceViewPanel_data_panel viewer).
      - by apply isInDataBounds_spec. }
    destruct Hc as [_ Hstop]. unfold reaches_viewer.
    destruct (_ && _); simpl; by rewrite ?Hstop.
Qed.

(** ** The locked view: round trip *)

Ltac locked_tac :=
  cbv beta in *;
  repeat match goal with H : _ /\ _ |- _ => destruct H end;
  split; [simpl; congruence|];
  unfold nav_objects in *; simpl in *;
  repeat match goal with
    | H : navigationState ?s = Some _, H' : context [navigationState ?s] |- _ =>
        rewrite H in H'; simpl in H'
    end;
  repeat match goal with
    | H : nav_position ?n = Some _, H' : context [is_Some_b (nav_position ?n)] |- _ =>
        rewrite H in H'; simpl in H'
    | H : nav_zoomFactor ?n = Some _, H' : context [is_Some_b (nav_zoomFactor ?n)] |- _ =>
        rewrite H in H'; simpl in H'
    end;
  congruence.

Lemma Part001_onMessage_keeps_lock ALLOWED_UNITS viewer m L N :
  is_lock_message (ev_message viewer m) = false ->
  preserves (fun s => locked s = L /\ nav_objects s = N)
    (Part001.onMessage ALLOWED_UNITS viewer m).
Proof.
  intros Hm. destruct m; try discriminate; unfold Part001.onMessage;
    pres_auto locked_tac.
Qed.

Lemma Part001_step_keeps_lock ALLOWED_UNITS s ev :
  is_lock_message ev = false ->
  locked (Part001_step ALLOWED_UNITS s ev) = locked s
  /\ nav_objects (Part001_step ALLOWED_UNITS s ev) = nav_objects s.
Proof.
  intros Hev. destruct (is_message ev) eqn:Hmsg.
  - destruct ev; try discriminate. simpl.
    by apply (Part001_onMessage_keeps_lock ALLOWED_UNITS viewer m _ _ Hev s).
  - pose proof (step_settings part_001 ALLOWED_UNITS s ev Hmsg) as H.
    unfold settings in H. simpl in H. by injection H as _ _ -> ->.
Qed.

Lemma Part001_run_keeps_lock ALLOWED_UNITS s evs :
  Forall (fun ev => is_lock_message ev = false) evs ->
  locked (run_events (Part001_step ALLOWED_UNITS) s evs) = locked s
  /\ nav_objects (run_events (Part001_step ALLOWED_UNITS) s evs) = nav_objects s.
Proof.
  induction evs as [|ev evs IH] using rev_ind; [done|].
  intros Hall. apply Forall_app in Hall as [Hevs Hev]. apply Forall_inv in Hev.
  rewrite run_events_snoc.
  destruct (Part001_step_keeps_lock ALLOWED_UNITS
              (run_events (Part001_step ALLOWED_UNITS) s evs) ev Hev) as [-> ->].
  by apply IH.
Qed.

Lemma view_locked_effect ALLOWED_UNITS viewer bbox s :
  let s1 := exec (Part001.onMessage ALLOWED_UNITS viewer (msg_view_locked bbox)) s in
  locked s1
  = mkLocked bbox
      (match mjoin (navigationState s ≫= nav_position) with
       | Some pos => Some pos
       | None => lockedPosition (locked s)
       end)
      (match mjoin (navigationState s ≫= nav_zoomFactor) with
       | Some z => Some z
       | None => lockedZoomFactor (locked s)
       end)
  /\ navigationState s1 = navigationState s.
Proof.
  unfold Part001.onMessage, drawLockedRegionIndicator.
  destruct s as [cp rd tl [lb lp lz] pg [[[[p|]|] [[z|]|]]|] ls li ps zr ob hc fl];
    run_monad; destruct bbox; simpl;
    try destruct (getSliceViewPanels viewer); done.
Qed.

Lemma reset_to_locked_view_effect ALLOWED_UNITS viewer s :
  let s' := exec (Part001.onMessage ALLOWED_UNITS viewer msg_reset_to_locked_view) s in
  navigationState s'
  = (fun nav =>
       {| nav_position :=
            match lockedPosition (locked s), nav_position nav with
            | Some pos, Some _ => Some (Some pos)
            | _, _ => nav_position nav
            end;
          nav_zoomFactor :=
            match lockedZoomFactor (locked s), nav_zoomFactor nav with
            | Some z, Some _ => Some (Some z)
            | _, _ => nav_zoomFactor nav
            end |}) <$> navigationState s.
Proof.
  unfold Part001.onMessage. run_monad.
  destruct s as [cp rd tl [lb [lp|] [lz|]] pg [[[p|] [z|]]|] ls li ps zr ob hc fl];
    reflexivity.
Qed.

Lemma nav_objects_values s :
  is_Some (nav_position_value s) -> is_Some (nav_zoom_value s) ->
  nav_objects s = Some (true, true).
Proof.
  unfold nav_position_value, nav_zoom_value, nav_objects.
  destruct (navigationState s) as [[[p|] [z|]]|]; simpl; intros [? ?] [? ?]; done.
Qed.

(** C6.  In [part_001]: when a "view_locked" message is processed while
    the navigation position is P and the zoom factor Z, it stores them; after
    any events that are not "view_locked" or "view_unlocked" messages, user
    navigation included, a "reset_to_locked_view" message sets the position
    back to P and the zoom factor back to Z.  A "view_unlocked" message
    clears the stored bounding box, position and zoom, and after it (and any
    such events) "reset_to_locked_view" leaves the navigation state as it
    is. *)
Theorem C6_locked_view_round_trip
    (ALLOWED_UNITS : list LengthUnit) (s : State) (viewer viewer' : Viewer)
    (evs : list Event) :
  let step := Part001_step ALLOWED_UNITS in
  Forall (fun ev => is_lock_message ev = false) evs ->
  (forall bbox P Z,
     nav_position_value s = Some P -> nav_zoom_value s = Some Z ->
     let s1 := step s (ev_message viewer (msg_view_locked bbox)) in
     let s3 := step (run_events step s1 evs) (ev_message viewer' msg_reset_to_locked_view) in
     locked s1 = mkLocked bbox (Some P) (Some Z)
     /\ nav_position_value s3 = Some P
     /\ nav_zoom_value s3 = Some Z)
  /\ (let s1 := step s (ev_message viewer msg_view_unlocked) in
      let s2 := run_events step s1 evs in
      locked s1 = mkLocked None None None
      /\ navigationState (step s2 (ev_message viewer' msg_reset_to_locked_view))
         = navigationState s2).
Proof.
  intros step Hevs. subst step.
  assert (Hmsg : forall s0 v m,
            Part001_step ALLOWED_UNITS s0 (ev_message v m)
            = exec (Part001.onMessage ALLOWED_UNITS v m) s0) by reflexivity.
  split.
  - intros bbox P Z HP HZ s1 s3. subst s1 s3. rewrite !Hmsg.
    destruct (view_locked_effect ALLOWED_UNITS viewer bbox s) as [Hl Hn].
    unfold nav_position_value, nav_zoom_value in HP, HZ. rewrite HP, HZ in Hl.
    split; [exact Hl|].
    remember (exec (Part001.onMessage ALLOWED_UNITS viewer (msg_view_locked bbox)) s)
      as s1 eqn:Hs1.
    destruct (Part001_run_keeps_lock ALLOWED_UNITS s1 evs Hevs) as [Hl2 Hn2].
    remember (run_events (Part001_step ALLOWED_UNITS) s1 evs) as s2 eqn:Hs2.
    assert (Hobj : nav_objects s2 = Some (true, true)).
    { rewrite Hn2. apply nav_objects_values; unfold nav_position_value, nav_zoom_value;
        rewrite Hn; [by rewrite HP|by rewrite HZ]. }
    unfold nav_position_value, nav_zoom_value.
    rewrite reset_to_locked_view_effect, Hl2, Hl.
    unfold nav_objects in Hobj. clear - Hobj.
    destruct (navigationState s2) as [[[p|] [z|]]|]; by simpl in *.
  - intros s1 s2. subst s1 s2. rewrite !Hmsg. split; [reflexivity|].
    remember (exec (Part001.onMessage ALLOWED_UNITS viewer msg_view_unlocked) s)
      as s1 eqn:Hs1.
    assert (Hl1 : locked s1 = mkLocked None None None) by (by subst s1).
    destruct (Part001_run_keeps_lock ALLOWED_UNITS s1 evs Hevs) as [Hl2 _].
    remember (run_events (Part001_step ALLOWED_UNITS) s1 evs) as s2 eqn:Hs2.
    rewrite reset_to_locked_view_effect, Hl2, Hl1. clear.
    by destruct (navigationState s2) as [[]|].
Qed.

(** * Further properties of the handlers *)

(** ** Invariants of whole runs *)

Lemma step_of_preserves (I : State -> Prop) r ALLOWED_UNITS s ev :
  dispatch_blind I ->
  quiet_handlers_preserve ALLOWED_UNITS I ->
  (forall viewer now e, preserves I (onMouseDown_of r ALLOWED_UNITS viewer now e)) ->
  (forall viewer e, preserves I (onMove_of r viewer e)) ->
  preserves I (onUp_of r) ->
  (forall viewer m, preserves I (onMessage_of r ALLOWED_UNITS viewer m)) ->
  I s -> I (step_of r ALLOWED_UNITS s ev).
Proof.
  intros (Bf & Bp & Bn) (Q1 & Q2 & Q3 & Q4 & Q5 & Q6 & Q7 & Q8 & Q9 & Q10 & Q11 & Q12)
    Hdown Hmove Hup Hmsg Hs.
  assert (Hb : I (begin_event s)) by (by apply Bf).
  destruct r, ev; simpl;
    unfold Part001_mousedown, answer_snapshot, zoom_listener, navigate;
    repeat match goal with
      | |- context [if ?b then _ else _] => destruct b
      | |- context [match pendingSnapshots ?s with _ => _ end] => destruct (pendingSnapshots s)
      | |- context [match navigationState ?s with _ => _ end] => destruct (navigationState s)
      end;
    try done;
    try (by apply Bn);
    try (by apply (Hdown viewer now e));
    try (apply Q8; by apply (Hdown viewer now e));
    try (apply preserves_run_listeners; [|done]; first [apply Hmove | apply Hup]);
    try (by apply (Hmsg viewer m));
    try (apply preserves_exec; eauto; fail).
Qed.

Lemma run_events_preserves (I : State -> Prop) r ALLOWED_UNITS s evs :
  (forall s ev, I s -> I (step_of r ALLOWED_UNITS s ev)) ->
  I s -> I (run_events (step_of r ALLOWED_UNITS) s evs).
Proof.
  intros Hstep. revert s. unfold run_events.
  induction evs as [|ev evs IH]; intros s Hs; simpl; [done|]. apply IH. by apply Hstep.
Qed.

(** ** The order of binary64 numbers and [Math.max] *)

Ltac sf_cases :=
  repeat match goal with
    | |- context [(?x ?= ?y)%Z] => destruct (Z.compare_spec x y)
    | H : context [(?x ?= ?y)%Z] |- _ => destruct (Z.compare_spec x y)
    | |- context [Pos.compare_cont Eq ?x ?y] =>
        change (Pos.compare_cont Eq x y) with (Pos.compare x y);
        destruct (Pos.compare_spec x y)
    | H : context [Pos.compare_cont Eq ?x ?y] |- _ =>
        change (Pos.compare_cont Eq x y) with (Pos.compare x y) in H;
        destruct (Pos.compare_spec x y)
    end.

Ltac sf_order :=
  unfold SFltb, SFeqb, SFcompare;
  repeat match goal with f : spec_float |- _ => destruct f as [[]|[]| |[] ? ?] end;
  simpl; try reflexivity; try discriminate;
  sf_cases; simpl; try reflexivity; try discriminate; try lia.

Lemma SFltb_irrefl a : SFltb a a = false.
Proof. sf_order. Qed.

Lemma SFltb_asym a b : SFltb a b = true -> SFltb b a = false.
Proof. sf_order. Qed.

(** Of three numbers, [r] below [c] and not below [a] leaves [a] below [c],
    unless [a] is NaN. *)
Lemma SFltb_between r a c :
  SFltb r c = true -> SFltb r a = false -> SFltb a c = false -> a = S754_nan.
Proof. sf_order. Qed.

(** Two numbers neither of which is below the other, the first a zero, are
    both zeros. *)
Lemma SFltb_zero_tie s b :
  b <> S754_nan -> SFltb (S754_zero s) b = false -> SFltb b (S754_zero s) = false ->
  exists s', b = S754_zero s'.
Proof.
  destruct b as [sb|sb| |sb mb eb]; try destruct sb; destruct s; simpl;
    try discriminate; try done; eauto.
Qed.

Lemma is_nan_spec x : is_nan x = true <-> Prim2SF x = S754_nan.
Proof.
  unfold is_nan. rewrite negb_true_iff, FloatAxioms.eqb_spec.
  unfold SFeqb, SFcompare.
  destruct (Prim2SF x) as [[]|[]| |[] m e]; simpl; try (split; [discriminate|discriminate]);
    try (split; done).
  all: rewrite Z.compare_refl; change (Pos.compare_cont Eq m m) with (Pos.compare m m);
    rewrite Pos.compare_refl; split; discriminate.
Qed.

Lemma is_zero_spec x : is_zero x = true -> exists s, Prim2SF x = S754_zero s.
Proof.
  unfold is_zero. rewrite FloatAxioms.eqb_spec.
  change (Prim2SF PrimFloat.zero) with (S754_zero false).
  destruct (Prim2SF x) as [[]|[]| |[] m e]; simpl; try discriminate; eauto.
Qed.

Lemma ltb_nan_l x : (nan <? x)%float = false.
Proof. rewrite ltb_spec. reflexivity. Qed.

(** [Math.max(a, b)] is never below [a] and never below [b]. *)
Lemma Math_max_not_below a b :
  (Math_max a b <? a)%float = false /\ (Math_max a b <? b)%float = false.
Proof.
  unfold Math_max.
  destruct (is_nan a || is_nan b) eqn:Hnan; [by rewrite !ltb_nan_l|].
  apply orb_false_iff in Hnan as [Ha Hb].
  destruct (a <? b)%float eqn:Hab.
  { split; rewrite ltb_spec in *; [by apply SFltb_asym|apply SFltb_irrefl]. }
  destruct (b <? a)%float eqn:Hba.
  { split; [rewrite ltb_spec; apply SFltb_irrefl|done]. }
  destruct (is_zero a) eqn:Hz; [|split; [rewrite ltb_spec; apply SFltb_irrefl|done]].
  apply is_zero_spec in Hz as [s Hs].
  rewrite ltb_spec in Hab, Hba. rewrite Hs in Hab, Hba.
  destruct (SFltb_zero_tie s (Prim2SF b)) as [s' Hs']; [|done|done|].
  { intros Hn. apply is_nan_spec in Hn. congruence. }
  rewrite !ltb_spec, add_spec, Hs, Hs'. by destruct s, s'.
Qed.

(** A maximum with [a] is not below what [a] is not below. *)
Lemma Math_max_lower a b c :
  (a <? c)%float = false -> (Math_max a b <? c)%float = false.
Proof.
  intros Hac. destruct (Math_max a b <? c)%float eqn:Hrc; [|done].
  destruct (Math_max_not_below a b) as [Hra _].
  rewrite ltb_spec in *.
  pose proof (SFltb_between _ _ _ Hrc Hra Hac) as Hn. apply is_nan_spec in Hn.
  unfold Math_max in Hrc. rewrite Hn in Hrc. simpl in Hrc.
  change (Prim2SF nan) with S754_nan in Hrc. discriminate.
Qed.

(** ** The width of painted strokes *)

Lemma lock_borders_wide l : Forall wide_enough (mark_lock_border <$> l).
Proof. apply Forall_fmap, Forall_true. done. Qed.

Ltac width_tac :=
  cbv beta in *; unfold width_inv, painted in *; simpl in *;
  repeat match goal with
    | H : snapshot _ = _ |- _ => rewrite H in *; simpl in *
    end;
  repeat match goal with
    | H : Forall _ (_ ++ _) |- _ => apply Forall_app in H; destruct H
    end;
  repeat first [rewrite Forall_app | rewrite Forall_cons | rewrite Forall_nil];
  repeat split; try done;
  try apply lock_borders_wide;
  simpl;
  try apply Math_max_not_below;
  repeat match goal with |- context [if ?b then _ else _] => destruct b end;
  try reflexivity.

Section Width.
Context (ALLOWED_UNITS : list LengthUnit).

Lemma width_quiet : quiet_handlers_preserve ALLOWED_UNITS width_inv.
Proof.
  repeat split; intros;
    unfold Handler.drawStep, Parts.drawStep, Handler.onSnapshotLoaded,
      Part000.onSnapshotLoaded, Part001.onSnapshotLoaded, Part000.onKeyDown,
      Part001.onKeyDown, Part001.onLockedMouseDown, Part001.onLockedKeyDown,
      Parts.onZoomChanged, Parts.onZoomFrame;
    pres_auto width_tac.
Qed.

Lemma width_onMouseDown r viewer now e :
  preserves width_inv (onMouseDown_of r ALLOWED_UNITS viewer now e).
Proof.
  destruct r; simpl;
    unfold Handler.onMouseDown, Part000.onMouseDown, Part001.onMouseDown;
    pres_auto width_tac.
Qed.

Lemma width_onMove r viewer e : preserves width_inv (onMove_of r viewer e).
Proof.
  destruct r; simpl; unfold Handler.onMove, Part000.onMove, Part001.onMove, Parts.onMove;
    pres_auto width_tac.
Qed.

Lemma width_onUp r : preserves width_inv (onUp_of r).
Proof.
  destruct r; simpl;
    unfold Handler.onUp, Part000.onUp, Part001.onUp, Part000.commitStroke,
      Part001.commitStroke;
    pres_auto width_tac.
Qed.

Lemma width_onMessage r viewer m :
  preserves width_inv (onMessage_of r ALLOWED_UNITS viewer m).
Proof.
  destruct r; simpl; unfold Handler.onMessage, Part000.onMessage, Part001.onMessage;
    pres_auto width_tac.
Qed.

Lemma width_step r s ev : width_inv s -> width_inv (step_of r ALLOWED_UNITS s ev).
Proof.
  apply step_of_preserves;
    auto using width_quiet, width_onMouseDown, width_onMove, width_onUp, width_onMessage.
  by repeat split.
Qed.
End Width.

(** X1. In every revision, after any sequence of events, no stroke segment
    on the overlay canvas, and none in the image [getImageData] saved for the
    bounding-box prompt, was painted with a [lineWidth] below 1: [drawStep]
    assigns the maximum of 1 and the pixel size of the brush, or the
    constants 4 and 2.  (A width that is not a number is not below 1.) *)
Theorem painted_strokes_at_least_one_pixel_wide
    (r : Revision) (ALLOWED_UNITS : list LengthUnit) (viewer : Viewer)
    (nav : option NavigationState) (evs : list Event) :
  let s := run_events (step_of r ALLOWED_UNITS)
             (setupDrawingToolMessageHandler ALLOWED_UNITS viewer nav) evs in
  Forall wide_enough (canvas (render s))
  /\ Forall wide_enough (default [] (snapshot (tool s))).
Proof.
  intros s.
  assert (Hinv : width_inv s).
  { apply run_events_preserves; [intros; by apply width_step|].
    apply (preserves_exec width_inv); [apply width_quiet|]. constructor. }
  unfold width_inv, painted in Hinv. by apply Forall_app in Hinv.
Qed.

(** ** A gesture from press to release *)

Lemma enqueueDraw_frame x y s :
  let s' := exec (enqueueDraw x y) s in
  capture s' = capture s /\ tool s' = tool s /\ outbox s' = outbox s
  /\ listeners s' = listeners s /\ canvas (render s') = canvas (render s).
Proof.
  unfold enqueueDraw. run_monad. destruct (lastScreen (render s)) as [lx ly].
  destruct (_ && _); simpl; [done|]. by destruct (rafId (render s)).
Qed.

Lemma onMove_stroke r viewer e s st :
  stroke_in_progress s st ->
  let s' := exec (onMove_of r viewer e) s in
  let pts := if records r viewer e then pushUniquePoint (st_points st) (voxelPoint_of r viewer)
             else st_points st in
  stroke_in_progress s' (with_points st pts)
  /\ strokeData (capture s') = strokeData (capture s)
  /\ promptData (capture s') = promptData (capture s)
  /\ outbox s' = outbox s /\ tool s' = tool s.
Proof.
  intros (Hst & Hpr & Hcap & Hl & Hmode).
  unfold stroke_in_progress, records, with_points.
  destruct s as [[sd pd cs cp ic] rd tl lk pg nv ls li ps zr ob hc fl]. simpl in *. subst.
  destruct st as [md col sz vs ts pts0]. simpl in *. subst.
  destruct r; simpl;
    unfold Handler.onMove, Part000.onMove, Part001.onMove, Parts.onMove,
      Handler.voxelPoint, Part000.voxelPoint, containerCoords;
    run_monad.
  - destruct (isValidPoint (voxelPoint_first3 viewer)); simpl;
      match goal with |- context [enqueueDraw ?x ?y ?s] =>
        pose proof (enqueueDraw_frame x y s) as (Hc & Ht & Ho & Hli & _) end;
      unfold exec in *; simpl in *;
      destruct (enqueueDraw _ _ _) as [o s']; simpl in *;
      destruct s' as [c' ? ? ? ? ? ? ? ? ? ? ? ?]; simpl in *; subst; by repeat split.
  - destruct (isOnDataPanel e); simpl; [|by repeat split].
    destruct (isInDataBounds viewer); simpl; [|by repeat split].
    match goal with |- context [enqueueDraw ?x ?y ?s] =>
        pose proof (enqueueDraw_frame x y s) as (Hc & Ht & Ho & Hli & _) end;
      unfold exec in *; simpl in *;
      destruct (enqueueDraw _ _ _) as [o s']; simpl in *;
      destruct s' as [c' ? ? ? ? ? ? ? ? ? ? ? ?]; simpl in *; subst; by repeat split.
  - destruct (isOnDataPanel e); simpl; [|by repeat split].
    destruct (isInDataBounds viewer); simpl; [|by repeat split].
    match goal with |- context [enqueueDraw ?x ?y ?s] =>
        pose proof (enqueueDraw_frame x y s) as (Hc & Ht & Ho & Hli & _) end;
      unfold exec in *; simpl in *;
      destruct (enqueueDraw _ _ _) as [o s']; simpl in *;
      destruct s' as [c' ? ? ? ? ? ? ? ? ? ? ? ?]; simpl in *; subst; by repeat split.
Qed.

Lemma sendScaleBarUpdate_frame ALLOWED_UNITS viewer s :
  let s' := exec (sendScaleBarUpdate ALLOWED_UNITS viewer) s in
  capture s' = capture s /\ tool s' = tool s /\ listeners s' = listeners s
  /\ flags s' = flags s /\ render s' = render s /\ locked s' = locked s.
Proof.
  unfold sendScaleBarUpdate. run_monad.
  destruct (getScaleBarPhysicalLength ALLOWED_UNITS viewer) as [[l|]|]; simpl; try done.
  destruct (lastScaleBarLength s) as [y|]; simpl; [|done]. by destruct (l =? y)%float.
Qed.

Lemma capture_may_start_guards r s viewer e :
  capture_may_start r s viewer e ->
  (negb (truthy_opt (activeMode (tool s))) && negb (truthy_opt (promptMode (tool s)))
   || negb (button e =? 0)%Z) = false
  /\ (has_data_guards r = true -> isOnDataPanel e = true /\ isInDataBounds viewer = true).
Proof.
  intros (Hm & Hb & Hg). split.
  - rewrite Hb. unfold mode_active in Hm. simpl. rewrite orb_false_r.
    by destruct (truthy_opt (activeMode (tool s))), (truthy_opt (promptMode (tool s))).
  - intros Hr. destruct (Hg Hr) as [Hp Hi]. split; [done|]. by apply isInDataBounds_spec.
Qed.

(** A left press that passes the guards with the brush selected. *)
Lemma onMouseDown_brush r ALLOWED_UNITS viewer now e s vs :
  activeMode (tool s) = Some "brush" ->
  capture_may_start r s viewer e ->
  calculatePhysicalSizePerVoxel_of r ALLOWED_UNITS viewer = Done vs ->
  (exists sb, getScaleBarPhysicalLength ALLOWED_UNITS viewer = Done sb) ->
  let s' := exec (onMouseDown_of r ALLOWED_UNITS viewer now e) s in
  let pt := voxelPoint_of r viewer in
  currentStroke (capture s')
  = Some (mkStroke "brush" (strokeColor (tool s)) (brushPhysicalSize (tool s)) vs now
            (if isValidPoint pt then [pt] else []))
  /\ currentPrompt (capture s') = currentPrompt (capture s)
  /\ strokeData (capture s') = strokeData (capture s)
  /\ promptData (capture s') = promptData (capture s)
  /\ isCapturing (capture s') = true
  /\ listeners s' = S (listeners s)
  /\ activeMode (tool s') = activeMode (tool s)
  /\ strokeColor (tool s') = strokeColor (tool s)
  /\ brushPhysicalSize (tool s') = brushPhysicalSize (tool s)
  /\ locked s' = locked s
  /\ event_consumed s'.
Proof.
  intros Hmode Hstart Hvs [sb Hsb].
  destruct (capture_may_start_guards r s viewer e Hstart) as [Hg Hd].
  destruct s as [[sd pd cs cp ic] rd tl lk pg nv ls li ps zr ob hc fl].
  destruct tl as [am pm pol bps bpx col ier idr sx sy snp]. simpl in *. subst am.
  unfold event_consumed.
  destruct r; simpl in *;
    unfold Handler.onMouseDown, Part000.onMouseDown, Part001.onMouseDown,
      Handler.voxelPoint, Part000.voxelPoint, containerCoords, sendScaleBarUpdate;
    try (destruct (Hd eq_refl) as [Hp Hi]);
    run_monad; rewrite ?Hg, ?Hp, ?Hi; simpl; rewrite Hvs, Hsb; simpl;
    destruct sb as [l|]; simpl;
    try (destruct ls as [last|]; simpl; [destruct (l =? last)%float; simpl|]);
    try destruct vs; simpl; by repeat split.
Qed.

Lemma step_mousemove_one r ALLOWED_UNITS s viewer e :
  listeners s = 1 ->
  step_of r ALLOWED_UNITS s (ev_mousemove viewer e)
  = exec (onMove_of r viewer e) (begin_event s).
Proof. intros Hl. destruct r; simpl; by rewrite Hl. Qed.

Lemma step_mouseup_one r ALLOWED_UNITS s :
  listeners s = 1 ->
  step_of r ALLOWED_UNITS s ev_mouseup = exec (onUp_of r) (begin_event s).
Proof. intros Hl. destruct r; simpl; by rewrite Hl. Qed.

Lemma moves_stroke r ALLOWED_UNITS moves s st :
  stroke_in_progress s st ->
  let s' := run_events (step_of r ALLOWED_UNITS) s (mouse_moves moves) in
  stroke_in_progress s' (with_points st (trace_points r (st_points st) moves))
  /\ strokeData (capture s') = strokeData (capture s)
  /\ promptData (capture s') = promptData (capture s)
  /\ outbox s' = outbox s /\ tool s' = tool s.
Proof.
  revert s st. induction moves as [|[viewer e] moves IH]; intros s st Hst; simpl.
  - destruct st. split; [exact Hst|done].
  - assert (Hl : listeners s = 1) by apply Hst.
    rewrite step_mousemove_one by done.
    destruct (onMove_stroke r viewer e (begin_event s) st Hst) as (Hst' & Hsd & Hpd & Ho & Ht).
    destruct (IH _ _ Hst') as (Hfin & -> & -> & -> & ->).
    simpl in Hfin. unfold with_points in Hfin. simpl in Hfin.
    split; [exact Hfin|]. by rewrite Hsd, Hpd, Ho, Ht.
Qed.

Lemma step_mousedown_capture r ALLOWED_UNITS viewer now e s :
  let s0 := exec (onMouseDown_of r ALLOWED_UNITS viewer now e) (begin_event s) in
  let s' := step_of r ALLOWED_UNITS s (ev_mousedown viewer now e) in
  capture s' = capture s0 /\ tool s' = tool s0 /\ listeners s' = listeners s0
  /\ outbox s' = outbox s0.
Proof.
  destruct r; simpl; try done.
  unfold Part001_mousedown. rewrite onLockedMouseDown_effect. by destruct (_ && _).
Qed.

(** X2. A whole brush gesture, in every revision.  From a state with no
    capture in progress and no capture listener, with the brush selected: a
    mouse-down that passes the guard, any number of mouse moves, and the
    mouse-up append exactly one stroke to [strokeData].  The stroke has the
    mode "brush", the colour and the physical size of the brush, the voxel
    sizes and the time of the mouse-down, and as points the position of the
    mouse-down, when it is valid, followed by the position of every move
    that passes the test of [onMove], each appended through the duplicate
    check.  [promptData] is as before, and the handler is idle again.  The
    hypotheses on the two size computations say that neither throws. *)
Theorem brush_gesture_commits_traced_stroke
    (r : Revision) (ALLOWED_UNITS : list LengthUnit) (s : State)
    (viewer : Viewer) (now : string) (e : MouseEvent)
    (moves : list (Viewer * MouseEvent)) (vs : option (list float)) :
  idle s ->
  activeMode (tool s) = Some "brush" ->
  capture_may_start r s viewer e ->
  calculatePhysicalSizePerVoxel_of r ALLOWED_UNITS viewer = Done vs ->
  (exists sb, getScaleBarPhysicalLength ALLOWED_UNITS viewer = Done sb) ->
  let s' := run_events (step_of r ALLOWED_UNITS) s
              (ev_mousedown viewer now e :: mouse_moves moves ++ [ev_mouseup]) in
  let pt := voxelPoint_of r viewer in
  strokeData (capture s')
  = strokeData (capture s)
    ++ [mkStroke "brush" (strokeColor (tool s)) (brushPhysicalSize (tool s)) vs now
          (trace_points r (if isValidPoint pt then [pt] else []) moves)]
  /\ promptData (capture s') = promptData (capture s)
  /\ isCapturing (capture s') = false
  /\ idle s'.
Proof.
  intros (Hcs & Hcp & Hl) Hmode Hstart Hvs Hsb s' pt. subst s' pt.
  rewrite app_comm_cons, run_events_snoc.
  change (run_events (step_of r ALLOWED_UNITS) s (ev_mousedown viewer now e :: mouse_moves moves))
    with (run_events (step_of r ALLOWED_UNITS)
            (step_of r ALLOWED_UNITS s (ev_mousedown viewer now e)) (mouse_moves moves)).
  destruct (step_mousedown_capture r ALLOWED_UNITS viewer now e s) as (Hc1 & Ht1 & Hl1 & _).
  assert (Hstart' : capture_may_start r (begin_event s) viewer e) by exact Hstart.
  destruct (onMouseDown_brush r ALLOWED_UNITS viewer now e (begin_event s) vs
              Hmode Hstart' Hvs Hsb)
    as (Hst & Hpr & Hsd & Hpd & Hic & Hli & _).
  rewrite <- Hc1, <- Hl1 in *. clear Hc1 Ht1 Hl1.
  set (s1 := step_of r ALLOWED_UNITS s (ev_mousedown viewer now e)) in *.
  set (st := mkStroke "brush" (strokeColor (tool (begin_event s)))
               (brushPhysicalSize (tool (begin_event s))) vs now
               (if isValidPoint (voxelPoint_of r viewer) then [voxelPoint_of r viewer]
                else [])) in *.
  assert (Hprog : stroke_in_progress s1 st).
  { repeat split; try done; [by rewrite Hpr|]. rewrite Hli. simpl. by rewrite Hl. }
  destruct (moves_stroke r ALLOWED_UNITS moves s1 st Hprog) as (Hfin & Hsd2 & Hpd2 & _ & _).
  set (s2 := run_events (step_of r ALLOWED_UNITS) s1 (mouse_moves moves)) in *.
  destruct Hfin as (Hst2 & Hpr2 & _ & Hl2 & _).
  rewrite step_mouseup_one by done.
  destruct (onUp_effect r (begin_event s2)) as (Hc3 & _ & Hl3).
  unfold idle. rewrite Hc3, Hl3. unfold committed. simpl.
  rewrite Hst2, Hpr2, Hsd2, Hpd2, Hsd, Hpd. simpl. rewrite Hl2, app_nil_r.
  by repeat split.
Qed.

Lemma onMove_prompt r viewer e s pr :
  prompt_in_progress s pr ->
  let s' := exec (onMove_of r viewer e) s in
  let pr' := if records r viewer e then moved_prompt pr (voxelPoint_of r viewer) else pr in
  prompt_in_progress s' pr'
  /\ strokeData (capture s') = strokeData (capture s)
  /\ promptData (capture s') = promptData (capture s)
  /\ outbox s' = outbox s /\ tool s' = tool s.
Proof.
  intros (Hst & Hpr & Hcap & Hl).
  unfold prompt_in_progress, records.
  destruct s as [[sd pd cs cp ic] rd tl lk pg nv ls li ps zr ob hc fl]. simpl in *. subst.
  destruct r; simpl;
    unfold Handler.onMove, Part000.onMove, Part001.onMove, Parts.onMove,
      Handler.voxelPoint, Part000.voxelPoint, containerCoords;
    run_monad;
    repeat match goal with
      | |- context [isValidPoint ?p] => destruct (isValidPoint p); simpl
      | |- context [isOnDataPanel ?p] => destruct (isOnDataPanel p); simpl
      | |- context [isInDataBounds ?p] => destruct (isInDataBounds p); simpl
      end;
    try (by repeat split);
    destruct pr; simpl;
    match goal with |- context [enqueueDraw ?x ?y ?s] =>
      pose proof (enqueueDraw_frame x y s) as (Hc & Ht & Ho & Hli & _) end;
    unfold exec in *; simpl in *;
    destruct (enqueueDraw _ _ _) as [o s']; simpl in *;
    destruct s' as [c' ? ? ? ? ? ? ? ? ? ? ? ?]; simpl in *; subst; by repeat split.
Qed.

Lemma moves_prompt r ALLOWED_UNITS moves s pr :
  prompt_in_progress s pr ->
  let s' := run_events (step_of r ALLOWED_UNITS) s (mouse_moves moves) in
  prompt_in_progress s' (trace_prompt r pr moves)
  /\ strokeData (capture s') = strokeData (capture s)
  /\ promptData (capture s') = promptData (capture s)
  /\ outbox s' = outbox s /\ tool s' = tool s.
Proof.
  revert s pr. induction moves as [|[viewer e] moves IH]; intros s pr Hpr; simpl.
  - done.
  - assert (Hl : listeners s = 1) by apply Hpr.
    rewrite step_mousemove_one by done.
    destruct (onMove_prompt r viewer e (begin_event s) pr Hpr) as (Hpr' & Hsd & Hpd & Ho & Ht).
    destruct (IH _ _ Hpr') as (Hfin & -> & -> & -> & ->).
    split; [exact Hfin|]. by rewrite Hsd, Hpd, Ho, Ht.
Qed.

(** A left press that passes the guards in a dragged prompt mode. *)
Lemma onMouseDown_prompt r ALLOWED_UNITS viewer now e s mode pr :
  activeMode (tool s) = None ->
  promptMode (tool s) = Some mode ->
  begun_prompt mode (voxelPoint_of r viewer) (promptPolarity (tool s)) = Some pr ->
  capture_may_start r s viewer e ->
  (exists vs, calculatePhysicalSizePerVoxel_of r ALLOWED_UNITS viewer = Done vs) ->
  (exists sb, getScaleBarPhysicalLength ALLOWED_UNITS viewer = Done sb) ->
  let s' := exec (onMouseDown_of r ALLOWED_UNITS viewer now e) s in
  currentPrompt (capture s') = Some pr
  /\ currentStroke (capture s') = currentStroke (capture s)
  /\ strokeData (capture s') = strokeData (capture s)
  /\ promptData (capture s') = promptData (capture s)
  /\ isCapturing (capture s') = true
  /\ listeners s' = S (listeners s).
Proof.
  intros Hmode Hpm Hbegun Hstart [vs Hvs] [sb Hsb].
  destruct (capture_may_start_guards r s viewer e Hstart) as [Hg Hd].
  destruct s as [[sd pd cs cp ic] rd tl lk pg nv ls li ps zr ob hc fl].
  destruct tl as [am pm pol bps bpx col ier idr sx sy snp]. simpl in *. subst am pm.
  unfold begun_prompt in Hbegun.
  destruct r; simpl in *;
    unfold Handler.onMouseDown, Part000.onMouseDown, Part001.onMouseDown,
      Handler.voxelPoint, Part000.voxelPoint, containerCoords, sendScaleBarUpdate in *;
    try (destruct (Hd eq_refl) as [Hp Hi]);
    run_monad; rewrite ?Hg, ?Hp, ?Hi; simpl; rewrite Hvs, Hsb; simpl;
    destruct sb as [l|]; simpl;
    try (destruct ls as [last|]; simpl; [destruct (l =? last)%float; simpl|]);
    try destruct vs; simpl;
    (destruct (String.eqb mode "bbox") eqn:Hb;
     [apply String.eqb_eq in Hb; subst mode; injection Hbegun as <-; by repeat split|]);
    (destruct (String.eqb mode "scribble") eqn:Hs;
     [apply String.eqb_eq in Hs; subst mode; injection Hbegun as <-; by repeat split|]);
    (destruct (String.eqb mode "lasso") eqn:Hla; [|discriminate]);
    apply String.eqb_eq in Hla; subst mode; injection Hbegun as <-; by repeat split.
Qed.

(** X3. A whole prompt gesture, in every revision.  From a state with no
    capture in progress, with the prompt mode "bbox", "scribble" or "lasso"
    selected: a mouse-down that passes the guard begins the prompt [pr] of
    the mode, every mouse move that passes the test of [onMove] moves the
    end point of the box or appends to the points through the duplicate
    check, and the mouse-up appends the prompt to [promptData] and posts
    "prompt_complete" with the whole of [promptData] as the last message.
    [strokeData] is as before, and the handler is idle again. *)
Theorem prompt_gesture_commits_traced_prompt
    (r : Revision) (ALLOWED_UNITS : list LengthUnit) (s : State)
    (viewer : Viewer) (now : string) (e : MouseEvent)
    (moves : list (Viewer * MouseEvent)) (mode : string) (pr : Prompt) :
  idle s ->
  activeMode (tool s) = None ->
  promptMode (tool s) = Some mode ->
  begun_prompt mode (voxelPoint_of r viewer) (promptPolarity (tool s)) = Some pr ->
  capture_may_start r s viewer e ->
  (exists vs, calculatePhysicalSizePerVoxel_of r ALLOWED_UNITS viewer = Done vs) ->
  (exists sb, getScaleBarPhysicalLength ALLOWED_UNITS viewer = Done sb) ->
  let s' := run_events (step_of r ALLOWED_UNITS) s
              (ev_mousedown viewer now e :: mouse_moves moves ++ [ev_mouseup]) in
  promptData (capture s') = promptData (capture s) ++ [trace_prompt r pr moves]
  /\ strokeData (capture s') = strokeData (capture s)
  /\ last (outbox s') = Some (prompt_complete (promptData (capture s')))
  /\ isCapturing (capture s') = false
  /\ idle s'.
Proof.
  intros (Hcs & Hcp & Hl) Hmode Hpm Hbegun Hstart Hvs Hsb s'. subst s'.
  rewrite app_comm_cons, run_events_snoc.
  change (run_events (step_of r ALLOWED_UNITS) s (ev_mousedown viewer now e :: mouse_moves moves))
    with (run_events (step_of r ALLOWED_UNITS)
            (step_of r ALLOWED_UNITS s (ev_mousedown viewer now e)) (mouse_moves moves)).
  destruct (step_mousedown_capture r ALLOWED_UNITS viewer now e s) as (Hc1 & Ht1 & Hl1 & _).
  assert (Hstart' : capture_may_start r (begin_event s) viewer e) by exact Hstart.
  destruct (onMouseDown_prompt r ALLOWED_UNITS viewer now e (begin_event s) mode pr
              Hmode Hpm Hbegun Hstart' Hvs Hsb)
    as (Hpr & Hst & Hsd & Hpd & Hic & Hli).
  rewrite <- Hc1, <- Hl1 in *. clear Hc1 Ht1 Hl1.
  set (s1 := step_of r ALLOWED_UNITS s (ev_mousedown viewer now e)) in *.
  assert (Hprog : prompt_in_progress s1 pr).
  { repeat split; try done; [by rewrite Hst|]. rewrite Hli. simpl. by rewrite Hl. }
  destruct (moves_prompt r ALLOWED_UNITS moves s1 pr Hprog) as (Hfin & Hsd2 & Hpd2 & _ & _).
  set (s2 := run_events (step_of r ALLOWED_UNITS) s1 (mouse_moves moves)) in *.
  destruct Hfin as (Hst2 & Hpr2 & _ & Hl2).
  rewrite step_mouseup_one by done.
  destruct (onUp_effect r (begin_event s2)) as (Hc3 & Ho3 & Hl3).
  unfold idle. rewrite Hc3, Ho3, Hl3. unfold committed, stroke_messages, prompt_messages.
  simpl. rewrite Hst2, Hpr2, Hsd2, Hpd2, Hsd, Hpd. simpl. rewrite Hl2, app_nil_r.
  repeat split; try done. by rewrite last_snoc.
Qed.

(** ** Point prompts *)

Lemma point_mode_run_mono r s0 viewers viewers' s :
  viewers ⊆ viewers' -> point_mode_run r s0 viewers s -> point_mode_run r s0 viewers' s.
Proof.
  intros Hsub (Hm & Hpol & Hsd & Hpd & Ho & Hcp).
  repeat split; try done; try apply Hm.
  destruct Hcp as [Hcp|(viewer & Hin & Hv & Hcp)]; [by left|].
  right. exists viewer. split; [by apply Hsub|done].
Qed.

Lemma onMouseDown_point_mode r ALLOWED_UNITS viewer now e s0 viewers s :
  point_mode_run r s0 viewers s ->
  point_mode_run r s0 (viewers ++ [viewer])
    (exec (onMouseDown_of r ALLOWED_UNITS viewer now e) (begin_event s)).
Proof.
  intros ((Ham & Hpm & Hcs & Hl) & Hpol & Hsd & Hpd & (posted & Ho & Hposted) & Hcp).
  assert (Hin : viewer ∈ viewers ++ [viewer]) by (apply elem_of_app; right; apply list_elem_of_here).
  assert (Hold : currentPrompt (capture s) = currentPrompt (capture s0)
                 \/ exists v, v ∈ viewers ++ [viewer]
                      /\ isValidPoint (voxelPoint_of r v) = true
                      /\ currentPrompt (capture s)
                         = Some (PromptPoint (voxelPoint_of r v) (promptPolarity (tool s0)))).
  { destruct Hcp as [?|(v & Hv & ?)]; [by left|]. right. exists v. split; [|done].
    apply elem_of_app. by left. }
  clear Hcp.
  destruct s as [[sd pd cs cp ic] rd tl lk pg nv ls li ps zr ob hc fl].
  destruct tl as [am pm pol bps bpx col ier idr sx sy snp]. simpl in *. subst.
  unfold point_mode_run, point_mode.
  destruct ls as [last|], r; simpl in *;
    unfold Handler.onMouseDown, Part000.onMouseDown, Part001.onMouseDown,
      Handler.voxelPoint, Part000.voxelPoint, containerCoords, sendScaleBarUpdate in *;
    run_monad;
    repeat match goal with
      | |- context [(button e =? 0)%Z] => destruct (button e =? 0)%Z; simpl
      | |- context [isOnDataPanel e] => destruct (isOnDataPanel e); simpl
      | |- context [isInDataBounds viewer] => destruct (isInDataBounds viewer); simpl
      | |- context [Handler.calculatePhysicalSizePerVoxel ?u ?v] =>
          destruct (Handler.calculatePhysicalSizePerVoxel u v) as [[?|]|?]; simpl
      | |- context [Parts.calculatePhysicalSizePerVoxel ?u ?v] =>
          destruct (Parts.calculatePhysicalSizePerVoxel u v) as [[?|]|?]; simpl
      | |- context [getScaleBarPhysicalLength ?u ?v] =>
          destruct (getScaleBarPhysicalLength u v) as [[?|]|?]; simpl
      | |- context [PrimFloat.eqb ?a ?b] => destruct (PrimFloat.eqb a b); simpl
      | |- context [isValidPoint ?p] => destruct (isValidPoint p) eqn:?; simpl
      end;
    (split; [by repeat split|]); (split; [done|]); (split; [done|]); (split; [done|]);
    (split;
     [ first [ by (exists posted; rewrite ?app_nil_r)
             | rewrite <- ?app_assoc; simpl;
               eexists; split; [reflexivity|];
               rewrite ?Forall_app; repeat split; try done;
               repeat (apply Forall_cons; split; [simpl; discriminate|]); by apply Forall_nil ]
     | first [ exact Hold | right; exists viewer; by repeat split ] ]).
Qed.

Lemma step_point_mode r ALLOWED_UNITS s0 viewers s ev :
  is_mouse_event ev = true ->
  point_mode_run r s0 viewers s ->
  point_mode_run r s0 (viewers ++ option_list (mouse_viewer ev)) (step_of r ALLOWED_UNITS s ev).
Proof.
  intros Hev Hrun. destruct ev; try discriminate Hev; simpl.
  - assert (Hstep : point_mode_run r s0 (viewers ++ [viewer])
                      (exec (onMouseDown_of r ALLOWED_UNITS viewer now e) (begin_event s)))
      by (by apply onMouseDown_point_mode).
    destruct r; simpl in *; try exact Hstep.
    unfold Part001_mousedown. rewrite onLockedMouseDown_effect.
    by destruct (_ && _).
  - assert (Hl : listeners s = 0) by apply Hrun.
    apply (point_mode_run_mono r s0 viewers); [set_solver|].
    destruct r; simpl; by rewrite Hl.
  - assert (Hl : listeners s = 0) by apply Hrun.
    rewrite app_nil_r. destruct r; simpl; by rewrite Hl.
Qed.

(** X4. Point prompts, in every revision.  While the prompt mode "point"
    is selected and nothing is being dragged, no sequence of mouse-downs,
    mouse moves and mouse-ups commits a prompt: [promptData] and
    [strokeData] stay as they were, no capture listener is registered, and
    no "prompt_complete" is posted.  The prompt in progress is the one the
    run found, or a point prompt at a valid position of one of the mouse
    events: a click stores its point in [currentPrompt] and returns before
    the listeners are added, and the next click replaces it. *)
Theorem point_prompts_are_not_committed_by_the_mouse
    (r : Revision) (ALLOWED_UNITS : list LengthUnit) (s : State) (evs : list Event) :
  point_mode s ->
  Forall (fun ev => is_mouse_event ev = true) evs ->
  let s' := run_events (step_of r ALLOWED_UNITS) s evs in
  promptData (capture s') = promptData (capture s)
  /\ strokeData (capture s') = strokeData (capture s)
  /\ listeners s' = 0
  /\ (exists posted,
        outbox s' = outbox s ++ posted
        /\ Forall (fun m => message_type m <> "prompt_complete") posted)
  /\ (currentPrompt (capture s') = currentPrompt (capture s)
      \/ exists viewer,
           viewer ∈ mouse_viewers evs
           /\ isValidPoint (voxelPoint_of r viewer) = true
           /\ currentPrompt (capture s')
              = Some (PromptPoint (voxelPoint_of r viewer) (promptPolarity (tool s)))).
Proof.
  intros Hs Hevs s'.
  assert (Hrun : point_mode_run r s (mouse_viewers evs) s').
  { subst s'. induction evs as [|ev evs IH] using rev_ind.
    - repeat split; try done; try apply Hs; [|by left].
      exists []. by rewrite app_nil_r.
    - apply Forall_app in Hevs as [Hevs Hev]. apply Forall_inv in Hev.
      rewrite run_events_snoc. unfold mouse_viewers. rewrite omap_app.
      replace (omap mouse_viewer [ev]) with (option_list (mouse_viewer ev))
        by (by destruct ev).
      apply step_point_mode; [exact Hev|]. by apply IH. }
  destruct Hrun as ((_ & _ & _ & Hl) & _ & Hsd & Hpd & Ho & Hcp). by repeat split.
Qed.

(** ** A mouse-down that throws *)

(** X5. A mouse-down that passes the guard while
    [calculatePhysicalSizePerVoxel] throws, in every revision: the event is
    already taken from the viewer and [isCapturing] is already set, but no
    stroke and no prompt is begun, no listener is registered, nothing is
    posted, and the scale-bar cache is not touched. *)
Theorem mousedown_that_throws_begins_nothing
    (r : Revision) (ALLOWED_UNITS : list LengthUnit) (viewer : Viewer) (now : string)
    (e : MouseEvent) (s : State) (err : string) :
  capture_may_start r s viewer e ->
  calculatePhysicalSizePerVoxel_of r ALLOWED_UNITS viewer = Throw err ->
  let s' := exec (onMouseDown_of r ALLOWED_UNITS viewer now e) (begin_event s) in
  event_consumed s'
  /\ isCapturing (capture s') = true
  /\ currentStroke (capture s') = currentStroke (capture s)
  /\ currentPrompt (capture s') = currentPrompt (capture s)
  /\ strokeData (capture s') = strokeData (capture s)
  /\ promptData (capture s') = promptData (capture s)
  /\ listeners s' = listeners s
  /\ outbox s' = outbox s
  /\ lastScaleBarLength s' = lastScaleBarLength s.
Proof.
  intros Hstart Hvs.
  assert (Hstart' : capture_may_start r (begin_event s) viewer e) by exact Hstart.
  destruct (capture_may_start_guards r (begin_event s) viewer e Hstart') as [Hg Hd].
  destruct s as [[sd pd cs cp ic] rd tl lk pg nv ls li ps zr ob hc fl].
  unfold event_consumed.
  destruct r; simpl in *;
    unfold Handler.onMouseDown, Part000.onMouseDown, Part001.onMouseDown,
      Handler.voxelPoint, Part000.voxelPoint, containerCoords in *;
    try (destruct (Hd eq_refl) as [Hp Hi]);
    run_monad; rewrite ?Hg, ?Hp, ?Hi; simpl; rewrite Hvs; simpl; by repeat split.
Qed.

(** ** Recorded points lie within the data *)

Lemma isInDataBounds_valid viewer :
  isInDataBounds viewer = true -> isValidPoint (voxelPoint_first3 viewer) = true.
Proof.
  intros H. apply isInDataBounds_spec in H as (pos & b & Hpos & _ & Hlen & Hall).
  unfold voxelPoint_first3, isValidPoint. rewrite Hpos.
  assert (Hltb : (length pos <? 3)%nat = false) by (apply Nat.ltb_ge; lia).
  rewrite Hltb.
  destruct (Hall 0%nat ltac:(lia)) as (x & Hx & Hfx & _).
  destruct (Hall 1%nat ltac:(lia)) as (y & Hy & Hfy & _).
  destruct (Hall 2%nat ltac:(lia)) as (z & Hz & Hfz & _).
  cbn [pt_x pt_y pt_z]. rewrite Hx, Hy, Hz. simpl. by rewrite Hfx, Hfy, Hfz.
Qed.

Lemma from_recordable_push r viewers viewer l :
  viewer ∈ viewers -> recordable r viewer = true ->
  from_recordable r viewers l ->
  from_recordable r viewers (pushUniquePoint l (voxelPoint_of r viewer)).
Proof.
  intros Hin Hrec Hl. unfold from_recordable in *.
  destruct (pushUniquePoint_cases l (voxelPoint_of r viewer)) as [->|[-> _]]; [done|].
  apply Forall_app. split; [done|]. constructor; [|constructor]. eauto.
Qed.

Lemma from_recordable_mono r viewers viewers' l :
  viewers ⊆ viewers' -> from_recordable r viewers l -> from_recordable r viewers' l.
Proof.
  intros Hsub. unfold from_recordable. intros H. eapply Forall_impl; [exact H|].
  intros p (viewer & Hin & Hrec & ->). eauto.
Qed.

Lemma run_points_from_recordable r ALLOWED_UNITS viewer0 nav evs :
  points_inv (from_recordable r (mouse_viewers evs))
    (run_events (step_of r ALLOWED_UNITS)
       (setupDrawingToolMessageHandler ALLOWED_UNITS viewer0 nav) evs).
Proof.
  induction evs as [|ev evs IH] using rev_ind.
  - apply points_inv_setup.
  - rewrite run_events_snoc.
    assert (Hsub : mouse_viewers evs ⊆ mouse_viewers (evs ++ [ev])).
    { unfold mouse_viewers. rewrite omap_app. set_solver. }
    apply step_points.
    + constructor.
    + intros viewer Hev Hrec l Hl.
      apply from_recordable_push; [|done|done].
      unfold mouse_viewers. rewrite omap_app. simpl. rewrite Hev. set_solver.
    + eapply points_inv_impl; [|exact IH].
      intros l. by apply from_recordable_mono.
Qed.

(** X6. After any sequence of events, every point of a stroke or of a
    scribble or lasso prompt, in progress or committed, is the position of
    the viewer at one of the mouse events of the run; in [part_000] and
    [part_001] that position was finite and within the data bounds of the
    viewer at that event, and in [drawing_tool_handler.ts] and [part_000]
    the point is valid (its three coordinates are finite). *)
Theorem recorded_points_lie_within_the_data
    (r : Revision) (ALLOWED_UNITS : list LengthUnit) (viewer0 : Viewer)
    (nav : option NavigationState) (evs : list Event) (l : list StrokePoint)
    (p : StrokePoint) :
  l ∈ point_lists
        (capture (run_events (step_of r ALLOWED_UNITS)
                    (setupDrawingToolMessageHandler ALLOWED_UNITS viewer0 nav) evs)) ->
  p ∈ l ->
  exists viewer,
    viewer ∈ mouse_viewers evs
    /\ p = voxelPoint_of r viewer
    /\ (has_data_guards r = true -> within_data_bounds viewer)
    /\ (r <> part_001 -> isValidPoint p = true).
Proof.
  intros Hl Hp.
  pose proof (run_points_from_recordable r ALLOWED_UNITS viewer0 nav evs) as Hinv.
  unfold points_inv in Hinv. rewrite Forall_forall in Hinv.
  specialize (Hinv l Hl). unfold from_recordable in Hinv. rewrite Forall_forall in Hinv.
  destruct (Hinv p Hp) as (viewer & Hin & Hrec & ->).
  exists viewer. repeat split; try done.
  - intros Hg. unfold recordable in Hrec. rewrite Hg in Hrec. by apply isInDataBounds_spec.
  - intros Hr. destruct r; simpl in *; [done| |done].
    by apply isInDataBounds_valid.
Qed.

(** ** A stroke in progress has its listeners *)

Ltac attended_tac :=
  cbv beta in *; unfold stroke_attended in *; simpl in *; auto.

Ltac split_ifs :=
  repeat match goal with
    | |- context [if ?b then _ else _] => destruct b eqn:?; simpl
    | |- context [match ?x with _ => _ end] => destruct x eqn:?; simpl
    end.

Ltac split_calls :=
  repeat match goal with
    | |- context [Handler.calculatePhysicalSizePerVoxel ?U ?v] =>
        destruct (Handler.calculatePhysicalSizePerVoxel U v) as [[?|]|?]; simpl
    | |- context [Parts.calculatePhysicalSizePerVoxel ?U ?v] =>
        destruct (Parts.calculatePhysicalSizePerVoxel U v) as [[?|]|?]; simpl
    | |- context [getScaleBarPhysicalLength ?U ?v] =>
        destruct (getScaleBarPhysicalLength U v) as [[?|]|?]; simpl
    end.

Section Attended.
Context (ALLOWED_UNITS : list LengthUnit).

Lemma attended_quiet : quiet_handlers_preserve ALLOWED_UNITS stroke_attended.
Proof.
  repeat split; intros;
    unfold Handler.drawStep, Parts.drawStep, Handler.onSnapshotLoaded,
      Part000.onSnapshotLoaded, Part001.onSnapshotLoaded, Part000.onKeyDown,
      Part001.onKeyDown, Part001.onLockedMouseDown, Part001.onLockedKeyDown,
      Parts.onZoomChanged, Parts.onZoomFrame;
    pres_auto attended_tac.
Qed.

Lemma attended_onMessage r viewer m :
  preserves stroke_attended (onMessage_of r ALLOWED_UNITS viewer m).
Proof.
  destruct r; simpl; unfold Handler.onMessage, Part000.onMessage, Part001.onMessage;
    pres_auto attended_tac.
Qed.

Lemma attended_onUp r : preserves stroke_attended (onUp_of r).
Proof.
  intros s _. destruct (onUp_effect r s) as (Hc & _ & _).
  unfold stroke_attended. fold (exec (onUp_of r) s). rewrite Hc. by left.
Qed.

Lemma attended_onMove r viewer e : preserves stroke_attended (onMove_of r viewer e).
Proof.
  intros s Hs. unfold stroke_attended in *.
  destruct s as [[sd pd cs cp ic] rd tl lk pg nv ls li ps zr ob hc fl]. simpl in *.
  destruct r; simpl;
    unfold Handler.onMove, Part000.onMove, Part001.onMove, Parts.onMove,
      Handler.voxelPoint, Part000.voxelPoint, containerCoords;
    run_monad;
    destruct ic; simpl; try done;
    destruct cs as [st|]; simpl;
    try (destruct Hs as [Hs|[_ Hli]]; [discriminate|]);
    destruct cp as [[]|]; simpl;
    split_ifs; auto;
    match goal with
    | |- context [enqueueDraw ?x ?y ?s] =>
        pose proof (enqueueDraw_frame x y s) as (Hc & _ & _ & Hl & _);
        fold (exec (enqueueDraw x y) s); rewrite Hc, Hl; simpl; auto
    end.
Qed.
End Attended.

Lemma attended_onMouseDown ALLOWED_UNITS r viewer now e :
  preserves stroke_attended (onMouseDown_of r ALLOWED_UNITS viewer now e).
Proof.
  intros s Hs. unfold stroke_attended in *.
  destruct s as [[sd pd cs cp ic] rd tl lk pg nv ls li ps zr ob hc fl]. simpl in *.
  destruct r; simpl;
    unfold Handler.onMouseDown, Part000.onMouseDown, Part001.onMouseDown,
      Handler.voxelPoint, Part000.voxelPoint, containerCoords, sendScaleBarUpdate;
    run_monad;
    destruct ls as [last|]; simpl;
    split_calls; split_ifs;
    first [ exact Hs
          | right; split; [reflexivity|lia]
          | destruct Hs as [Hs|[_ Hs]]; [by left|right; by split] ].
Qed.

Lemma attended_step ALLOWED_UNITS r s ev :
  stroke_attended s -> stroke_attended (step_of r ALLOWED_UNITS s ev).
Proof.
  apply step_of_preserves;
    auto using attended_quiet, attended_onMouseDown, attended_onMove, attended_onUp,
      attended_onMessage.
  by repeat split.
Qed.

(** X7. After any sequence of events, in every revision: while a stroke is
    in progress the handler is capturing and an [onUp] listener is
    registered on [window], so that the next mouse-up appends the stroke to
    [strokeData] and ends the capture.  No stroke in progress is left
    without the listener that commits it. *)
Theorem stroke_in_progress_is_committed_by_next_mouseup
    (r : Revision) (ALLOWED_UNITS : list LengthUnit) (viewer : Viewer)
    (nav : option NavigationState) (evs : list Event) (st : BrushStroke) :
  let s := run_events (step_of r ALLOWED_UNITS)
             (setupDrawingToolMessageHandler ALLOWED_UNITS viewer nav) evs in
  let s' := step_of r ALLOWED_UNITS s ev_mouseup in
  currentStroke (capture s) = Some st ->
  isCapturing (capture s) = true
  /\ 0 < listeners s
  /\ strokeData (capture s') = strokeData (capture s) ++ [st]
  /\ currentStroke (capture s') = None
  /\ isCapturing (capture s') = false.
Proof.
  intros s s' Hst.
  assert (Hinv : stroke_attended s).
  { apply run_events_preserves; [intros; by apply attended_step|].
    apply (preserves_exec stroke_attended); [apply attended_quiet|]. by left. }
  destruct Hinv as [Hnone|[Hic Hl]]; [congruence|].
  destruct (mouseup_effect r ALLOWED_UNITS s Hl) as [Hc _].
  fold s' in Hc. rewrite Hc. unfold committed. rewrite Hst. by repeat split.
Qed.

(** ** The keyboard *)

Lemma portalShortcuts_is_Some k :
  is_Some (Parts.portalShortcuts !! k) <-> k = "s" \/ k = "d" \/ k = "k".
Proof.
  split.
  - intros [a Ha]. unfold Parts.portalShortcuts in Ha.
    apply lookup_insert_Some in Ha as [ [ <- _ ] | [_ Ha] ]; [auto|].
    apply lookup_insert_Some in Ha as [ [ <- _ ] | [_ Ha] ]; [auto|].
    apply lookup_singleton_Some in Ha as [ <- _ ]. auto.
  - intros [ -> | [ -> | -> ] ]; vm_compute; eauto.
Qed.

Lemma portalShortcuts_get_Some k :
  is_Some (Parts.portalShortcuts_get k)
  <-> (k = "s" \/ k = "d" \/ k = "k") \/ Parts.inherits k = true.
Proof.
  unfold Parts.portalShortcuts_get, Parts.inherits.
  pose proof (portalShortcuts_is_Some k) as Hown.
  destruct (Parts.portalShortcuts !! k) as [action|].
  - split; [intros _; left; apply Hown; by eexists|intros _; by eexists].
  - assert (Hno : ~ (k = "s" \/ k = "d" \/ k = "k")).
    { intros Hk. apply Hown in Hk as [? ?]. discriminate. }
    destruct (String.eqb k "__proto__"); cbn [orb];
      [split; [intros _; by right|intros _; by eexists]|].
    destruct (existsb (String.eqb k) Parts.Object_prototype_methods).
    + split; [intros _; by right|intros _; by eexists].
    + split; [intros [? ?]; discriminate|intros [?|?]; [done|discriminate]].
Qed.

(** An own property is no inherited one. *)
Lemma portalShortcuts_own_not_inherited k :
  k = "s" \/ k = "d" \/ k = "k" -> Parts.inherits k = false.
Proof. intros [ -> | [ -> | -> ] ]; reflexivity. Qed.

Lemma portalShortcuts_get_inherited k :
  Parts.inherits k = true ->
  Parts.portalShortcuts_get k
  = Some (if String.eqb k "__proto__" then Parts.inherited_prototype
          else Parts.inherited_method).
Proof.
  intros Hin. unfold Parts.portalShortcuts_get.
  pose proof (portalShortcuts_is_Some k) as Hown.
  destruct (Parts.portalShortcuts !! k) as [action|].
  - assert (Hk : k = "s" \/ k = "d" \/ k = "k") by (apply Hown; eauto).
    apply portalShortcuts_own_not_inherited in Hk. congruence.
  - unfold Parts.inherits in Hin. destruct (String.eqb k "__proto__"); [done|].
    cbn [orb] in Hin. by rewrite Hin.
Qed.

Lemma onKeyDown_effect r e s :
  r <> drawing_tool_handler_ts ->
  let ctrlOrCmd := ctrlKey e || metaKey e in
  let k := toLowerCase (key e) in
  let pluginId := default "" (activePluginId (plugin s)) in
  let active := truthy_opt (activePluginId (plugin s)) in
  let taken (posted : list ParentMessage) :=
    set_outbox (outbox s ++ posted) (set_flags (mkFlags true true true) s) in
  exec (onKeyDown_of r e) (begin_event s)
  = match (if ctrlOrCmd then Parts.portalShortcuts_get k else None) with
    | Some property => taken (portal_posted property)
    | None =>
        if has_undo_shortcut r && active && ctrlOrCmd && String.eqb k "z"
        then taken [plugin_shortcut
                      (if shiftKey e
                       then (if metaKey e then "cmd+shift+z" else "ctrl+shift+z")
                       else (if metaKey e then "cmd+z" else "ctrl+z")) pluginId]
        else if active && negb ctrlOrCmd && negb (altKey e)
                && bool_decide (k ∈ activePluginKeys (plugin s))
        then taken [plugin_shortcut k pluginId]
        else begin_event s
    end.
Proof.
  intros Hr. destruct r; [done| |]; simpl;
    unfold Part000.onKeyDown, Part001.onKeyDown, Parts.postPortalAction; run_monad;
    destruct (ctrlKey e || metaKey e); simpl;
    try (destruct (Parts.portalShortcuts_get (toLowerCase (key e))) as [[action| |]|]; simpl;
         rewrite ?app_nil_r; try done);
    destruct (truthy_opt (activePluginId (plugin s))); simpl; try done;
    try destruct (String.eqb (toLowerCase (key e)) "z"); simpl; try done;
    destruct (altKey e); simpl; try done;
    by destruct (bool_decide _).
Qed.

Lemma onKeyDown_cases r e s :
  r <> drawing_tool_handler_ts ->
  let s' := exec (onKeyDown_of r e) (begin_event s) in
  let taken := portal_key e \/ inherited_key e \/ undo_key r e s \/ plugin_key e s in
  (taken /\ exists posted,
              length posted <= 1
              /\ s' = set_outbox (outbox s ++ posted) (set_flags (mkFlags true true true) s))
  \/ (~ taken /\ s' = begin_event s).
Proof.
  intros Hr s'. subst s'. rewrite (onKeyDown_effect r e s Hr).
  unfold portal_key, inherited_key, undo_key, plugin_key.
  pose proof (portalShortcuts_get_Some (toLowerCase (key e))) as Hportal.
  destruct (ctrlKey e || metaKey e) eqn:Hctrl.
  - destruct (Parts.portalShortcuts_get (toLowerCase (key e))) as [property|] eqn:Hlook.
    { left. split.
      - destruct (proj1 Hportal) as [Hk|Hk]; [eauto|by left|by right; left].
      - exists (portal_posted property). split; [destruct property; simpl; lia|done]. }
    assert (Hk : ~ (toLowerCase (key e) = "s" \/ toLowerCase (key e) = "d"
                    \/ toLowerCase (key e) = "k")).
    { intros Hk. destruct (proj2 Hportal) as [? ?]; [by left|discriminate]. }
    assert (Hi : Parts.inherits (toLowerCase (key e)) <> true).
    { intros Hi. destruct (proj2 Hportal) as [? ?]; [by right|discriminate]. }
    apply orb_true_iff in Hctrl.
    assert (Hplain : ~ (ctrlKey e = false /\ metaKey e = false)).
    { intros [Hc Hm]. rewrite Hc, Hm in Hctrl. by destruct Hctrl. }
    destruct (has_undo_shortcut r) eqn:Hu, (truthy_opt (activePluginId (plugin s))) eqn:Ha,
      (String.eqb (toLowerCase (key e)) "z") eqn:Hz; simpl;
      try (apply String.eqb_eq in Hz);
      try (left; split; [right; right; left; by repeat split
                        |eexists; split; [|reflexivity]; simpl; lia]; fail);
      right; (split; [|done]);
      intros [[_ ?]|[[_ ?]|[(? & ? & _ & ?)|(_ & ? & ? & _)]]]; try done; try congruence;
      try (by apply Hplain);
      try (apply String.eqb_neq in Hz; done).
  - simpl. rewrite !andb_false_r. simpl. rewrite andb_true_r.
    apply orb_false_iff in Hctrl as [Hc Hm].
    destruct (truthy_opt (activePluginId (plugin s))) eqn:Ha, (altKey e) eqn:Hal,
      (bool_decide (toLowerCase (key e) ∈ activePluginKeys (plugin s))) eqn:Hin; simpl;
      try (apply bool_decide_eq_true in Hin);
      try (left; split; [right; right; right; by repeat split
                        |eexists; split; [|reflexivity]; simpl; lia]; fail);
      right; (split; [|done]);
      intros [[? _]|[[? _]|[(_ & _ & ? & _)|(? & _ & _ & ? & ?)]]]; try done;
      try (apply bool_decide_eq_false in Hin; done).
Qed.

(** A portal shortcut is taken in either letter case. *)
Lemma portal_key_either_case e :
  ctrlKey e || metaKey e = true ->
  key e ∈ ["s"; "S"; "d"; "D"; "k"; "K"] ->
  portal_key e.
Proof.
  intros Hctrl Hin. split; [done|].
  repeat (apply elem_of_cons in Hin as [ -> |Hin];
          [rewrite toLowerCase_ascii by reflexivity; vm_compute; auto|]).
  by apply elem_of_nil in Hin.
Qed.

(** X8. The [keydown] listener on [document] of [part_000] and [part_001]
    intercepts a key in four cases and in no other: Ctrl or Cmd with "s",
    "d" or "k"; Ctrl or Cmd with a key whose lower-cased form names a
    property that the object literal [portalShortcuts] inherits from
    [Object.prototype]; in [part_001], Ctrl or Cmd with "z" while a plugin
    is active; a key without Ctrl, Cmd and Alt that the active plugin
    registered.  In every other case the state is as the event found it.
    For an inherited property the listener posts a "portal_action" with an
    empty object when the name is "__proto__", and posts nothing otherwise
    ([postMessage] throws on a function).  In every case at most one message
    is posted, and the capture, the tool settings, the plugin bindings and
    the locked view are as before. *)
Theorem keydown_is_taken_in_four_cases_only
    (r : Revision) (e : KeyboardEvent) (s : State) :
  r <> drawing_tool_handler_ts ->
  let s' := exec (onKeyDown_of r e) (begin_event s) in
  let taken := portal_key e \/ inherited_key e \/ undo_key r e s \/ plugin_key e s in
  (key_intercepted s' <-> taken)
  /\ (~ taken -> s' = begin_event s)
  /\ (inherited_key e ->
      outbox s'
      = outbox s ++ (if String.eqb (toLowerCase (key e)) "__proto__"
                     then [portal_action action_empty_object] else []))
  /\ (exists posted, outbox s' = outbox s ++ posted /\ length posted <= 1)
  /\ capture s' = capture s /\ tool s' = tool s /\ plugin s' = plugin s
  /\ locked s' = locked s.
Proof.
  intros Hr s' taken. subst s' taken.
  assert (Hinherited :
    inherited_key e ->
    outbox (exec (onKeyDown_of r e) (begin_event s))
    = outbox s ++ (if String.eqb (toLowerCase (key e)) "__proto__"
                   then [portal_action action_empty_object] else [])).
  { intros [Hctrl Hin]. rewrite (onKeyDown_effect r e s Hr), Hctrl.
    rewrite (portalShortcuts_get_inherited _ Hin).
    by destruct (String.eqb (toLowerCase (key e)) "__proto__"). }
  destruct (onKeyDown_cases r e s Hr) as [[Htaken (posted & Hlen & Heq)]|[Hno Heq]];
    rewrite Heq in *.
  - split; [by split|]. split; [done|]. split; [done|]. split; [|done].
    exists posted. by split.
  - split; [split; [intros [? _]; discriminate|done]|]. split; [done|].
    split; [done|]. split; [|done].
    exists []. split; [by rewrite app_nil_r|simpl; lia].
Qed.

(** X9. In [part_001], while a plugin is active, Ctrl or Cmd with "z" is
    intercepted and forwarded as a "plugin_shortcut" message whose shortcut
    is "ctrl" or "cmd" (Cmd wins when both are held), then "+shift" when
    Shift is held, then "+z".  [part_000] leaves the same event alone. *)
Theorem undo_redo_keys_go_to_the_active_plugin
    (e : KeyboardEvent) (s : State) (pluginId : string) :
  activePluginId (plugin s) = Some pluginId ->
  truthy_string pluginId = true ->
  ctrlKey e || metaKey e = true ->
  toLowerCase (key e) = "z" ->
  let s' := exec (Part001.onKeyDown e) (begin_event s) in
  let combination :=
    (if metaKey e then "cmd" else "ctrl") +:+ (if shiftKey e then "+shift" else "") +:+ "+z" in
  key_intercepted s'
  /\ outbox s' = outbox s ++ [plugin_shortcut combination pluginId]
  /\ exec (Part000.onKeyDown e) (begin_event s) = begin_event s.
Proof.
  intros Hid Hact Hctrl Hz s' combination. subst s' combination.
  assert (H1 : part_001 <> drawing_tool_handler_ts) by discriminate.
  assert (H0 : part_000 <> drawing_tool_handler_ts) by discriminate.
  pose proof (onKeyDown_effect part_001 e s H1) as E1.
  pose proof (onKeyDown_effect part_000 e s H0) as E0.
  simpl in E1, E0. rewrite E1, E0. clear E1 E0.
  rewrite Hctrl, Hz, Hid.
  change (Parts.portalShortcuts_get "z") with (@None Parts.Property).
  simpl. rewrite Hact. simpl.
  repeat split. by destruct (shiftKey e), (metaKey e).
Qed.

Lemma plugin_keys_registered shortcuts k :
  k ∈ (list_to_set (toLowerCase <$> shortcuts) : gset string)
  <-> exists shortcut, shortcut ∈ shortcuts /\ toLowerCase shortcut = k.
Proof.
  rewrite elem_of_list_to_set, list_elem_of_fmap. split; intros (x & ? & ?); eauto.
Qed.

(** X10. Plugin bindings, in [part_000] and [part_001].  After
    "plugin_activated" with an id and a list of shortcuts, a key without
    Ctrl, Cmd and Alt is intercepted and forwarded with that id exactly
    when the id is not empty and the lower-cased key is the lower-cased
    form of one of the shortcuts; after "plugin_deactivated" no plugin is
    active, no key is registered, and the same key is left alone. *)
Theorem plugin_bindings_round_trip
    (r : Revision) (ALLOWED_UNITS : list LengthUnit) (viewer : Viewer) (s : State)
    (pluginId : string) (shortcuts : list string) (e : KeyboardEvent) :
  r <> drawing_tool_handler_ts ->
  ctrlKey e = false -> metaKey e = false -> altKey e = false ->
  let s1 := exec (onMessage_of r ALLOWED_UNITS viewer
                    (msg_plugin_activated pluginId shortcuts)) s in
  let s2 := exec (onMessage_of r ALLOWED_UNITS viewer msg_plugin_deactivated) s1 in
  let registered :=
    truthy_string pluginId = true
    /\ exists shortcut, shortcut ∈ shortcuts /\ toLowerCase shortcut = toLowerCase (key e) in
  (registered ->
   exec (onKeyDown_of r e) (begin_event s1)
   = set_outbox (outbox s1 ++ [plugin_shortcut (toLowerCase (key e)) pluginId])
       (set_flags (mkFlags true true true) s1))
  /\ (~ registered -> exec (onKeyDown_of r e) (begin_event s1) = begin_event s1)
  /\ plugin s2 = mkPlugin None ∅
  /\ exec (onKeyDown_of r e) (begin_event s2) = begin_event s2.
Proof.
  intros Hr Hc Hm Ha s1 s2 registered.
  assert (Hp1 : plugin s1 = mkPlugin (Some pluginId) (list_to_set (toLowerCase <$> shortcuts)))
    by (by destruct r).
  assert (Hp2 : plugin s2 = mkPlugin None ∅) by (by destruct r).
  rewrite !(onKeyDown_effect r e _ Hr), Hp1, Hp2, Hc, Hm, Ha. simpl.
  rewrite !andb_false_r. simpl. rewrite andb_true_r.
  repeat split.
  - intros [Hid Hreg]. rewrite Hid. simpl.
    by rewrite bool_decide_eq_true_2 by (by apply plugin_keys_registered).
  - intros Hno. destruct (truthy_string pluginId) eqn:Hid; simpl; [|done].
    rewrite bool_decide_eq_false_2; [done|].
    intros Hin. apply Hno. split; [done|]. by apply plugin_keys_registered.
Qed.

Lemma onLockedKeyDown_effect e s :
  exec (Part001.onLockedKeyDown e) s
  = if is_Some_b (lockedBBox (locked s))
       && existsb (String.eqb (key e)) Part001.navKeys
       && closest_data_panel (key_target e)
    then set_flags (mkFlags true true (immediatePropagationStopped (flags s))) s
    else s.
Proof.
  unfold Part001.onLockedKeyDown.
  generalize (existsb (String.eqb (key e)) Part001.navKeys). intros isNavKey.
  run_monad.
  destruct (is_Some_b (lockedBBox (locked s))); simpl; [|done].
  destruct isNavKey; simpl; [|done].
  by destruct (closest_data_panel (key_target e)).
Qed.

(** X11. The [keydown] listener on the container of [part_001] takes a key
    away from the viewer exactly when a locked bounding box is set, the key
    is one of the four arrows, PageUp or PageDown, and the target lies in a
    rendered-data panel; otherwise the state is as the event found it.  It
    posts nothing and changes neither the capture, the tool settings, the
    locked view nor the navigation state. *)
Theorem locked_view_blocks_navigation_keys (e : KeyboardEvent) (s : State) :
  let s' := exec (Part001.onLockedKeyDown e) (begin_event s) in
  (event_consumed s'
   <-> is_Some (lockedBBox (locked s))
       /\ key e ∈ Part001.navKeys
       /\ closest_data_panel (key_target e) = true)
  /\ (~ event_consumed s' -> s' = begin_event s)
  /\ outbox s' = outbox s /\ capture s' = capture s /\ tool s' = tool s
  /\ locked s' = locked s /\ navigationState s' = navigationState s.
Proof.
  intros s'. subst s'. rewrite onLockedKeyDown_effect.
  change (locked (begin_event s)) with (locked s).
  assert (Hnav : existsb (String.eqb (key e)) Part001.navKeys = true
                 <-> key e ∈ Part001.navKeys).
  { rewrite existsb_exists. split.
    - intros (k & Hin & Heq). apply String.eqb_eq in Heq. subst k.
      by apply list_elem_of_In.
    - intros Hin. exists (key e). split; [by apply list_elem_of_In|apply String.eqb_refl]. }
  unfold event_consumed.
  destruct (existsb (String.eqb (key e)) Part001.navKeys) eqn:Hk.
  - assert (Hin : key e ∈ Part001.navKeys) by (by apply Hnav).
    destruct (lockedBBox (locked s)) as [b|] eqn:Hb,
      (closest_data_panel (key_target e)) eqn:Hp; cbn [is_Some_b andb];
      (split; [split|(split; [first [done | intros Hno; exfalso; apply Hno; by split] | by repeat split])]).
    + intros _. repeat split; eauto.
    + by intros _.
    + intros [? _]. discriminate.
    + by intros (_ & _ & ?).
    + intros [? _]. discriminate.
    + intros ([? ?] & _). discriminate.
    + intros [? _]. discriminate.
    + intros ([? ?] & _). discriminate.
  - rewrite andb_false_r. cbn [andb].
    split; [split|(split; [first [done | intros Hno; exfalso; apply Hno; by split] | by repeat split])].
    + intros [? _]. discriminate.
    + intros (_ & Hin & _). apply Hnav in Hin. discriminate.
Qed.

(** ** What the parent window is told *)

Ltac reported_tac :=
  cbv beta in *; unfold strokes_reported, completed_strokes in *; simpl in *;
  rewrite ?omap_app; simpl; rewrite ?app_nil_r;
  first [ done | apply suffix_nil | by apply suffix_app ].

Section Reported.
Context (ALLOWED_UNITS : list LengthUnit).

Lemma reported_quiet : quiet_handlers_preserve ALLOWED_UNITS strokes_reported.
Proof.
  repeat split; intros;
    unfold Handler.drawStep, Parts.drawStep, Handler.onSnapshotLoaded,
      Part000.onSnapshotLoaded, Part001.onSnapshotLoaded, Part000.onKeyDown,
      Part001.onKeyDown, Part001.onLockedMouseDown, Part001.onLockedKeyDown,
      Parts.onZoomChanged, Parts.onZoomFrame;
    pres_auto reported_tac.
Qed.

Lemma reported_onMouseDown viewer now e :
  preserves strokes_reported (Part001.onMouseDown ALLOWED_UNITS viewer now e).
Proof. unfold Part001.onMouseDown; pres_auto reported_tac. Qed.

Lemma reported_onMove viewer e : preserves strokes_reported (Part001.onMove viewer e).
Proof. unfold Part001.onMove, Parts.onMove; pres_auto reported_tac. Qed.

Lemma reported_onUp : preserves strokes_reported Part001.onUp.
Proof.
  intros s Hs. destruct (onUp_effect part_001 s) as (Hc & Ho & _).
  unfold strokes_reported, completed_strokes in *. simpl in Hc, Ho.
  fold (exec Part001.onUp s). rewrite Hc, Ho. unfold committed, stroke_messages,
    prompt_messages. simpl. rewrite !omap_app.
  destruct (currentStroke (capture s)), (currentPrompt (capture s)); simpl;
    rewrite ?app_nil_r; try done; by apply suffix_app.
Qed.

Lemma reported_onMessage viewer m :
  preserves strokes_reported (Part001.onMessage ALLOWED_UNITS viewer m).
Proof. unfold Part001.onMessage; pres_auto reported_tac. Qed.

Lemma reported_step s ev :
  strokes_reported s -> strokes_reported (step_of part_001 ALLOWED_UNITS s ev).
Proof.
  apply step_of_preserves;
    auto using reported_quiet, reported_onMouseDown, reported_onMove, reported_onUp.
  - by repeat split.
  - intros viewer m. apply reported_onMessage.
Qed.
End Reported.

(** X12. In [part_001], after any sequence of events, [strokeData] is a
    suffix of the strokes sent in "drawing_stroke_complete" messages, in the
    order they were sent: the handler keeps no stroke the parent window was
    not told about, and the strokes it no longer keeps are the oldest. *)
Theorem strokeData_holds_the_strokes_reported_last
    (ALLOWED_UNITS : list LengthUnit) (viewer : Viewer)
    (nav : option NavigationState) (evs : list Event) :
  let s := run_events (step_of part_001 ALLOWED_UNITS)
             (setupDrawingToolMessageHandler ALLOWED_UNITS viewer nav) evs in
  exists earlier, completed_strokes s = earlier ++ strokeData (capture s).
Proof.
  intros s. apply (run_events_preserves strokes_reported).
  - intros. by apply reported_step.
  - apply (preserves_exec strokes_reported); [apply reported_quiet|]. by exists [].
Qed.

Lemma portalShortcuts_actions k action :
  Parts.portalShortcuts_get k = Some (Parts.own_action action) ->
  action ∈ ["portal-save-scene"; "portal-download-roi"; "portal-show-cheatsheet"].
Proof.
  unfold Parts.portalShortcuts_get. intros H.
  destruct (Parts.portalShortcuts !! k) as [a|] eqn:Hlook.
  - injection H as ->.
    assert (Hk : is_Some (Parts.portalShortcuts !! k)) by eauto.
    apply portalShortcuts_is_Some in Hk as [ -> | [ -> | -> ] ];
      vm_compute in Hlook; injection Hlook as <-; set_solver.
  - destruct (String.eqb k "__proto__"); [discriminate|].
    destruct (existsb _ _); discriminate.
Qed.

Ltac wf_tac :=
  cbv beta in *; unfold outbox_well_formed in *; simpl in *;
  repeat match goal with
    | H : (if ?b then _ else _) = Some _ |- _ => destruct b; [|discriminate]
    | H : Parts.portalShortcuts_get _ = Some (Parts.own_action _) |- _ =>
        apply portalShortcuts_actions in H
    end;
  rewrite ?Forall_app, ?Forall_singleton; simpl; auto.

Section WellFormed.
Context (ALLOWED_UNITS : list LengthUnit).

Lemma wf_quiet : quiet_handlers_preserve ALLOWED_UNITS outbox_well_formed.
Proof.
  repeat split; intros;
    unfold Handler.drawStep, Parts.drawStep, Handler.onSnapshotLoaded,
      Part000.onSnapshotLoaded, Part001.onSnapshotLoaded, Part000.onKeyDown,
      Part001.onKeyDown, Part001.onLockedMouseDown, Part001.onLockedKeyDown,
      Parts.onZoomChanged, Parts.onZoomFrame;
    pres_auto wf_tac.
Qed.

Lemma wf_onMouseDown r viewer now e :
  preserves outbox_well_formed (onMouseDown_of r ALLOWED_UNITS viewer now e).
Proof.
  destruct r; simpl;
    unfold Handler.onMouseDown, Part000.onMouseDown, Part001.onMouseDown;
    pres_auto wf_tac.
Qed.

Lemma wf_onMove r viewer e : preserves outbox_well_formed (onMove_of r viewer e).
Proof.
  destruct r; simpl; unfold Handler.onMove, Part000.onMove, Part001.onMove, Parts.onMove;
    pres_auto wf_tac.
Qed.

Lemma wf_onUp r : preserves outbox_well_formed (onUp_of r).
Proof.
  intros s Hs. destruct (onUp_effect r s) as (_ & Ho & _).
  unfold outbox_well_formed in *. fold (exec (onUp_of r) s). rewrite Ho.
  rewrite !Forall_app. split; [done|]. split.
  - unfold stroke_messages. destruct (currentStroke (capture s)); [|done].
    destruct r; repeat constructor; simpl.
    symmetry. apply Nat.ltb_lt. rewrite length_app. simpl. lia.
  - unfold prompt_messages. destruct (currentPrompt (capture s)); [|done].
    repeat constructor. simpl. intros H. by apply app_nil in H as [_ ?].
Qed.

Lemma wf_onMessage r viewer m :
  preserves outbox_well_formed (onMessage_of r ALLOWED_UNITS viewer m).
Proof.
  destruct r; simpl; unfold Handler.onMessage, Part000.onMessage, Part001.onMessage;
    pres_auto wf_tac.
Qed.

Lemma wf_step r s ev :
  outbox_well_formed s -> outbox_well_formed (step_of r ALLOWED_UNITS s ev).
Proof.
  apply step_of_preserves;
    auto using wf_quiet, wf_onMouseDown, wf_onMove, wf_onUp, wf_onMessage.
  by repeat split.
Qed.
End WellFormed.

(** X13. In every revision, after any sequence of events, every message in
    the outbox is well formed: a "prompt_complete" carries at least one
    prompt, an "annotation_state_update" has [canUndo] true exactly when
    its stroke count is positive and has [canRedo] false, and the action of
    a "portal_action" is one of the three portal actions or the empty
    object that the key "__proto__" looks up. *)
Theorem messages_to_the_parent_are_well_formed
    (r : Revision) (ALLOWED_UNITS : list LengthUnit) (viewer : Viewer)
    (nav : option NavigationState) (evs : list Event) :
  let s := run_events (step_of r ALLOWED_UNITS)
             (setupDrawingToolMessageHandler ALLOWED_UNITS viewer nav) evs in
  Forall well_formed (outbox s).
Proof.
  intros s. apply (run_events_preserves outbox_well_formed).
  - intros. by apply wf_step.
  - apply (preserves_exec outbox_well_formed); [apply wf_quiet|]. constructor.
Qed.

(** ** The pixel size of the brush *)

Lemma minPx_not_below_one (voxelSizes : option (list float)) v :
  (match voxelSizes with
   | Some vs => Math_max 1 (Math_round (Math_min vs / v))
   | None => 1%float
   end <? 1)%float = false.
Proof. destruct voxelSizes; [apply Math_max_not_below|reflexivity]. Qed.

(** X14. "drawing_size_change" in [part_000] and [part_001], when the size
    per pixel is computed without an exception: the physical size of the
    brush becomes the size of the message; when no truthy size per pixel is
    known the pixel size becomes that size too; when one is known (and the
    voxel sizes are computed without an exception) the pixel size is not
    below 1 and not below the size divided by the size per pixel.  Modes,
    colour, capture and outbox are as before. *)
Theorem drawing_size_change_keeps_brush_visible
    (ALLOWED_UNITS : list LengthUnit) (viewer : Viewer) (size : float) (s : State)
    (ppp : option float) :
  Parts.calculatePhysicalSizePerPixel ALLOWED_UNITS viewer = Done ppp ->
  let s' := exec (Parts.onDrawingSizeChange ALLOWED_UNITS viewer size) s in
  brushPhysicalSize (tool s') = size
  /\ (known_pixel_size ppp = None -> brushPixelSize (tool s') = size)
  /\ (forall v,
        known_pixel_size ppp = Some v ->
        (exists vs, Parts.calculatePhysicalSizePerVoxel ALLOWED_UNITS viewer = Done vs) ->
        (brushPixelSize (tool s') <? 1)%float = false
        /\ (brushPixelSize (tool s') <? size / v)%float = false)
  /\ activeMode (tool s') = activeMode (tool s)
  /\ promptMode (tool s') = promptMode (tool s)
  /\ strokeColor (tool s') = strokeColor (tool s)
  /\ capture s' = capture s /\ outbox s' = outbox s.
Proof.
  intros Hppp s'. subst s'. unfold Parts.onDrawingSizeChange, known_pixel_size.
  run_monad. rewrite Hppp. simpl.
  destruct ppp as [v|]; simpl; [|by repeat split].
  destruct (truthy_number v); simpl; [|by repeat split].
  destruct (Parts.calculatePhysicalSizePerVoxel ALLOWED_UNITS viewer) as [vs|err]; simpl.
  - split; [done|]. split; [done|]. split; [|done].
    intros v' [= <-] _. simpl. split.
    + apply Math_max_lower, minPx_not_below_one.
    + apply Math_max_not_below.
  - split; [done|]. split; [done|]. split; [|done].
    intros v' _ [vs ?]. discriminate.
Qed.

(** X15. [recalcPixelSize] of [part_000] and [part_001] settles: run again
    on its own result it changes nothing.  It leaves the pixel size of the
    brush as it was or sets it to a value that is not below 1, and changes
    neither the physical size, the modes, the capture nor the outbox. *)
Theorem recalcPixelSize_settles
    (ALLOWED_UNITS : list LengthUnit) (viewer : Viewer) (s : State) :
  let s' := exec (Parts.recalcPixelSize ALLOWED_UNITS viewer) s in
  exec (Parts.recalcPixelSize ALLOWED_UNITS viewer) s' = s'
  /\ (brushPixelSize (tool s') = brushPixelSize (tool s)
      \/ (brushPixelSize (tool s') <? 1)%float = false)
  /\ brushPhysicalSize (tool s') = brushPhysicalSize (tool s)
  /\ activeMode (tool s') = activeMode (tool s)
  /\ promptMode (tool s') = promptMode (tool s)
  /\ capture s' = capture s /\ outbox s' = outbox s.
Proof.
  intros s'. subst s'. unfold Parts.recalcPixelSize. run_monad.
  destruct (Parts.calculatePhysicalSizePerPixel ALLOWED_UNITS viewer) as [[v|]|err]; simpl;
    [|by repeat split; auto..].
  destruct (truthy_number v); simpl; [|by repeat split; auto].
  destruct (Parts.calculatePhysicalSizePerVoxel ALLOWED_UNITS viewer) as [vs|err]; simpl;
    [|by repeat split; auto].
  set (minPx := match vs with
                | Some l => Math_max 1 (Math_round (Math_min l / v))
                | None => 1%float
                end).
  set (next := Math_max minPx (Math_round (brushPhysicalSize (tool s) / v))).
  destruct (negb (next =? Math_round (brushPixelSize (tool s)))%float) eqn:Hne; simpl.
  - fold minPx. fold next.
    destruct (negb (next =? Math_round next)%float); simpl;
      (split; [done|]); (split; [|done]); right;
      apply Math_max_lower, minPx_not_below_one.
  - fold minPx. fold next. rewrite Hne. simpl. repeat split; auto.
Qed.

(** ** The scale bar *)

Lemma sendScaleBarUpdate_effect ALLOWED_UNITS viewer s :
  exec (sendScaleBarUpdate ALLOWED_UNITS viewer) s
  = match getScaleBarPhysicalLength ALLOWED_UNITS viewer with
    | Done (Some l) =>
        if strict_neq (Some l) (lastScaleBarLength s)
        then set_outbox (outbox s ++ [scale_bar_update l])
               (set_lastScaleBarLength (Some l) s)
        else s
    | _ => s
    end.
Proof.
  unfold sendScaleBarUpdate. run_monad.
  destruct (getScaleBarPhysicalLength ALLOWED_UNITS viewer) as [[l|]|]; simpl; try done.
  destruct (lastScaleBarLength s) as [last|]; simpl; [|done]. by destruct (l =? last)%float.
Qed.

Lemma sync_sendScaleBarUpdate ALLOWED_UNITS viewer :
  preserves scale_bar_in_sync (sendScaleBarUpdate ALLOWED_UNITS viewer).
Proof.
  intros s Hs. fold (exec (sendScaleBarUpdate ALLOWED_UNITS viewer) s).
  rewrite sendScaleBarUpdate_effect.
  destruct (getScaleBarPhysicalLength ALLOWED_UNITS viewer) as [[l|]|]; try done.
  destruct (strict_neq _ _); [|done].
  unfold scale_bar_in_sync, last_scale_bar_sent. simpl.
  rewrite omap_app. change (omap scale_bar_length [scale_bar_update l]) with [l].
  by rewrite last_snoc.
Qed.

Ltac sync_tac :=
  cbv beta in *; unfold scale_bar_in_sync, last_scale_bar_sent in *; simpl in *;
  rewrite ?omap_app; simpl; rewrite ?app_nil_r; auto.

Ltac sync_auto :=
  repeat first [ apply sync_sendScaleBarUpdate | pres_step | progress unfold_procs ];
  try solve [sync_tac].

Section Sync.
Context (ALLOWED_UNITS : list LengthUnit).

Lemma sync_quiet : quiet_handlers_preserve ALLOWED_UNITS scale_bar_in_sync.
Proof.
  repeat split; intros;
    unfold Handler.drawStep, Parts.drawStep, Handler.onSnapshotLoaded,
      Part000.onSnapshotLoaded, Part001.onSnapshotLoaded, Part000.onKeyDown,
      Part001.onKeyDown, Part001.onLockedMouseDown, Part001.onLockedKeyDown,
      Parts.onZoomChanged, Parts.onZoomFrame;
    sync_auto.
Qed.

Lemma sync_onMouseDown r viewer now e :
  preserves scale_bar_in_sync (onMouseDown_of r ALLOWED_UNITS viewer now e).
Proof.
  destruct r; simpl;
    unfold Handler.onMouseDown, Part000.onMouseDown, Part001.onMouseDown; sync_auto.
Qed.

Lemma sync_onMove r viewer e : preserves scale_bar_in_sync (onMove_of r viewer e).
Proof.
  destruct r; simpl; unfold Handler.onMove, Part000.onMove, Part001.onMove, Parts.onMove;
    sync_auto.
Qed.

Lemma sync_onUp r : preserves scale_bar_in_sync (onUp_of r).
Proof.
  destruct r; simpl;
    unfold Handler.onUp, Part000.onUp, Part001.onUp, Part000.commitStroke,
      Part001.commitStroke;
    sync_auto.
Qed.

Lemma sync_onMessage r viewer m :
  preserves scale_bar_in_sync (onMessage_of r ALLOWED_UNITS viewer m).
Proof.
  destruct r; simpl; unfold Handler.onMessage, Part000.onMessage, Part001.onMessage;
    sync_auto.
Qed.

Lemma sync_step r s ev :
  scale_bar_in_sync s -> scale_bar_in_sync (step_of r ALLOWED_UNITS s ev).
Proof.
  apply step_of_preserves;
    auto using sync_quiet, sync_onMouseDown, sync_onMove, sync_onUp, sync_onMessage.
  by repeat split.
Qed.
End Sync.

(** X16. In every revision, after any sequence of events, the cached
    [lastScaleBarLength] is the length of the last "scale_bar_update"
    message posted, and it is unset exactly when no such message was
    posted: the cache and the parent window never disagree. *)
Theorem parent_knows_the_cached_scale_bar_length
    (r : Revision) (ALLOWED_UNITS : list LengthUnit) (viewer : Viewer)
    (nav : option NavigationState) (evs : list Event) :
  let s := run_events (step_of r ALLOWED_UNITS)
             (setupDrawingToolMessageHandler ALLOWED_UNITS viewer nav) evs in
  lastScaleBarLength s = last_scale_bar_sent s.
Proof.
  intros s. apply (run_events_preserves scale_bar_in_sync).
  - intros. by apply sync_step.
  - by apply (preserves_exec scale_bar_in_sync); [apply sync_sendScaleBarUpdate|].
Qed.

(** X17. [sendScaleBarUpdate] either changes nothing, or the scale-bar
    length is known and differs ([!==]) from the cached one, and then it
    posts one "scale_bar_update" with that length and caches it.  When the
    length is not NaN, a second call right after posts nothing more. *)
Theorem sendScaleBarUpdate_posts_changes_only
    (ALLOWED_UNITS : list LengthUnit) (viewer : Viewer) (s : State) :
  let s' := exec (sendScaleBarUpdate ALLOWED_UNITS viewer) s in
  (s' = s
   \/ exists l,
        getScaleBarPhysicalLength ALLOWED_UNITS viewer = Done (Some l)
        /\ strict_neq (Some l) (lastScaleBarLength s) = true
        /\ outbox s' = outbox s ++ [scale_bar_update l]
        /\ lastScaleBarLength s' = Some l)
  /\ ((forall l, getScaleBarPhysicalLength ALLOWED_UNITS viewer = Done (Some l) ->
                 is_nan l = false) ->
      exec (sendScaleBarUpdate ALLOWED_UNITS viewer) s' = s').
Proof.
  intros s'. subst s'. rewrite !sendScaleBarUpdate_effect.
  destruct (getScaleBarPhysicalLength ALLOWED_UNITS viewer) as [[l|]|]; try (by split; auto).
  destruct (strict_neq (Some l) (lastScaleBarLength s)) eqn:Hne.
  - split; [right; by exists l|]. intros Hnan. simpl.
    specialize (Hnan l eq_refl). unfold is_nan in Hnan.
    apply negb_false_iff in Hnan. by rewrite Hnan.
  - split; [by left|]. intros _. by rewrite Hne.
Qed.

(** ** Appending points *)

Lemma SFeqb_refl_r a x : SFeqb a x = true -> SFeqb x x = true.
Proof. sf_order. Qed.

Lemma strict_neq_same_r a x : strict_neq a x = false -> strict_neq x x = false.
Proof.
  destruct a as [a|], x as [x|]; simpl; try done.
  rewrite !negb_false_iff, !FloatAxioms.eqb_spec. apply SFeqb_refl_r.
Qed.

Lemma differs_same_r l p : differs l p = false -> differs p p = false.
Proof.
  unfold differs. intros H.
  apply orb_false_iff in H as [H Hz]. apply orb_false_iff in H as [Hx Hy].
  by rewrite (strict_neq_same_r _ _ Hx), (strict_neq_same_r _ _ Hy),
    (strict_neq_same_r _ _ Hz).
Qed.

Lemma isFinite_same x : isFinite x = true -> strict_neq x x = false.
Proof.
  destruct x as [x|]; simpl; [|done]. unfold is_finite, is_nan.
  intros H. apply negb_true_iff, orb_false_iff in H as [H _].
  by rewrite H.
Qed.

(** X18. [pushUniquePoint] returns the array as it was or with the point
    appended at its end, and appends to an empty array always.  Pushing the
    same point twice has the effect of pushing it once, unless the point
    differs from itself (a coordinate is NaN): such a point is appended
    every time.  A valid point does not differ from itself. *)
Theorem pushUniquePoint_appends_a_point_once (arr : list StrokePoint) (p : StrokePoint) :
  (pushUniquePoint arr p = arr \/ pushUniquePoint arr p = arr ++ [p])
  /\ (arr = [] -> pushUniquePoint arr p = [p])
  /\ (differs p p = false ->
      pushUniquePoint (pushUniquePoint arr p) p = pushUniquePoint arr p)
  /\ (differs p p = true ->
      pushUniquePoint arr p = arr ++ [p]
      /\ pushUniquePoint (pushUniquePoint arr p) p = arr ++ [p; p])
  /\ (isValidPoint p = true -> differs p p = false).
Proof.
  split; [|split; [|split; [|split]]].
  - destruct (pushUniquePoint_cases arr p) as [->|[-> _]]; auto.
  - by intros ->.
  - intros Hsame. unfold pushUniquePoint at 1.
    destruct (pushUniquePoint_cases arr p) as [Heq|[Heq _]].
    + rewrite Heq. unfold pushUniquePoint in Heq.
      destruct (last arr) as [l|] eqn:Hl.
      * destruct (differs l p) eqn:Hd; [|done].
        apply (f_equal length) in Heq. rewrite length_app in Heq. simpl in Heq. lia.
      * apply (f_equal length) in Heq. rewrite length_app in Heq. simpl in Heq. lia.
    + rewrite Heq, last_snoc, Hsame. done.
  - intros Hnan.
    assert (Hpush : forall l, pushUniquePoint l p = l ++ [p]).
    { intros l. unfold pushUniquePoint. destruct (last l) as [q|]; [|done].
      destruct (differs q p) eqn:Hd; [done|].
      apply differs_same_r in Hd. congruence. }
    rewrite !Hpush. split; [done|]. by rewrite <- app_assoc.
  - unfold isValidPoint, differs. intros H.
    apply andb_true_iff in H as [H Hz]. apply andb_true_iff in H as [Hx Hy].
    by rewrite (isFinite_same _ Hx), (isFinite_same _ Hy), (isFinite_same _ Hz).
Qed.

(** X19. [onMove], in every revision, changes nothing while no capture is
    running or while there is neither a stroke nor a prompt in progress.
    In [part_000] and [part_001] a move whose target is outside the
    rendered-data panels, or whose position is outside the data bounds,
    records nothing: capture, listeners, outbox, tool settings and canvas
    are as before, and during a capture the pending draw is cancelled. *)
Theorem mouse_move_outside_the_data_records_nothing
    (r : Revision) (viewer : Viewer) (e : MouseEvent) (s : State) :
  let s' := exec (onMove_of r viewer e) s in
  (isCapturing (capture s) = false
   \/ (currentStroke (capture s) = None /\ currentPrompt (capture s) = None) ->
   s' = s)
  /\ (has_data_guards r = true ->
      isOnDataPanel e = false \/ isInDataBounds viewer = false ->
      capture s' = capture s /\ listeners s' = listeners s
      /\ outbox s' = outbox s /\ tool s' = tool s
      /\ canvas (render s') = canvas (render s)
      /\ (isCapturing (capture s) = true ->
          is_Some (currentStroke (capture s)) \/ is_Some (currentPrompt (capture s)) ->
          pendingXY (render s') = None /\ rafId (render s') = false)).
Proof.
  intros s'. subst s'.
  destruct s as [[sd pd cs cp ic] rd tl lk pg nv ls li ps zr ob hc fl]. simpl.
  split.
  - intros Hidle.
    destruct r; simpl;
      unfold Handler.onMove, Part000.onMove, Part001.onMove, Parts.onMove; run_monad;
      (destruct ic; simpl; [|done]);
      destruct Hidle as [?|[-> ->]]; done.
  - intros Hg Hout.
    assert (Hskip : negb (isOnDataPanel e) || negb (isInDataBounds viewer) = true).
    { destruct Hout as [-> | ->]; [done|apply orb_true_r]. }
    destruct r; [done| |]; simpl;
      unfold Part000.onMove, Part001.onMove, Parts.onMove; run_monad;
      rewrite Hskip;
      destruct ic, cs as [st|], cp as [pr|]; simpl;
      (split; [done|]); (split; [done|]); (split; [done|]); (split; [done|]);
      (split; [done|]); try done;
      intros _ [[? ?]|[? ?]]; discriminate.
Qed.

(** ** Voxel sizes *)

Lemma convert_scales_from ALLOWED_UNITS scales units i0 :
  match convert_scales ALLOWED_UNITS scales units i0 with
  | Done cs =>
      length cs = length scales
      /\ forall i v, scales !! i = Some v ->
           exists c, cs !! i = Some c
                     /\ convertLength ALLOWED_UNITS v (scale_unit units (i0 + i)) "µm" = Done c
  | Throw err =>
      exists i v, scales !! i = Some v
                  /\ convertLength ALLOWED_UNITS v (scale_unit units (i0 + i)) "µm" = Throw err
                  /\ forall j w, j < i -> scales !! j = Some w ->
                       exists c, convertLength ALLOWED_UNITS w (scale_unit units (i0 + j)) "µm"
                                 = Done c
  end.
Proof.
  revert i0. induction scales as [|v scales IH]; intros i0; simpl.
  - split; [done|]. intros i v Hi. by rewrite lookup_nil in Hi.
  - fold (scale_unit units i0).
    destruct (convertLength ALLOWED_UNITS v (scale_unit units i0) "µm") as [c|err] eqn:Hc.
    + specialize (IH (S i0)).
      destruct (convert_scales ALLOWED_UNITS scales units (S i0)) as [cs|err].
      * destruct IH as [Hlen Hall]. split; [simpl; by rewrite Hlen|].
        intros [|i] w Hi; simpl in *.
        -- injection Hi as <-. exists c. by rewrite Nat.add_0_r.
        -- destruct (Hall i w Hi) as (c' & ? & Hconv). exists c'. split; [done|].
           by replace (i0 + S i) with (S i0 + i) by lia.
      * destruct IH as (i & w & Hi & Hconv & Hbefore). exists (S i), w.
        split; [done|]. split; [by replace (i0 + S i) with (S i0 + i) by lia|].
        intros [|j] u Hj Hu; simpl in *.
        -- injection Hu as <-. exists c. by rewrite Nat.add_0_r.
        -- destruct (Hbefore j u ltac:(lia) Hu) as [c' Hc']. exists c'.
           by replace (i0 + S j) with (S i0 + j) by lia.
    + exists 0, v. split; [done|]. split; [by rewrite Nat.add_0_r|]. intros j w Hj. lia.
Qed.

(** X20. The conversion of the display scales to micrometres inside
    [calculatePhysicalSizePerVoxel]: when it returns, the result has one
    entry per scale, the entry at index [i] being [convertLength] of the
    scale from the unit at [i], or from "m" when there is none; when it
    throws, it throws what [convertLength] throws for one of the scales;
    and it returns whenever "µm" and the unit of every scale occur in
    [ALLOWED_UNITS]. *)
Theorem convert_scales_converts_every_scale
    (ALLOWED_UNITS : list LengthUnit) (scales : list float) (units : list string) :
  (forall cs,
     convert_scales ALLOWED_UNITS scales units 0 = Done cs ->
     length cs = length scales
     /\ forall i v, scales !! i = Some v ->
          exists c, cs !! i = Some c
                    /\ convertLength ALLOWED_UNITS v (scale_unit units i) "µm" = Done c)
  /\ (forall err,
        convert_scales ALLOWED_UNITS scales units 0 = Throw err ->
        exists i v, scales !! i = Some v
                    /\ convertLength ALLOWED_UNITS v (scale_unit units i) "µm" = Throw err)
  /\ (unit_occurs ALLOWED_UNITS "µm" ->
      (forall i, i < length scales -> unit_occurs ALLOWED_UNITS (scale_unit units i)) ->
      exists cs, convert_scales ALLOWED_UNITS scales units 0 = Done cs).
Proof.
  pose proof (convert_scales_from ALLOWED_UNITS scales units 0) as H.
  destruct (convert_scales ALLOWED_UNITS scales units 0) as [cs|err].
  - split; [by intros ? [= <-]|]. split; [done|eauto].
  - split; [done|]. destruct H as (i & v & Hi & Hconv & _). split.
    + intros ? [= <-]. eauto.
    + intros Hto Hfrom. exfalso.
      pose proof (lookup_lt_Some _ _ _ Hi) as Hlt. specialize (Hfrom i Hlt).
      simpl in Hconv. unfold convertLength in Hconv.
      destruct (find_unit ALLOWED_UNITS (scale_unit units i)) eqn:Ef;
        [|by apply find_unit_None in Ef].
      destruct (find_unit ALLOWED_UNITS "µm") eqn:Et; [discriminate|].
      by apply find_unit_None in Et.
Qed.

Lemma first_hit_bind {A B C} (f : B -> option C) (items : A -> list B) (l : list A) :
  first_hit (fun a => first_hit f (items a)) l = first_hit f (l ≫= items).
Proof.
  induction l as [|a l IH]; simpl; [done|].
  rewrite IH. clear IH. induction (items a) as [|b bs IHb]; simpl; [done|].
  by destruct (f b).
Qed.

Lemma first_hit_head {A B C} (f : A -> option C) (g : A -> option B) (h : B -> C)
    (l : list A) :
  (forall a, f a = h <$> g a) -> first_hit f l = h <$> head (omap g l).
Proof.
  intros Hf. induction l as [|a l IH]; simpl; [done|].
  rewrite Hf. by destruct (g a).
Qed.

Lemma first_hit_fmap {A B C} (f : B -> option C) (g : A -> B) (l : list A) :
  first_hit f (g <$> l) = first_hit (fun a => f (g a)) l.
Proof. induction l as [|a l IH]; simpl; [done|]. by destruct (f (g a)). Qed.

Lemma omap_pointwise {A B} (f g : A -> option B) (l : list A) :
  (forall a, f a = g a) -> omap f l = omap g l.
Proof.
  intros H. induction l as [|a l IH]; [done|].
  change (omap f (a :: l)) with (match f a with Some b => b :: omap f l | None => omap f l end).
  change (omap g (a :: l)) with (match g a with Some b => b :: omap g l | None => omap g l end).
  by rewrite H, IH.
Qed.

Lemma first_hit_ext {A B} (f g : A -> option B) (l : list A) :
  (forall a, f a = g a) -> first_hit f l = first_hit g l.
Proof. intros H. induction l as [|a l IH]; simpl; [done|]. by rewrite H, IH. Qed.

(** X21. [calculatePhysicalSizePerVoxel] of [part_000] and [part_001]
    measures one layer: over the visible layers of the slice-view panels in
    the order of the panels, the first layer of type "image" that has
    display scales and units, and when there is none, the first layer that
    has them.  Its result is the conversion of that layer's scales, [null]
    when no layer has scales and units or the viewer has no panels, and an
    exception exactly when that conversion throws. *)
Theorem voxel_sizes_come_from_the_preferred_layer
    (ALLOWED_UNITS : list LengthUnit) (viewer : Viewer) :
  Parts.calculatePhysicalSizePerVoxel ALLOWED_UNITS viewer
  = match panels viewer with
    | None => Done None
    | Some ps =>
        match measured_layer ps with
        | Some (scales, units) =>
            match convert_scales ALLOWED_UNITS scales units 0 with
            | Done sizes => Done (Some sizes)
            | Throw err => Throw err
            end
        | None => Done None
        end
    end.
Proof.
  unfold Parts.calculatePhysicalSizePerVoxel.
  destruct (panels viewer) as [ps|]; [|done].
  set (conv := fun d : list float * list string => convert_scales ALLOWED_UNITS d.1 d.2 0).
  assert (Hpass : forall filterType : option string,
    first_hit (fun panel =>
      match p_sliceView panel with
      | None => None
      | Some sv =>
          first_hit (fun managed =>
            if truthy_opt filterType
               && negb (bool_decide (userLayerType managed = filterType))
            then None
            else
              let info :=
                if visibleLayers_get sv then mjoin (visibleLayerInfo managed) else None in
              match info ≫= displayDimensionScales, info ≫= displayDimensionUnits with
              | Some scales, Some units => Some (convert_scales ALLOWED_UNITS scales units 0)
              | _, _ => None
              end) (default [] (visibleLayerList sv))
      end) ps
    = conv <$> head (omap (fun entry =>
                 if truthy_opt filterType
                    && negb (bool_decide (userLayerType entry.2 = filterType))
                 then None else layer_dimensions entry) (visible_layers ps))).
  { intros filterType.
    rewrite <- (first_hit_head
      (fun entry : SliceView * ManagedLayer =>
         if truthy_opt filterType && negb (bool_decide (userLayerType entry.2 = filterType))
         then None else conv <$> layer_dimensions entry)).
    2:{ intros a. by destruct (_ && _). }
    unfold visible_layers. rewrite <- first_hit_bind. apply first_hit_ext. intros panel.
    destruct (p_sliceView panel) as [sv|]; [|done].
    rewrite first_hit_fmap. apply first_hit_ext. intros managed.
    unfold layer_dimensions. simpl.
    destruct (_ && _); [done|].
    set (info := if visibleLayers_get sv then mjoin (visibleLayerInfo managed) else None).
    by destruct (info ≫= displayDimensionScales), (info ≫= displayDimensionUnits). }
  cbn [first_hit]. rewrite !Hpass. unfold measured_layer. cbn [truthy_opt andb].
  assert (Himg : forall entry : SliceView * ManagedLayer,
            negb (bool_decide (userLayerType entry.2 = Some "image"))
            = negb (opt_is (userLayerType entry.2) "image")).
  { intros [sv m]. simpl. destruct (userLayerType m) as [ty|]; simpl; [|done].
    destruct (String.eqb ty "image") eqn:Hty.
    - apply String.eqb_eq in Hty. subst. by rewrite bool_decide_eq_true_2.
    - apply String.eqb_neq in Hty. rewrite bool_decide_eq_false_2; [done|]. congruence. }
  rewrite (omap_pointwise _ (fun entry => if is_image_layer entry
                                           then layer_dimensions entry else None)).
  2:{ intros entry. rewrite Himg. unfold is_image_layer. simpl.
      by destruct (opt_is (userLayerType entry.2) "image"). }
  rewrite (omap_pointwise (fun entry => if false then None else layer_dimensions entry)
             layer_dimensions) by done.
  destruct (head (omap _ (visible_layers ps))) as [[sc un]|]; simpl.
  - unfold conv. simpl. by destruct (convert_scales _ _ _ _).
  - destruct (head (omap layer_dimensions (visible_layers ps))) as [[sc un]|]; simpl; [|done].
    unfold conv. simpl. by destruct (convert_scales _ _ _ _).
Qed.

(** ** The cursor of the drawing tool *)

Section DrawingToolProofs.
Context (numberToString : float -> string) (encodeURIComponent : string -> string).
Context (cursorParses : string -> bool).

Lemma url_cursor_truthy url x y fallback :
  truthy_string (DrawingTool.url_cursor url x y fallback) = true.
Proof. reflexivity. Qed.

Lemma cursor_of_truthy t :
  truthy_string (DrawingTool.cursor_of numberToString encodeURIComponent t) = true
  <-> has_cursor t.
Proof.
  unfold DrawingTool.cursor_of, has_cursor.
  destruct (activeMode t) as [mode|] eqn:Hm; simpl.
  - destruct (String.eqb mode "brush") eqn:Hb.
    { apply String.eqb_eq in Hb. subst. rewrite url_cursor_truthy. split; auto. }
    destruct (promptMode t) as [pm|] eqn:Hp; simpl.
    + destruct (String.eqb pm "point") eqn:H1;
        [apply String.eqb_eq in H1; subst; split; auto|].
      destruct (String.eqb pm "bbox") eqn:H2;
        [apply String.eqb_eq in H2; subst; split; auto|].
      destruct (String.eqb pm "scribble") eqn:H3;
        [apply String.eqb_eq in H3; subst; split; auto|].
      destruct (String.eqb pm "lasso") eqn:H4;
        [apply String.eqb_eq in H4; subst; split; auto 6|].
      apply String.eqb_neq in H1, H2, H3, H4.
      destruct (truthy_string mode); simpl; split; auto;
        intros [?|[?|[?|[?|?]]]]; congruence.
    + destruct (truthy_string mode); simpl; split; auto;
        intros [?|[?|[?|[?|?]]]]; congruence.
  - destruct (promptMode t) as [pm|] eqn:Hp; simpl.
    + destruct (String.eqb pm "point") eqn:H1;
        [apply String.eqb_eq in H1; subst; split; auto|].
      destruct (String.eqb pm "bbox") eqn:H2;
        [apply String.eqb_eq in H2; subst; split; auto|].
      destruct (String.eqb pm "scribble") eqn:H3;
        [apply String.eqb_eq in H3; subst; split; auto|].
      destruct (String.eqb pm "lasso") eqn:H4;
        [apply String.eqb_eq in H4; subst; split; auto 6|].
      apply String.eqb_neq in H1, H2, H3, H4.
      split; [discriminate|]. intros [?|[?|[?|[?|?]]]]; congruence.
    + split; [discriminate|]. intros [?|[?|[?|[?|?]]]]; congruence.
Qed.

Lemma truthy_string_eqb s : negb (String.eqb s EmptyString) = truthy_string s.
Proof. reflexivity. Qed.

Lemma applyMode_one_interval t v :
  one_interval v ->
  one_interval (DrawingTool.applyMode numberToString encodeURIComponent cursorParses t v).
Proof.
  unfold one_interval, DrawingTool.applyMode. rewrite truthy_string_eqb.
  destruct v as [cur tm nx run cc pcs]. simpl.
  destruct (truthy_string (DrawingTool.cursor_of numberToString encodeURIComponent t))
    eqn:Hc, (truthy_string cur) eqn:Hw; simpl;
    rewrite ?Hc; simpl; rewrite ?Hc; try done.
  - intros ->. exists nx. split; [done|]. apply (left_id_L ∅ (∪)).
  - intros (id & -> & ->). simpl. rewrite Hc. apply difference_diag_L.
Qed.

Lemma step_one_interval v st :
  one_interval v ->
  one_interval (DrawingTool.step numberToString encodeURIComponent cursorParses v st).
Proof.
  destruct st as [t|id|styles|]; simpl.
  - apply applyMode_one_interval.
  - by destruct (bool_decide _).
  - done.
  - unfold one_interval, DrawingTool.disposed. simpl.
    destruct (truthy_string (DrawingTool.currentCursor v)).
    + intros (id & -> & ->). apply difference_diag_L.
    + intros ->. destruct (DrawingTool.cursorTimer v); [|done].
      apply subseteq_empty_difference_L, empty_subseteq.
Qed.

(** X22. The cursor interval of [DrawingTool] in [drawing_tool.ts].  From
    the constructor on, through any sequence of calls of [applyMode],
    firings of the interval, replacements of the panels and a disposal: while
    a cursor is set, exactly one interval is running and [cursorTimer] is
    its id; while none is set, no interval is running.  No interval is
    leaked and none is started twice. *)
Theorem cursor_interval_runs_exactly_while_a_cursor_is_set
    (panels : nat) (steps : list DrawingTool.Step) :
  let v := foldl (DrawingTool.step numberToString encodeURIComponent cursorParses)
             (DrawingTool.applyMode numberToString encodeURIComponent cursorParses
                (tool (initial_state None)) (DrawingTool.constructed panels)) steps in
  (truthy_string (DrawingTool.currentCursor v) = true ->
   exists id, DrawingTool.cursorTimer v = Some id /\ DrawingTool.running v = {[id]})
  /\ (truthy_string (DrawingTool.currentCursor v) = false -> DrawingTool.running v = ∅)
  /\ size (DrawingTool.running v) <= 1.
Proof.
  intros v.
  assert (Hinv : one_interval v).
  { subst v. induction steps as [|st steps IH] using rev_ind.
    - apply applyMode_one_interval. reflexivity.
    - rewrite foldl_app. simpl. by apply step_one_interval. }
  unfold one_interval in Hinv.
  destruct (truthy_string (DrawingTool.currentCursor v)).
  - destruct Hinv as (id & Ht & Hr). split; [eauto|]. split; [done|].
    rewrite Hr, size_singleton. lia.
  - split; [done|]. split; [done|]. rewrite Hinv, size_empty. lia.
Qed.

(** X23. [applyMode] of [drawing_tool.ts] stores the cursor of the current
    settings and applies it at once.  The cursor is not empty exactly when
    the active mode is truthy or the prompt mode is one of "point", "bbox",
    "scribble" and "lasso".  In that case, when the cursor parses as a CSS
    cursor it becomes the [cursor] style of the container and of every
    rendered-data panel, and when it does not parse (a hotspot that is NaN
    or Infinity) the styles stay as they were; in the other case the style
    property is removed from the container and from every panel.  The
    panels are the same in number. *)
Theorem applyMode_sets_the_cursor_of_the_mode (t : Tool) (v : DrawingTool.View) :
  let v' := DrawingTool.applyMode numberToString encodeURIComponent cursorParses t v in
  let cursor := DrawingTool.cursor_of numberToString encodeURIComponent t in
  DrawingTool.currentCursor v' = cursor
  /\ length (DrawingTool.panelCursors v') = length (DrawingTool.panelCursors v)
  /\ (has_cursor t <-> cursor <> EmptyString)
  /\ (has_cursor t -> cursorParses cursor = true ->
      DrawingTool.containerCursor v' = Some cursor
      /\ Forall (fun style => style = Some cursor) (DrawingTool.panelCursors v'))
  /\ (has_cursor t -> cursorParses cursor = false ->
      DrawingTool.containerCursor v' = DrawingTool.containerCursor v
      /\ DrawingTool.panelCursors v' = DrawingTool.panelCursors v)
  /\ (~ has_cursor t ->
      DrawingTool.containerCursor v' = None
      /\ Forall (fun style => style = None) (DrawingTool.panelCursors v')).
Proof.
  intros v' cursor.
  pose proof (cursor_of_truthy t) as Htruthy. fold cursor in Htruthy.
  set (apply := fun style : option string =>
                  if truthy_string cursor then setProperty cursorParses cursor style
                  else None).
  assert (Hshape : DrawingTool.currentCursor v' = cursor
                   /\ DrawingTool.containerCursor v' = apply (DrawingTool.containerCursor v)
                   /\ DrawingTool.panelCursors v' = apply <$> DrawingTool.panelCursors v).
  { subst v' apply. unfold DrawingTool.applyMode. fold cursor. rewrite truthy_string_eqb.
    destruct (truthy_string cursor) eqn:Hc, (truthy_string (DrawingTool.currentCursor v));
      simpl; rewrite ?Hc; try done.
    destruct (DrawingTool.cursorTimer v); simpl; by rewrite ?Hc. }
  destruct Hshape as (Hcur & Hcont & Hpan).
  assert (Hempty : truthy_string cursor = true <-> cursor <> EmptyString).
  { unfold truthy_string. rewrite negb_true_iff. apply String.eqb_neq. }
  split; [done|]. split; [by rewrite Hpan, length_fmap|].
  split; [by rewrite <- Hempty, Htruthy|].
  subst apply. unfold setProperty in *. split; [|split].
  - intros Hhas Hparses. pose proof Hhas as Hc. apply Htruthy in Hc.
    assert (Hne : String.eqb cursor EmptyString = false)
      by (apply String.eqb_neq, Hempty, Hc).
    rewrite Hc, Hne, Hparses in *. split; [done|].
    rewrite Hpan. apply Forall_fmap, Forall_true. done.
  - intros Hhas Hparses. pose proof Hhas as Hc. apply Htruthy in Hc.
    assert (Hne : String.eqb cursor EmptyString = false)
      by (apply String.eqb_neq, Hempty, Hc).
    rewrite Hc, Hne, Hparses in *. split; [done|].
    rewrite Hpan. by rewrite list_fmap_id.
  - intros Hno.
    assert (Hc : truthy_string cursor = false).
    { destruct (truthy_string cursor) eqn:Hc; [|done]. exfalso. by apply Hno, Htruthy. }
    rewrite Hc in *. split; [done|]. rewrite Hpan. apply Forall_fmap, Forall_true. done.
Qed.

Lemma Part002_cursor_cases t :
  let cursor := Part002.cursor_of numberToString encodeURIComponent t in
  (has_cursor t /\ cursor <> "grab" /\ cursor <> EmptyString)
  \/ (~ has_cursor t /\ cursor = "grab").
Proof.
  unfold Part002.cursor_of, has_cursor.
  destruct (activeMode t) as [mode|], (promptMode t) as [pm|]; simpl;
    repeat match goal with
      | |- context [String.eqb ?a ?b] =>
          let H := fresh "H" in
          destruct (String.eqb a b) eqn:H;
          [apply String.eqb_eq in H; subst|apply String.eqb_neq in H]
      | |- context [truthy_string ?a] =>
          let H := fresh "H" in destruct (truthy_string a) eqn:H
      end;
    first [ left; split;
            [first [ by left | by right; left | by right; right; left
                   | by right; right; right; left | by right; right; right; right ]
            |split; discriminate]
          | right; split; [intros [?|[?|[?|[?|?]]]]; congruence|reflexivity] ].
Qed.

(** X24. The cursor [applyMode] of [part_002] passes to [setProperty] is
    never empty, and it is "grab" exactly when no drawing mode is active and
    the prompt mode is none of "point", "bbox", "scribble" and "lasso".
    When it parses as a CSS cursor it becomes the [cursor] style of the
    container and of the canvas; when it does not parse (a hotspot that is
    NaN or Infinity) both styles stay as they were. *)
Theorem part_002_cursor_is_grab_exactly_when_idle (t : Tool) (v : Part002.View) :
  let cursor := Part002.cursor_of numberToString encodeURIComponent t in
  let v' := Part002.applyMode numberToString encodeURIComponent cursorParses t v in
  cursor <> EmptyString
  /\ (cursor = "grab" <-> ~ has_cursor t)
  /\ (cursorParses cursor = true ->
      Part002.containerCursor v' = Some cursor /\ Part002.canvasCursor v' = Some cursor)
  /\ (cursorParses cursor = false -> v' = v).
Proof.
  intros cursor v'.
  assert (Hne : cursor <> EmptyString /\ (cursor = "grab" <-> ~ has_cursor t)).
  { subst cursor.
    destruct (Part002_cursor_cases t) as [(Hhas & Hng & Hne)|[Hno Hg]]; simpl in *.
    - split; [done|]. split; [done|]. intros Hno. by exfalso.
    - split; [by rewrite Hg|]. split; done. }
  destruct Hne as [Hne Hgrab]. split; [done|]. split; [done|].
  subst v'. unfold Part002.applyMode, setProperty. fold cursor.
  apply String.eqb_neq in Hne. rewrite Hne.
  split; intros ->; [done|by destruct v].
Qed.
End DrawingToolProofs.

End Properties.

(** * Concrete runs

    Every theorem that has a hypothesis is applied to sample data here, and
    the claims that fail as they were stated are shown to fail on a concrete
    run.  The runs are made of strings of ASCII characters, on which the
    built-in [toLowerCase] is [ascii_toLowerCase]. *)

#[local] Existing Instance ascii_builtins.

(** The mouse-down guard on the sample click over the sample viewer. *)
Ltac may_start_tac :=
  split; [reflexivity|]; split; [reflexivity|]; intros _; split; [reflexivity|];
  apply isInDataBounds_spec; reflexivity.

(** [C1_capture_starts_only_when_guarded] on a left click beside the data
    panels, in [part_001]. *)
Lemma C1_capture_starts_only_when_guarded_witness :
  exec (Part001.onMouseDown upstream_units in_bounds_viewer "t" (click 0 [side_bar; root]))
    brush_state = brush_state.
Proof.
  apply (proj1 (C1_capture_starts_only_when_guarded part_001 upstream_units
                  in_bounds_viewer "t" (click 0 [side_bar; root]) brush_state)).
  intros (_ & _ & H). destruct (H eq_refl) as [Hpanel _]. discriminate Hpanel.
Defined.

(** C1 as it was stated fails in [drawing_tool_handler.ts]: with the brush
    selected, a left click on the side bar, the mouse position outside the
    data bounds, starts a capture. *)
Lemma C1_counterexample :
  let e := click 0 [side_bar; root] in
  let s' := exec (Handler.onMouseDown upstream_units out_of_bounds_viewer "t" e)
              brush_state in
  isOnDataPanel e = false
  /\ isInDataBounds out_of_bounds_viewer = false
  /\ isCapturing (capture brush_state) = false
  /\ isCapturing (capture s') = true
  /\ (st_points <$> currentStroke (capture s'))
     = Some [mkPoint (Some 500%float) (Some 2%float) (Some 3%float)]
  /\ capture s' <> capture brush_state.
Proof. vm_compute. repeat split. discriminate. Qed.

(** [C2_recorded_points_are_mouse_positions] on a brush stroke drawn in
    [part_001] over a volume whose dimensions are named z, y, x. *)
Lemma C2_recorded_points_witness :
  exists viewer,
    viewer ∈ [permuted_viewer] /\ has_position viewer
    /\ mkPoint (Some 3%float) (Some 2%float) (Some 1%float) = voxelPoint_of part_001 viewer.
Proof.
  apply (proj2 (proj2 (proj2 C2_recorded_points_are_mouse_positions))
           part_001 upstream_units permuted_viewer sample_nav
           [ev_message permuted_viewer (msg_drawing_mode_change (Some "brush"));
            ev_mousedown permuted_viewer "t" (click 0 [data_panel; root])]
           [mkPoint (Some 3%float) (Some 2%float) (Some 1%float)]).
  - vm_compute. apply list_elem_of_here.
  - apply list_elem_of_here.
Defined.

(** C2 as it was stated fails in [drawing_tool_handler.ts]: over a volume
    whose dimensions are named z, y, x the brush stroke records the first
    three components (1, 2, 3), not the components at the dimensions named
    x, y, z, which are (3, 2, 1). *)
Lemma C2_counterexample :
  let s' := exec (Handler.onMouseDown upstream_units permuted_viewer "t"
                    (click 0 [data_panel; root])) brush_state in
  (st_points <$> currentStroke (capture s'))
  = Some [mkPoint (Some 1%float) (Some 2%float) (Some 3%float)]
  /\ named_or_first3 permuted_viewer
     = mkPoint (Some 3%float) (Some 2%float) (Some 1%float)
  /\ differs (mkPoint (Some 1%float) (Some 2%float) (Some 3%float))
       (named_or_first3 permuted_viewer) = true.
Proof. vm_compute. repeat split. Qed.


(** [C4_locked_view_blocks_navigation] on a right click in a locked slice
    view while the brush is selected. *)
Lemma C4_locked_view_blocks_navigation_witness :
  reaches_viewer
    (Part001_mousedown upstream_units in_bounds_viewer "t" (click 2 [data_panel; root])
       locked_brush_state) = false.
Proof.
  pose proof (C4_locked_view_blocks_navigation upstream_units in_bounds_viewer "t"
                (click 2 [data_panel; root]) locked_brush_state) as [_ H].
  destruct H as (_ & H & _).
  - by eexists.
  - reflexivity.
  - apply H; [reflexivity|by right].
Defined.

(** C4 as it was stated fails: while the view is locked and the brush is
    selected, a left press inside a slice-view panel with the mouse outside
    the data bounds is stopped by neither listener and goes on to the
    viewer; so does a press of a fourth button. *)
Lemma C4_counterexample :
  is_Some (lockedBBox (locked locked_brush_state))
  /\ mode_active locked_brush_state = true
  /\ Part001.isOnSliceViewPanel out_of_bounds_viewer [data_panel; root] = true
  /\ reaches_viewer
       (Part001_mousedown upstream_units out_of_bounds_viewer "t"
          (click 0 [data_panel; root]) locked_brush_state) = true
  /\ reaches_viewer
       (Part001_mousedown upstream_units in_bounds_viewer "t"
          (click 3 [data_panel; root]) locked_brush_state) = true.
Proof. split; [by eexists|]. vm_compute. by repeat split. Qed.

(** [C5_keyboard_shortcuts] on Ctrl+S and on a registered plugin key, in
    [part_001]. *)
Lemma C5_keyboard_shortcuts_witness :
  let s := exec (Parts.activatePluginBindings "segmenter" ["B"; "e"]) (initial_state None) in
  outbox (exec (Part001.onKeyDown (key_press "S" true false false)) (begin_event s))
  = [portal_action (action_name "portal-save-scene")]
  /\ key_intercepted (exec (Part001.onKeyDown (key_press "b" false false false))
                        (begin_event s)).
Proof.
  intros s.
  assert (Hr : part_001 <> drawing_tool_handler_ts) by discriminate.
  split.
  - apply (proj1 (C5_keyboard_shortcuts part_001 (key_press "S" true false false) s Hr));
      [reflexivity|]. apply list_elem_of_here.
  - apply (proj2 (C5_keyboard_shortcuts part_001 (key_press "b" false false false) s Hr));
      try reflexivity.
    split; [reflexivity|]. vm_compute. set_solver.
Defined.

(** [C6_locked_view_round_trip] on a view that is locked at (1, 2, 3) with
    zoom 2, then moved and zoomed by the user while a stroke is drawn, then
    reset. *)
Lemma C6_locked_view_round_trip_witness :
  let step := Part001_step upstream_units in
  let s1 := step brush_state (ev_message in_bounds_viewer (msg_view_locked (Some sample_bbox))) in
  let evs := [ev_navigate (Some [7; 8; 9]%float) (Some 5%float);
              ev_mousedown in_bounds_viewer "t" (click 0 [data_panel; root]);
              ev_mouseup] in
  nav_position_value (run_events step s1 evs) = Some [7; 8; 9]%float
  /\ nav_position_value
       (step (run_events step s1 evs) (ev_message in_bounds_viewer msg_reset_to_locked_view))
     = Some [1; 2; 3]%float
  /\ nav_zoom_value
       (step (run_events step s1 evs) (ev_message in_bounds_viewer msg_reset_to_locked_view))
     = Some 2%float.
Proof.
  intros step s1 evs. split; [reflexivity|].
  assert (Hevs : Forall (fun ev => is_lock_message ev = false) evs)
    by (repeat constructor).
  exact (proj2 (proj1 (C6_locked_view_round_trip upstream_units brush_state
                         in_bounds_viewer in_bounds_viewer evs Hevs)
                  (Some sample_bbox) [1; 2; 3]%float 2%float eq_refl eq_refl)).
Defined.

(** [C8_adjacent_duplicate_freedom] on a stroke that was built through the
    duplicate check. *)
Lemma C8_adjacent_duplicate_freedom_witness :
  no_adjacent_duplicates
    (pushUniquePoint [mkPoint (Some 1%float) (Some 2%float) (Some 3%float)]
       (mkPoint (Some 1%float) (Some 2%float) (Some 3%float))).
Proof.
  apply (proj1 C8_adjacent_duplicate_freedom).
  intros i a b Ha Hb. destruct i; simpl in Hb; discriminate.
Defined.

(** [C10_convertLength_outcome] at the upstream table: metres to metres. *)
Lemma C10_convertLength_witness :
  proper_lengths upstream_units
  /\ unit_occurs upstream_units "m"
  /\ convertLength upstream_units 2.5 "m" "m" = Done 2.5%float.
Proof.
  assert (Hp : proper_lengths upstream_units).
  { unfold proper_lengths, upstream_units. repeat constructor. }
  assert (Ho : unit_occurs upstream_units "m").
  { exists (mkUnit "m" 1e9). split; [|reflexivity].
    unfold upstream_units. apply list_elem_of_In. simpl. tauto. }
  split; [exact Hp|split; [exact Ho|]].
  exact (proj2 (proj2 (C10_convertLength_outcome upstream_units 2.5 "m" "m")) Hp Ho).
Defined.

(** [brush_gesture_commits_traced_stroke] on a stroke of two points drawn in
    [part_001]: a press at (1, 2, 3), a move to (4, 5, 6), a move outside
    the data, the release. *)
Lemma brush_gesture_witness :
  let s' := run_events (step_of part_001 upstream_units) brush_state
              [ev_mousedown in_bounds_viewer "t" (click 0 [data_panel; root]);
               ev_mousemove moved_viewer (click 0 [data_panel; root]);
               ev_mousemove out_of_bounds_viewer (click 0 [data_panel; root]);
               ev_mouseup] in
  st_points <$> strokeData (capture s')
  = [[mkPoint (Some 1%float) (Some 2%float) (Some 3%float);
      mkPoint (Some 4%float) (Some 5%float) (Some 6%float)]]
  /\ idle s'.
Proof.
  intros s'.
  destruct (Parts.calculatePhysicalSizePerVoxel upstream_units in_bounds_viewer)
    as [vs|err] eqn:Hvs; [|vm_compute in Hvs; discriminate Hvs].
  destruct (brush_gesture_commits_traced_stroke part_001 upstream_units brush_state
              in_bounds_viewer "t" (click 0 [data_panel; root])
              [(moved_viewer, click 0 [data_panel; root]);
               (out_of_bounds_viewer, click 0 [data_panel; root])] vs)
    as (Hsd & _ & _ & Hidle).
  - by repeat split.
  - reflexivity.
  - may_start_tac.
  - exact Hvs.
  - vm_compute. eauto.
  - split; [|exact Hidle].
    apply (f_equal (fmap st_points)) in Hsd. exact Hsd.
Defined.

(** [prompt_gesture_commits_traced_prompt] on a scribble of two points drawn
    in [part_000]. *)
Lemma prompt_gesture_witness :
  let s' := run_events (step_of part_000 upstream_units) scribble_state
              [ev_mousedown in_bounds_viewer "t" (click 0 [data_panel; root]);
               ev_mousemove moved_viewer (click 0 [data_panel; root]);
               ev_mouseup] in
  promptData (capture s')
  = [PromptScribble [mkPoint (Some 1%float) (Some 2%float) (Some 3%float);
                     mkPoint (Some 4%float) (Some 5%float) (Some 6%float)] "positive"]
  /\ last (outbox s') = Some (prompt_complete (promptData (capture s'))).
Proof.
  intros s'.
  destruct (prompt_gesture_commits_traced_prompt part_000 upstream_units scribble_state
              in_bounds_viewer "t" (click 0 [data_panel; root])
              [(moved_viewer, click 0 [data_panel; root])] "scribble"
              (PromptScribble [mkPoint (Some 1%float) (Some 2%float) (Some 3%float)]
                 "positive"))
    as (Hpd & _ & Hlast & _).
  - by repeat split.
  - reflexivity.
  - reflexivity.
  - reflexivity.
  - may_start_tac.
  - vm_compute. eauto.
  - vm_compute. eauto.
  - split; [exact Hpd|exact Hlast].
Defined.

(** [point_prompts_are_not_committed_by_the_mouse] on two clicks in point
    mode, in [part_001]: no prompt is committed. *)
Lemma point_prompts_witness :
  let s' := run_events (step_of part_001 upstream_units) point_state
              [ev_mousedown in_bounds_viewer "t" (click 0 [data_panel; root]);
               ev_mouseup;
               ev_mousedown moved_viewer "u" (click 0 [data_panel; root]);
               ev_mouseup] in
  promptData (capture s') = [] /\ listeners s' = 0.
Proof.
  intros s'.
  destruct (point_prompts_are_not_committed_by_the_mouse part_001 upstream_units point_state
              [ev_mousedown in_bounds_viewer "t" (click 0 [data_panel; root]);
               ev_mouseup;
               ev_mousedown moved_viewer "u" (click 0 [data_panel; root]);
               ev_mouseup])
    as (Hpd & _ & Hl & _).
  - by repeat split.
  - repeat constructor.
  - split; [exact Hpd|exact Hl].
Defined.

(** [mousedown_that_throws_begins_nothing] on a press over a layer with a
    dimension in seconds, in [part_001]: the conversion to micrometres
    throws. *)
Lemma mousedown_throws_witness :
  let s' := exec (Part001.onMouseDown upstream_units seconds_viewer "t"
                    (click 0 [data_panel; root])) (begin_event brush_state) in
  isCapturing (capture s') = true
  /\ currentStroke (capture s') = None
  /\ listeners s' = 0.
Proof.
  intros s'.
  destruct (Parts.calculatePhysicalSizePerVoxel upstream_units seconds_viewer)
    as [vs|err] eqn:Hvs; [vm_compute in Hvs; discriminate Hvs|].
  destruct (mousedown_that_throws_begins_nothing part_001 upstream_units seconds_viewer "t"
              (click 0 [data_panel; root]) brush_state err)
    as (_ & Hc & Hst & _ & _ & _ & Hl & _).
  - may_start_tac.
  - exact Hvs.
  - by repeat split.
Defined.

(** [recorded_points_lie_within_the_data] on the stroke begun by a press in
    [part_001]. *)
Lemma recorded_points_within_data_witness :
  exists viewer,
    viewer ∈ [in_bounds_viewer]
    /\ mkPoint (Some 1%float) (Some 2%float) (Some 3%float) = voxelPoint_of part_001 viewer
    /\ within_data_bounds viewer.
Proof.
  destruct (recorded_points_lie_within_the_data part_001 upstream_units in_bounds_viewer
              sample_nav
              [ev_message in_bounds_viewer (msg_drawing_mode_change (Some "brush"));
               ev_mousedown in_bounds_viewer "t" (click 0 [data_panel; root])]
              [mkPoint (Some 1%float) (Some 2%float) (Some 3%float)]
              (mkPoint (Some 1%float) (Some 2%float) (Some 3%float)))
    as (viewer & Hin & Hp & Hb & _).
  - vm_compute. apply list_elem_of_here.
  - apply list_elem_of_here.
  - exists viewer. split; [exact Hin|]. split; [exact Hp|]. by apply Hb.
Defined.

(** [stroke_in_progress_is_committed_by_next_mouseup] on a stroke begun in
    [drawing_tool_handler.ts]. *)
Lemma stroke_committed_by_mouseup_witness :
  let s := run_events (step_of drawing_tool_handler_ts upstream_units)
             (setupDrawingToolMessageHandler upstream_units in_bounds_viewer sample_nav)
             [ev_message in_bounds_viewer (msg_drawing_mode_change (Some "brush"));
              ev_mousedown in_bounds_viewer "t" (click 0 [data_panel; root])] in
  length (strokeData (capture (step_of drawing_tool_handler_ts upstream_units s ev_mouseup)))
  = 1.
Proof.
  intros s.
  assert (Hcur : exists st, currentStroke (capture s) = Some st) by (vm_compute; eauto).
  destruct Hcur as [st Hcur].
  destruct (stroke_in_progress_is_committed_by_next_mouseup drawing_tool_handler_ts
              upstream_units in_bounds_viewer sample_nav
              [ev_message in_bounds_viewer (msg_drawing_mode_change (Some "brush"));
               ev_mousedown in_bounds_viewer "t" (click 0 [data_panel; root])] st Hcur)
    as (_ & _ & Hsd & _).
  fold s in Hsd. rewrite Hsd. reflexivity.
Defined.

(** [keydown_is_taken_in_four_cases_only] on Ctrl+A in [part_000], which is
    no shortcut: the event is left alone. *)
Lemma keydown_cases_witness :
  exec (Part000.onKeyDown (key_press "a" true false false)) (begin_event plugin_state)
  = begin_event plugin_state.
Proof.
  assert (Hr : part_000 <> drawing_tool_handler_ts) by discriminate.
  apply (proj1 (proj2 (keydown_is_taken_in_four_cases_only part_000
                         (key_press "a" true false false) plugin_state Hr))).
  intros [(_ & [H|[H|H]])|[(_ & H)|[(H & _)|(_ & H & _)]]]; discriminate H.
Defined.

(** [undo_redo_keys_go_to_the_active_plugin] on Ctrl+Z while the plugin
    "segmenter" is active. *)
Lemma undo_redo_keys_witness :
  outbox (exec (Part001.onKeyDown (key_press "z" true false false))
            (begin_event plugin_state))
  = [plugin_shortcut "ctrl+z" "segmenter"].
Proof.
  apply (proj1 (proj2 (undo_redo_keys_go_to_the_active_plugin
                         (builtins := ascii_builtins)
                         (key_press "z" true false false) plugin_state "segmenter"
                         eq_refl eq_refl eq_refl eq_refl))).
Defined.

(** [plugin_bindings_round_trip] on the key "b" after a plugin registered
    "B". *)
Lemma plugin_bindings_witness :
  let s1 := exec (Part001.onMessage upstream_units in_bounds_viewer
                    (msg_plugin_activated "segmenter" ["B"; "e"])) (initial_state None) in
  outbox (exec (Part001.onKeyDown (key_press "b" false false false)) (begin_event s1))
  = [plugin_shortcut "b" "segmenter"].
Proof.
  intros s1.
  assert (Hr : part_001 <> drawing_tool_handler_ts) by discriminate.
  destruct (plugin_bindings_round_trip part_001 upstream_units in_bounds_viewer
              (initial_state None) "segmenter" ["B"; "e"] (key_press "b" false false false)
              Hr eq_refl eq_refl eq_refl) as (Hreg & _).
  refine (f_equal outbox (Hreg _)).
  split; [reflexivity|]. exists "B". split; [apply list_elem_of_here|reflexivity].
Defined.

(** [drawing_size_change_keeps_brush_visible] on a physical size of 5 µm at
    one µm per pixel. *)
Lemma drawing_size_change_witness :
  let s' := exec (Parts.onDrawingSizeChange upstream_units in_bounds_viewer 5) brush_state in
  brushPhysicalSize (tool s') = 5%float
  /\ (brushPixelSize (tool s') <? 1)%float = false.
Proof.
  intros s'.
  destruct (drawing_size_change_keeps_brush_visible upstream_units in_bounds_viewer 5
              brush_state (Some 1%float))
    as (Hsize & _ & Hpx & _).
  - vm_compute. reflexivity.
  - split; [exact Hsize|].
    apply (Hpx 1%float); [reflexivity|]. vm_compute. eauto.
Defined.
